(** * Binance futures trading bot: validators, exchange gateway and CLI flow

  A shallow embedding of [src/bot/validators.py], [src/bot/client.py],
  [src/cli.py] and [src/bot/logging_config.py].

  - Python [str] is [string], holding the UTF-8 form of the text; the
    builtins [upper], [lower], [strip] and [float] work on its code
    points, with the case mappings, blanks and decimal digits of the
    Unicode database of CPython 3.11.
  - Python [float] is IEEE 754 binary64, taken from [SpecFloat] with
    [prec = 53] and [emax = 1024]; the builtins [float(str)] and
    [str(float)] are written out after the Python language reference
    (correct rounding to nearest-even, shortest round-tripping digits).
  - Exceptions, [print], [logging], [input] and the exchange client are
    threaded through a small state-and-error monad: the state is the
    chronological list of observable events, the environment tells what
    the outside world answers. Writing to the screen and to the log is
    taken to succeed.
  - argparse is an outside library as well: what it reads off the
    command line is given, the conversion of [--price] and the exits of
    [parse_args] are modelled.
  - The logging configuration is modelled on the state of one logger
    and its handlers; it tells where the log records of a run are
    written. *)

From Stdlib Require Import ZArith List String Ascii Bool Lia.
From Stdlib Require Import Floats.SpecFloat.
Import ListNotations.

Local Open Scope string_scope.
Local Open Scope Z_scope.

(** ** Python [str]

  A [str] is held as the bytes of its UTF-8 form, so a text of the
  source and a [string] literal of this file read the same. The builtins
  that look at characters ([upper], [lower], [strip], [float]) work on
  the code points, after the Unicode database of CPython 3.11 (Unicode
  14.0.0). A byte that belongs to no well-formed UTF-8 sequence stands
  for itself: it is read as the lone surrogate [U+DC00 + byte], as Python
  reads the command line and the environment, which no builtin changes
  and which is written back as that byte. *)

Module PyStr.

Definition code (c : ascii) : N := N_of_ascii c.

Definition in_range (lo hi : N) (c : ascii) : bool :=
  ((lo <=? code c) && (code c <=? hi))%N.

Definition is_upper (c : ascii) : bool := in_range 65 90 c.
Definition is_digit (c : ascii) : bool := in_range 48 57 c.

(** *** Code points *)

Definition between (lo hi c : N) : bool := ((lo <=? c) && (c <=? hi))%N.

(** a byte [10xxxxxx] and its six bits *)
Definition continuation (b : ascii) : bool := in_range 128 191 b.
Definition low6 (b : ascii) : N := (code b - 128)%N.

(** the second byte of a sequence of three or four, which rules out
    overlong forms, surrogates and code points above [U+10FFFF] *)
Definition second_ok (b0 b1 : ascii) : bool :=
  let lo := (if code b0 =? 224 then 160 else
             if code b0 =? 240 then 144 else 128)%N in
  let hi := (if code b0 =? 237 then 159 else
             if code b0 =? 244 then 143 else 191)%N in
  in_range lo hi b1.

Definition two (b0 b1 : ascii) : N := ((code b0 - 192) * 64 + low6 b1)%N.
Definition three (b0 b1 b2 : ascii) : N :=
  ((code b0 - 224) * 4096 + low6 b1 * 64 + low6 b2)%N.
Definition four (b0 b1 b2 b3 : ascii) : N :=
  ((code b0 - 240) * 262144 + low6 b1 * 4096 + low6 b2 * 64 + low6 b3)%N.

(** a byte outside every well-formed sequence *)
Definition escape (b : ascii) : N := (56320 + code b)%N.

(** the code points of a text *)
Fixpoint decode (s : string) : list N :=
  match s with
  | EmptyString => []
  | String b0 s1 =>
      if (code b0 <? 128)%N then code b0 :: decode s1
      else
        match s1 with
        | String b1 s2 =>
            if in_range 194 223 b0 && continuation b1
            then two b0 b1 :: decode s2
            else
              match s2 with
              | String b2 s3 =>
                  if in_range 224 239 b0 && second_ok b0 b1 &&
                     continuation b2
                  then three b0 b1 b2 :: decode s3
                  else
                    match s3 with
                    | String b3 s4 =>
                        if in_range 240 244 b0 && second_ok b0 b1 &&
                           continuation b2 && continuation b3
                        then four b0 b1 b2 b3 :: decode s4
                        else escape b0 :: decode s1
                    | EmptyString => escape b0 :: decode s1
                    end
              | EmptyString => escape b0 :: decode s1
              end
        | EmptyString => escape b0 :: decode s1
        end
  end.

Definition byte (n : N) : ascii := ascii_of_N n.

Definition encode_char (c : N) : string :=
  (if c <? 128 then String (byte c) EmptyString
   else if between 56448 56575 c then String (byte (c - 56320)) EmptyString
   else if c <? 2048 then
     String (byte (192 + c / 64)) (String (byte (128 + c mod 64)) EmptyString)
   else if c <? 65536 then
     String (byte (224 + c / 4096))
       (String (byte (128 + (c / 64) mod 64))
          (String (byte (128 + c mod 64)) EmptyString))
   else
     String (byte (240 + c / 262144))
       (String (byte (128 + (c / 4096) mod 64))
          (String (byte (128 + (c / 64) mod 64))
             (String (byte (128 + c mod 64)) EmptyString))))%N.

(** the text of a list of code points *)
Fixpoint encode (l : list N) : string :=
  match l with
  | [] => EmptyString
  | c :: l' => encode_char c ++ encode l'
  end.

(** *** The character database *)

(** [str.isspace] of one code point, which is what [strip] removes:
    tab to carriage return, the separators 0x1c-0x1f, space, next line,
    no-break space and the spaces and line separators above them *)
Definition is_space (c : N) : bool :=
  (between 9 13 c || between 28 32 c || (c =? 133) || (c =? 160) ||
   (c =? 5760) || between 8192 8202 c || (c =? 8232) || (c =? 8233) ||
   (c =? 8239) || (c =? 8287) || (c =? 12288))%N.

(** the code points that [str.upper] replaces by more than one *)
Definition upper_special : list (N * list N) :=
  [
    (223, [83; 83]); (329, [700; 78]); (496, [74; 780]);
    (912, [921; 776; 769]); (944, [933; 776; 769]); (1415, [1333; 1362]);
    (7830, [72; 817]); (7831, [84; 776]); (7832, [87; 778]);
    (7833, [89; 778]); (7834, [65; 702]); (8016, [933; 787]);
    (8018, [933; 787; 768]); (8020, [933; 787; 769]); (8022, [933; 787; 834]);
    (8064, [7944; 921]); (8065, [7945; 921]); (8066, [7946; 921]);
    (8067, [7947; 921]); (8068, [7948; 921]); (8069, [7949; 921]);
    (8070, [7950; 921]); (8071, [7951; 921]); (8072, [7944; 921]);
    (8073, [7945; 921]); (8074, [7946; 921]); (8075, [7947; 921]);
    (8076, [7948; 921]); (8077, [7949; 921]); (8078, [7950; 921]);
    (8079, [7951; 921]); (8080, [7976; 921]); (8081, [7977; 921]);
    (8082, [7978; 921]); (8083, [7979; 921]); (8084, [7980; 921]);
    (8085, [7981; 921]); (8086, [7982; 921]); (8087, [7983; 921]);
    (8088, [7976; 921]); (8089, [7977; 921]); (8090, [7978; 921]);
    (8091, [7979; 921]); (8092, [7980; 921]); (8093, [7981; 921]);
    (8094, [7982; 921]); (8095, [7983; 921]); (8096, [8040; 921]);
    (8097, [8041; 921]); (8098, [8042; 921]); (8099, [8043; 921]);
    (8100, [8044; 921]); (8101, [8045; 921]); (8102, [8046; 921]);
    (8103, [8047; 921]); (8104, [8040; 921]); (8105, [8041; 921]);
    (8106, [8042; 921]); (8107, [8043; 921]); (8108, [8044; 921]);
    (8109, [8045; 921]); (8110, [8046; 921]); (8111, [8047; 921]);
    (8114, [8122; 921]); (8115, [913; 921]); (8116, [902; 921]);
    (8118, [913; 834]); (8119, [913; 834; 921]); (8124, [913; 921]);
    (8130, [8138; 921]); (8131, [919; 921]); (8132, [905; 921]);
    (8134, [919; 834]); (8135, [919; 834; 921]); (8140, [919; 921]);
    (8146, [921; 776; 768]); (8147, [921; 776; 769]); (8150, [921; 834]);
    (8151, [921; 776; 834]); (8162, [933; 776; 768]); (8163, [933; 776; 769]);
    (8164, [929; 787]); (8166, [933; 834]); (8167, [933; 776; 834]);
    (8178, [8186; 921]); (8179, [937; 921]); (8180, [911; 921]);
    (8182, [937; 834]); (8183, [937; 834; 921]); (8188, [937; 921]);
    (64256, [70; 70]); (64257, [70; 73]); (64258, [70; 76]);
    (64259, [70; 70; 73]); (64260, [70; 70; 76]); (64261, [83; 84]);
    (64262, [83; 84]); (64275, [1348; 1350]); (64276, [1348; 1333]);
    (64277, [1348; 1339]); (64278, [1358; 1350]); (64279, [1348; 1341])
  ]%N.

(** [(first, last, step, image of first)]: the code points that
    [str.upper] replaces by one other code point *)
Definition upper_ranges : list (N * N * N * N) :=
  [
    (97, 122, 1, 65); (181, 181, 1, 924); (224, 246, 1, 192);
    (248, 254, 1, 216); (255, 255, 1, 376); (257, 303, 2, 256);
    (305, 305, 1, 73); (307, 311, 2, 306); (314, 328, 2, 313);
    (331, 375, 2, 330); (378, 382, 2, 377); (383, 383, 1, 83);
    (384, 384, 1, 579); (387, 389, 2, 386); (392, 392, 1, 391);
    (396, 396, 1, 395); (402, 402, 1, 401); (405, 405, 1, 502);
    (409, 409, 1, 408); (410, 410, 1, 573); (414, 414, 1, 544);
    (417, 421, 2, 416); (424, 424, 1, 423); (429, 429, 1, 428);
    (432, 432, 1, 431); (436, 438, 2, 435); (441, 441, 1, 440);
    (445, 445, 1, 444); (447, 447, 1, 503); (453, 453, 1, 452);
    (454, 454, 1, 452); (456, 456, 1, 455); (457, 457, 1, 455);
    (459, 459, 1, 458); (460, 460, 1, 458); (462, 476, 2, 461);
    (477, 477, 1, 398); (479, 495, 2, 478); (498, 498, 1, 497);
    (499, 499, 1, 497); (501, 501, 1, 500); (505, 543, 2, 504);
    (547, 563, 2, 546); (572, 572, 1, 571); (575, 576, 1, 11390);
    (578, 578, 1, 577); (583, 591, 2, 582); (592, 592, 1, 11375);
    (593, 593, 1, 11373); (594, 594, 1, 11376); (595, 595, 1, 385);
    (596, 596, 1, 390); (598, 599, 1, 393); (601, 601, 1, 399);
    (603, 603, 1, 400); (604, 604, 1, 42923); (608, 608, 1, 403);
    (609, 609, 1, 42924); (611, 611, 1, 404); (613, 613, 1, 42893);
    (614, 614, 1, 42922); (616, 616, 1, 407); (617, 617, 1, 406);
    (618, 618, 1, 42926); (619, 619, 1, 11362); (620, 620, 1, 42925);
    (623, 623, 1, 412); (625, 625, 1, 11374); (626, 626, 1, 413);
    (629, 629, 1, 415); (637, 637, 1, 11364); (640, 640, 1, 422);
    (642, 642, 1, 42949); (643, 643, 1, 425); (647, 647, 1, 42929);
    (648, 648, 1, 430); (649, 649, 1, 580); (650, 651, 1, 433);
    (652, 652, 1, 581); (658, 658, 1, 439); (669, 669, 1, 42930);
    (670, 670, 1, 42928); (837, 837, 1, 921); (881, 883, 2, 880);
    (887, 887, 1, 886); (891, 893, 1, 1021); (940, 940, 1, 902);
    (941, 943, 1, 904); (945, 961, 1, 913); (962, 962, 1, 931);
    (963, 971, 1, 931); (972, 972, 1, 908); (973, 974, 1, 910);
    (976, 976, 1, 914); (977, 977, 1, 920); (981, 981, 1, 934);
    (982, 982, 1, 928); (983, 983, 1, 975); (985, 1007, 2, 984);
    (1008, 1008, 1, 922); (1009, 1009, 1, 929); (1010, 1010, 1, 1017);
    (1011, 1011, 1, 895); (1013, 1013, 1, 917); (1016, 1016, 1, 1015);
    (1019, 1019, 1, 1018); (1072, 1103, 1, 1040); (1104, 1119, 1, 1024);
    (1121, 1153, 2, 1120); (1163, 1215, 2, 1162); (1218, 1230, 2, 1217);
    (1231, 1231, 1, 1216); (1233, 1327, 2, 1232); (1377, 1414, 1, 1329);
    (4304, 4346, 1, 7312); (4349, 4351, 1, 7357); (5112, 5117, 1, 5104);
    (7296, 7296, 1, 1042); (7297, 7297, 1, 1044); (7298, 7298, 1, 1054);
    (7299, 7300, 1, 1057); (7301, 7301, 1, 1058); (7302, 7302, 1, 1066);
    (7303, 7303, 1, 1122); (7304, 7304, 1, 42570); (7545, 7545, 1, 42877);
    (7549, 7549, 1, 11363); (7566, 7566, 1, 42950); (7681, 7829, 2, 7680);
    (7835, 7835, 1, 7776); (7841, 7935, 2, 7840); (7936, 7943, 1, 7944);
    (7952, 7957, 1, 7960); (7968, 7975, 1, 7976); (7984, 7991, 1, 7992);
    (8000, 8005, 1, 8008); (8017, 8023, 2, 8025); (8032, 8039, 1, 8040);
    (8048, 8049, 1, 8122); (8050, 8053, 1, 8136); (8054, 8055, 1, 8154);
    (8056, 8057, 1, 8184); (8058, 8059, 1, 8170); (8060, 8061, 1, 8186);
    (8112, 8113, 1, 8120); (8126, 8126, 1, 921); (8144, 8145, 1, 8152);
    (8160, 8161, 1, 8168); (8165, 8165, 1, 8172); (8526, 8526, 1, 8498);
    (8560, 8575, 1, 8544); (8580, 8580, 1, 8579); (9424, 9449, 1, 9398);
    (11312, 11359, 1, 11264); (11361, 11361, 1, 11360); (11365, 11365, 1, 570);
    (11366, 11366, 1, 574); (11368, 11372, 2, 11367); (11379, 11379, 1, 11378);
    (11382, 11382, 1, 11381); (11393, 11491, 2, 11392); (11500, 11502, 2, 11499);
    (11507, 11507, 1, 11506); (11520, 11557, 1, 4256); (11559, 11559, 1, 4295);
    (11565, 11565, 1, 4301); (42561, 42605, 2, 42560); (42625, 42651, 2, 42624);
    (42787, 42799, 2, 42786); (42803, 42863, 2, 42802); (42874, 42876, 2, 42873);
    (42879, 42887, 2, 42878); (42892, 42892, 1, 42891); (42897, 42899, 2, 42896);
    (42900, 42900, 1, 42948); (42903, 42921, 2, 42902); (42933, 42947, 2, 42932);
    (42952, 42954, 2, 42951); (42961, 42961, 1, 42960); (42967, 42969, 2, 42966);
    (42998, 42998, 1, 42997); (43859, 43859, 1, 42931); (43888, 43967, 1, 5024);
    (65345, 65370, 1, 65313); (66600, 66639, 1, 66560); (66776, 66811, 1, 66736);
    (66967, 66977, 1, 66928); (66979, 66993, 1, 66940); (66995, 67001, 1, 66956);
    (67003, 67004, 1, 66964); (68800, 68850, 1, 68736); (71872, 71903, 1, 71840);
    (93792, 93823, 1, 93760); (125218, 125251, 1, 125184)
  ]%N.

(** the code point that [str.lower] replaces by more than one *)
Definition lower_special : list (N * list N) :=
  [
    (304, [105; 775])
  ]%N.

(** the code points that [str.lower] replaces by one other code point *)
Definition lower_ranges : list (N * N * N * N) :=
  [
    (65, 90, 1, 97); (192, 214, 1, 224); (216, 222, 1, 248);
    (256, 302, 2, 257); (306, 310, 2, 307); (313, 327, 2, 314);
    (330, 374, 2, 331); (376, 376, 1, 255); (377, 381, 2, 378);
    (385, 385, 1, 595); (386, 388, 2, 387); (390, 390, 1, 596);
    (391, 391, 1, 392); (393, 394, 1, 598); (395, 395, 1, 396);
    (398, 398, 1, 477); (399, 399, 1, 601); (400, 400, 1, 603);
    (401, 401, 1, 402); (403, 403, 1, 608); (404, 404, 1, 611);
    (406, 406, 1, 617); (407, 407, 1, 616); (408, 408, 1, 409);
    (412, 412, 1, 623); (413, 413, 1, 626); (415, 415, 1, 629);
    (416, 420, 2, 417); (422, 422, 1, 640); (423, 423, 1, 424);
    (425, 425, 1, 643); (428, 428, 1, 429); (430, 430, 1, 648);
    (431, 431, 1, 432); (433, 434, 1, 650); (435, 437, 2, 436);
    (439, 439, 1, 658); (440, 440, 1, 441); (444, 444, 1, 445);
    (452, 452, 1, 454); (453, 453, 1, 454); (455, 455, 1, 457);
    (456, 456, 1, 457); (458, 458, 1, 460); (459, 475, 2, 460);
    (478, 494, 2, 479); (497, 497, 1, 499); (498, 500, 2, 499);
    (502, 502, 1, 405); (503, 503, 1, 447); (504, 542, 2, 505);
    (544, 544, 1, 414); (546, 562, 2, 547); (570, 570, 1, 11365);
    (571, 571, 1, 572); (573, 573, 1, 410); (574, 574, 1, 11366);
    (577, 577, 1, 578); (579, 579, 1, 384); (580, 580, 1, 649);
    (581, 581, 1, 652); (582, 590, 2, 583); (880, 882, 2, 881);
    (886, 886, 1, 887); (895, 895, 1, 1011); (902, 902, 1, 940);
    (904, 906, 1, 941); (908, 908, 1, 972); (910, 911, 1, 973);
    (913, 929, 1, 945); (931, 939, 1, 963); (975, 975, 1, 983);
    (984, 1006, 2, 985); (1012, 1012, 1, 952); (1015, 1015, 1, 1016);
    (1017, 1017, 1, 1010); (1018, 1018, 1, 1019); (1021, 1023, 1, 891);
    (1024, 1039, 1, 1104); (1040, 1071, 1, 1072); (1120, 1152, 2, 1121);
    (1162, 1214, 2, 1163); (1216, 1216, 1, 1231); (1217, 1229, 2, 1218);
    (1232, 1326, 2, 1233); (1329, 1366, 1, 1377); (4256, 4293, 1, 11520);
    (4295, 4295, 1, 11559); (4301, 4301, 1, 11565); (5024, 5103, 1, 43888);
    (5104, 5109, 1, 5112); (7312, 7354, 1, 4304); (7357, 7359, 1, 4349);
    (7680, 7828, 2, 7681); (7838, 7838, 1, 223); (7840, 7934, 2, 7841);
    (7944, 7951, 1, 7936); (7960, 7965, 1, 7952); (7976, 7983, 1, 7968);
    (7992, 7999, 1, 7984); (8008, 8013, 1, 8000); (8025, 8031, 2, 8017);
    (8040, 8047, 1, 8032); (8072, 8079, 1, 8064); (8088, 8095, 1, 8080);
    (8104, 8111, 1, 8096); (8120, 8121, 1, 8112); (8122, 8123, 1, 8048);
    (8124, 8124, 1, 8115); (8136, 8139, 1, 8050); (8140, 8140, 1, 8131);
    (8152, 8153, 1, 8144); (8154, 8155, 1, 8054); (8168, 8169, 1, 8160);
    (8170, 8171, 1, 8058); (8172, 8172, 1, 8165); (8184, 8185, 1, 8056);
    (8186, 8187, 1, 8060); (8188, 8188, 1, 8179); (8486, 8486, 1, 969);
    (8490, 8490, 1, 107); (8491, 8491, 1, 229); (8498, 8498, 1, 8526);
    (8544, 8559, 1, 8560); (8579, 8579, 1, 8580); (9398, 9423, 1, 9424);
    (11264, 11311, 1, 11312); (11360, 11360, 1, 11361); (11362, 11362, 1, 619);
    (11363, 11363, 1, 7549); (11364, 11364, 1, 637); (11367, 11371, 2, 11368);
    (11373, 11373, 1, 593); (11374, 11374, 1, 625); (11375, 11375, 1, 592);
    (11376, 11376, 1, 594); (11378, 11378, 1, 11379); (11381, 11381, 1, 11382);
    (11390, 11391, 1, 575); (11392, 11490, 2, 11393); (11499, 11501, 2, 11500);
    (11506, 11506, 1, 11507); (42560, 42604, 2, 42561); (42624, 42650, 2, 42625);
    (42786, 42798, 2, 42787); (42802, 42862, 2, 42803); (42873, 42875, 2, 42874);
    (42877, 42877, 1, 7545); (42878, 42886, 2, 42879); (42891, 42891, 1, 42892);
    (42893, 42893, 1, 613); (42896, 42898, 2, 42897); (42902, 42920, 2, 42903);
    (42922, 42922, 1, 614); (42923, 42923, 1, 604); (42924, 42924, 1, 609);
    (42925, 42925, 1, 620); (42926, 42926, 1, 618); (42928, 42928, 1, 670);
    (42929, 42929, 1, 647); (42930, 42930, 1, 669); (42931, 42931, 1, 43859);
    (42932, 42946, 2, 42933); (42948, 42948, 1, 42900); (42949, 42949, 1, 642);
    (42950, 42950, 1, 7566); (42951, 42953, 2, 42952); (42960, 42960, 1, 42961);
    (42966, 42968, 2, 42967); (42997, 42997, 1, 42998); (65313, 65338, 1, 65345);
    (66560, 66599, 1, 66600); (66736, 66771, 1, 66776); (66928, 66938, 1, 66967);
    (66940, 66954, 1, 66979); (66956, 66962, 1, 66995); (66964, 66965, 1, 67003);
    (68736, 68786, 1, 68800); (71840, 71871, 1, 71872); (93760, 93791, 1, 93792);
    (125184, 125217, 1, 125218)
  ]%N.

(** [(first, last)]: the case-ignorable code points *)
Definition case_ignorable : list (N * N) :=
  [
    (39, 39); (46, 46); (58, 58); (94, 94); (96, 96);
    (168, 168); (173, 173); (175, 175); (180, 180); (183, 184);
    (688, 879); (884, 885); (890, 890); (900, 901); (903, 903);
    (1155, 1161); (1369, 1369); (1375, 1375); (1425, 1469); (1471, 1471);
    (1473, 1474); (1476, 1477); (1479, 1479); (1524, 1524); (1536, 1541);
    (1552, 1562); (1564, 1564); (1600, 1600); (1611, 1631); (1648, 1648);
    (1750, 1757); (1759, 1768); (1770, 1773); (1807, 1807); (1809, 1809);
    (1840, 1866); (1958, 1968); (2027, 2037); (2042, 2042); (2045, 2045);
    (2070, 2093); (2137, 2139); (2184, 2184); (2192, 2193); (2200, 2207);
    (2249, 2306); (2362, 2362); (2364, 2364); (2369, 2376); (2381, 2381);
    (2385, 2391); (2402, 2403); (2417, 2417); (2433, 2433); (2492, 2492);
    (2497, 2500); (2509, 2509); (2530, 2531); (2558, 2558); (2561, 2562);
    (2620, 2620); (2625, 2626); (2631, 2632); (2635, 2637); (2641, 2641);
    (2672, 2673); (2677, 2677); (2689, 2690); (2748, 2748); (2753, 2757);
    (2759, 2760); (2765, 2765); (2786, 2787); (2810, 2815); (2817, 2817);
    (2876, 2876); (2879, 2879); (2881, 2884); (2893, 2893); (2901, 2902);
    (2914, 2915); (2946, 2946); (3008, 3008); (3021, 3021); (3072, 3072);
    (3076, 3076); (3132, 3132); (3134, 3136); (3142, 3144); (3146, 3149);
    (3157, 3158); (3170, 3171); (3201, 3201); (3260, 3260); (3263, 3263);
    (3270, 3270); (3276, 3277); (3298, 3299); (3328, 3329); (3387, 3388);
    (3393, 3396); (3405, 3405); (3426, 3427); (3457, 3457); (3530, 3530);
    (3538, 3540); (3542, 3542); (3633, 3633); (3636, 3642); (3654, 3662);
    (3761, 3761); (3764, 3772); (3782, 3782); (3784, 3789); (3864, 3865);
    (3893, 3893); (3895, 3895); (3897, 3897); (3953, 3966); (3968, 3972);
    (3974, 3975); (3981, 3991); (3993, 4028); (4038, 4038); (4141, 4144);
    (4146, 4151); (4153, 4154); (4157, 4158); (4184, 4185); (4190, 4192);
    (4209, 4212); (4226, 4226); (4229, 4230); (4237, 4237); (4253, 4253);
    (4348, 4348); (4957, 4959); (5906, 5908); (5938, 5939); (5970, 5971);
    (6002, 6003); (6068, 6069); (6071, 6077); (6086, 6086); (6089, 6099);
    (6103, 6103); (6109, 6109); (6155, 6159); (6211, 6211); (6277, 6278);
    (6313, 6313); (6432, 6434); (6439, 6440); (6450, 6450); (6457, 6459);
    (6679, 6680); (6683, 6683); (6742, 6742); (6744, 6750); (6752, 6752);
    (6754, 6754); (6757, 6764); (6771, 6780); (6783, 6783); (6823, 6823);
    (6832, 6862); (6912, 6915); (6964, 6964); (6966, 6970); (6972, 6972);
    (6978, 6978); (7019, 7027); (7040, 7041); (7074, 7077); (7080, 7081);
    (7083, 7085); (7142, 7142); (7144, 7145); (7149, 7149); (7151, 7153);
    (7212, 7219); (7222, 7223); (7288, 7293); (7376, 7378); (7380, 7392);
    (7394, 7400); (7405, 7405); (7412, 7412); (7416, 7417); (7468, 7530);
    (7544, 7544); (7579, 7679); (8125, 8125); (8127, 8129); (8141, 8143);
    (8157, 8159); (8173, 8175); (8189, 8190); (8203, 8207); (8216, 8217);
    (8228, 8228); (8231, 8231); (8234, 8238); (8288, 8292); (8294, 8303);
    (8305, 8305); (8319, 8319); (8336, 8348); (8400, 8432); (11388, 11389);
    (11503, 11505); (11631, 11631); (11647, 11647); (11744, 11775); (11823, 11823);
    (12293, 12293); (12330, 12333); (12337, 12341); (12347, 12347); (12441, 12446);
    (12540, 12542); (40981, 40981); (42232, 42237); (42508, 42508); (42607, 42610);
    (42612, 42621); (42623, 42623); (42652, 42655); (42736, 42737); (42752, 42785);
    (42864, 42864); (42888, 42890); (42994, 42996); (43000, 43001); (43010, 43010);
    (43014, 43014); (43019, 43019); (43045, 43046); (43052, 43052); (43204, 43205);
    (43232, 43249); (43263, 43263); (43302, 43309); (43335, 43345); (43392, 43394);
    (43443, 43443); (43446, 43449); (43452, 43453); (43471, 43471); (43493, 43494);
    (43561, 43566); (43569, 43570); (43573, 43574); (43587, 43587); (43596, 43596);
    (43632, 43632); (43644, 43644); (43696, 43696); (43698, 43700); (43703, 43704);
    (43710, 43711); (43713, 43713); (43741, 43741); (43756, 43757); (43763, 43764);
    (43766, 43766); (43867, 43871); (43881, 43883); (44005, 44005); (44008, 44008);
    (44013, 44013); (64286, 64286); (64434, 64450); (65024, 65039); (65043, 65043);
    (65056, 65071); (65106, 65106); (65109, 65109); (65279, 65279); (65287, 65287);
    (65294, 65294); (65306, 65306); (65342, 65342); (65344, 65344); (65392, 65392);
    (65438, 65439); (65507, 65507); (65529, 65531); (66045, 66045); (66272, 66272);
    (66422, 66426); (67456, 67461); (67463, 67504); (67506, 67514); (68097, 68099);
    (68101, 68102); (68108, 68111); (68152, 68154); (68159, 68159); (68325, 68326);
    (68900, 68903); (69291, 69292); (69446, 69456); (69506, 69509); (69633, 69633);
    (69688, 69702); (69744, 69744); (69747, 69748); (69759, 69761); (69811, 69814);
    (69817, 69818); (69821, 69821); (69826, 69826); (69837, 69837); (69888, 69890);
    (69927, 69931); (69933, 69940); (70003, 70003); (70016, 70017); (70070, 70078);
    (70089, 70092); (70095, 70095); (70191, 70193); (70196, 70196); (70198, 70199);
    (70206, 70206); (70367, 70367); (70371, 70378); (70400, 70401); (70459, 70460);
    (70464, 70464); (70502, 70508); (70512, 70516); (70712, 70719); (70722, 70724);
    (70726, 70726); (70750, 70750); (70835, 70840); (70842, 70842); (70847, 70848);
    (70850, 70851); (71090, 71093); (71100, 71101); (71103, 71104); (71132, 71133);
    (71219, 71226); (71229, 71229); (71231, 71232); (71339, 71339); (71341, 71341);
    (71344, 71349); (71351, 71351); (71453, 71455); (71458, 71461); (71463, 71467);
    (71727, 71735); (71737, 71738); (71995, 71996); (71998, 71998); (72003, 72003);
    (72148, 72151); (72154, 72155); (72160, 72160); (72193, 72202); (72243, 72248);
    (72251, 72254); (72263, 72263); (72273, 72278); (72281, 72283); (72330, 72342);
    (72344, 72345); (72752, 72758); (72760, 72765); (72767, 72767); (72850, 72871);
    (72874, 72880); (72882, 72883); (72885, 72886); (73009, 73014); (73018, 73018);
    (73020, 73021); (73023, 73029); (73031, 73031); (73104, 73105); (73109, 73109);
    (73111, 73111); (73459, 73460); (78896, 78904); (92912, 92916); (92976, 92982);
    (92992, 92995); (94031, 94031); (94095, 94111); (94176, 94177); (94179, 94180);
    (110576, 110579); (110581, 110587); (110589, 110590); (113821, 113822); (113824, 113827);
    (118528, 118573); (118576, 118598); (119143, 119145); (119155, 119170); (119173, 119179);
    (119210, 119213); (119362, 119364); (121344, 121398); (121403, 121452); (121461, 121461);
    (121476, 121476); (121499, 121503); (121505, 121519); (122880, 122886); (122888, 122904);
    (122907, 122913); (122915, 122916); (122918, 122922); (123184, 123197); (123566, 123566);
    (123628, 123631); (125136, 125142); (125252, 125259); (127995, 127999); (917505, 917505);
    (917536, 917631); (917760, 917999)
  ]%N.

(** the cased code points that are not case-ignorable *)
Definition cased_letters : list (N * N) :=
  [
    (65, 90); (97, 122); (170, 170); (181, 181); (186, 186);
    (192, 214); (216, 246); (248, 442); (444, 447); (452, 659);
    (661, 687); (880, 883); (886, 887); (891, 893); (895, 895);
    (902, 902); (904, 906); (908, 908); (910, 929); (931, 1013);
    (1015, 1153); (1162, 1327); (1329, 1366); (1376, 1416); (4256, 4293);
    (4295, 4295); (4301, 4301); (4304, 4346); (4349, 4351); (5024, 5109);
    (5112, 5117); (7296, 7304); (7312, 7354); (7357, 7359); (7424, 7467);
    (7531, 7543); (7545, 7578); (7680, 7957); (7960, 7965); (7968, 8005);
    (8008, 8013); (8016, 8023); (8025, 8025); (8027, 8027); (8029, 8029);
    (8031, 8061); (8064, 8116); (8118, 8124); (8126, 8126); (8130, 8132);
    (8134, 8140); (8144, 8147); (8150, 8155); (8160, 8172); (8178, 8180);
    (8182, 8188); (8450, 8450); (8455, 8455); (8458, 8467); (8469, 8469);
    (8473, 8477); (8484, 8484); (8486, 8486); (8488, 8488); (8490, 8493);
    (8495, 8500); (8505, 8505); (8508, 8511); (8517, 8521); (8526, 8526);
    (8544, 8575); (8579, 8580); (9398, 9449); (11264, 11387); (11390, 11492);
    (11499, 11502); (11506, 11507); (11520, 11557); (11559, 11559); (11565, 11565);
    (42560, 42605); (42624, 42651); (42786, 42863); (42865, 42887); (42891, 42894);
    (42896, 42954); (42960, 42961); (42963, 42963); (42965, 42969); (42997, 42998);
    (43002, 43002); (43824, 43866); (43872, 43880); (43888, 43967); (64256, 64262);
    (64275, 64279); (65313, 65338); (65345, 65370); (66560, 66639); (66736, 66771);
    (66776, 66811); (66928, 66938); (66940, 66954); (66956, 66962); (66964, 66965);
    (66967, 66977); (66979, 66993); (66995, 67001); (67003, 67004); (68736, 68786);
    (68800, 68850); (71840, 71903); (93760, 93823); (119808, 119892); (119894, 119964);
    (119966, 119967); (119970, 119970); (119973, 119974); (119977, 119980); (119982, 119993);
    (119995, 119995); (119997, 120003); (120005, 120069); (120071, 120074); (120077, 120084);
    (120086, 120092); (120094, 120121); (120123, 120126); (120128, 120132); (120134, 120134);
    (120138, 120144); (120146, 120485); (120488, 120512); (120514, 120538); (120540, 120570);
    (120572, 120596); (120598, 120628); (120630, 120654); (120656, 120686); (120688, 120712);
    (120714, 120744); (120746, 120770); (120772, 120779); (122624, 122633); (122635, 122654);
    (125184, 125251); (127280, 127305); (127312, 127337); (127344, 127369)
  ]%N.

(** the digit zero of every script; the digits one to nine follow it *)
Definition decimal_zeros : list N :=
  [
    48; 1632; 1776; 1984; 2406; 2534; 2662; 2790; 2918; 3046;
    3174; 3302; 3430; 3558; 3664; 3792; 3872; 4160; 4240; 6112;
    6160; 6470; 6608; 6784; 6800; 6992; 7088; 7232; 7248; 42528;
    43216; 43264; 43472; 43504; 43600; 44016; 65296; 66720; 68912; 69734;
    69872; 69942; 70096; 70384; 70736; 70864; 71248; 71360; 71472; 71904;
    72016; 72784; 73040; 73120; 92768; 92864; 93008; 120782; 120792; 120802;
    120812; 120822; 123200; 123632; 125264; 130032
  ]%N.

Fixpoint special_in (t : list (N * list N)) (c : N) : option (list N) :=
  match t with
  | [] => None
  | (k, v) :: t' => if (k =? c)%N then Some v else special_in t' c
  end.

Fixpoint shift_in (t : list (N * N * N * N)) (c : N) : option N :=
  match t with
  | [] => None
  | (first, last, step, image) :: t' =>
      if between first last c && ((c - first) mod step =? 0)%N
      then Some (image + (c - first))%N
      else shift_in t' c
  end.

Fixpoint in_runs (t : list (N * N)) (c : N) : bool :=
  match t with
  | [] => false
  | (first, last) :: t' => between first last c || in_runs t' c
  end.

(** the uppercase and the lowercase form of one code point *)
Definition to_upper (c : N) : list N :=
  match special_in upper_special c with
  | Some l => l
  | None =>
      match shift_in upper_ranges c with
      | Some u => [u]
      | None => [c]
      end
  end.

Definition to_lower (c : N) : list N :=
  match special_in lower_special c with
  | Some l => l
  | None =>
      match shift_in lower_ranges c with
      | Some u => [u]
      | None => [c]
      end
  end.

Definition is_case_ignorable (c : N) : bool := in_runs case_ignorable c.

(** asked only of code points that are not case-ignorable *)
Definition is_cased (c : N) : bool := in_runs cased_letters c.

(** the value of a decimal digit of any script *)
Fixpoint digit_in (t : list N) (c : N) : option N :=
  match t with
  | [] => None
  | zero :: t' =>
      if between zero (zero + 9) c then Some (c - zero)%N
      else digit_in t' c
  end.

Definition decimal (c : N) : option N := digit_in decimal_zeros c.

(** *** [s.upper()], [s.lower()], [s.strip()] *)

Definition upper (s : string) : string :=
  encode (flat_map to_upper (decode s)).

Fixpoint first_not_ignorable (l : list N) : option N :=
  match l with
  | [] => None
  | c :: l' =>
      if is_case_ignorable c then first_not_ignorable l' else Some c
  end.

(** a capital sigma is lowered to the final form when a cased letter
    stands before it and none behind it, case-ignorable code points
    skipped; [before] is what precedes it, nearest first *)
Definition final_sigma (before after : list N) : bool :=
  match first_not_ignorable before with
  | Some c =>
      is_cased c &&
      match first_not_ignorable after with
      | Some d => negb (is_cased d)
      | None => true
      end
  | None => false
  end.

Fixpoint lower_from (before l : list N) : list N :=
  match l with
  | [] => []
  | c :: l' =>
      ((if (c =? 931)%N
        then [if final_sigma before l' then 962%N else 963%N]
        else to_lower c) ++ lower_from (c :: before) l')%list
  end.

Definition lower (s : string) : string :=
  encode (lower_from [] (decode s)).

Fixpoint lstrip_list (sp : N -> bool) (l : list N) : list N :=
  match l with
  | [] => []
  | c :: l' => if sp c then lstrip_list sp l' else l
  end.

Fixpoint rstrip_list (sp : N -> bool) (l : list N) : list N :=
  match l with
  | [] => []
  | c :: l' =>
      match rstrip_list sp l' with
      | [] => if sp c then [] else [c]
      | r => c :: r
      end
  end.

Definition strip (s : string) : string :=
  encode (rstrip_list is_space (lstrip_list is_space (decode s))).

(** *** Texts of the program itself, byte by byte *)

Fixpoint map_str (f : ascii -> ascii) (s : string) : string :=
  match s with
  | EmptyString => EmptyString
  | String c s' => String (f c) (map_str f s')
  end.

Fixpoint lstrip_by (sp : ascii -> bool) (s : string) : string :=
  match s with
  | EmptyString => EmptyString
  | String c s' => if sp c then lstrip_by sp s' else s
  end.

Fixpoint rstrip_by (sp : ascii -> bool) (s : string) : string :=
  match s with
  | EmptyString => EmptyString
  | String c s' =>
      match rstrip_by sp s' with
      | EmptyString => if sp c then EmptyString else String c EmptyString
      | r => String c r
      end
  end.

Definition strip_by (sp : ascii -> bool) (s : string) : string :=
  rstrip_by sp (lstrip_by sp s).

(** the last character of [s] satisfies [sp] *)
Fixpoint ends_with (sp : ascii -> bool) (s : string) : bool :=
  match s with
  | EmptyString => false
  | String c EmptyString => sp c
  | String _ s' => ends_with sp s'
  end.

Fixpoint all_chars (p : ascii -> bool) (s : string) : bool :=
  match s with
  | EmptyString => true
  | String c s' => p c && all_chars p s'
  end.

(** [c * n] for a one-character string [c] *)
Fixpoint repeat_char (c : ascii) (n : nat) : string :=
  match n with
  | O => EmptyString
  | S n' => String c (repeat_char c n')
  end.

(** [needle in s] *)
Fixpoint contains (needle s : string) : bool :=
  prefix needle s ||
  match s with
  | EmptyString => false
  | String _ s' => contains needle s'
  end.

(** [str(n)] for an [int] *)
Definition digit_char (d : Z) : ascii := ascii_of_N (48 + Z.to_N d).

Fixpoint dec_digits (fuel : nat) (n : Z) (acc : string) : string :=
  match fuel with
  | O => acc
  | S fuel' =>
      let acc' := String (digit_char (n mod 10)) acc in
      if n <? 10 then acc' else dec_digits fuel' (n / 10) acc'
  end.

Definition str_nonneg (n : Z) : string :=
  dec_digits (S (Z.to_nat (Z.log2 n))) n EmptyString.

Definition str_int (n : Z) : string :=
  if n <? 0 then String "-" (str_nonneg (- n)) else str_nonneg n.

End PyStr.

Import PyStr.

(** ** Python [float]: IEEE 754 binary64 *)

Module PyFloat.

Definition float : Type := spec_float.

Definition prec : Z := 53.
Definition emax : Z := 1024.

(** *** [float(s)] for a [str]

    The blanks of C's [isspace] are removed at both ends; then an
    optional sign and
    either [inf], [infinity], [nan] (any case) or a decimal number
    [digitpart? "." digitpart | digitpart "."?] with an optional exponent,
    where [digitpart ::= digit (["_"] digit)*]. The decimal value is
    rounded to the nearest binary64, ties to even. *)

(** the blanks of C's [isspace]: tab to carriage return, and space *)
Definition is_c_space (c : ascii) : bool :=
  in_range 9 13 c || (code c =? 32)%N.

Definition digit_val (c : ascii) : Z := Z.of_N (code c) - 48.

(** the rest of a digitpart, after one digit has been read *)
Fixpoint digits_tail (s : string) (acc n : Z) : Z * Z * string :=
  match s with
  | String c s' =>
      if is_digit c then digits_tail s' (10 * acc + digit_val c) (n + 1)
      else if (c =? "_")%char then
        match s' with
        | String d s'' =>
            if is_digit d
            then digits_tail s'' (10 * acc + digit_val d) (n + 1)
            else (acc, n, s)
        | EmptyString => (acc, n, s)
        end
      else (acc, n, s)
  | EmptyString => (acc, n, s)
  end.

(** a digitpart at the head of [s]: its value appended to [acc], the
    number of digits read, and what follows *)
Definition digitpart (s : string) (acc : Z) : option (Z * Z * string) :=
  match s with
  | String c s' =>
      if is_digit c then Some (digits_tail s' (10 * acc + digit_val c) 1)
      else None
  | EmptyString => None
  end.

(** [number]: all the digits as one integer, and how many of them are
    behind the point *)
Definition parse_number (s : string) : option (Z * Z * string) :=
  match s with
  | String "." s' => digitpart s' 0
  | _ =>
      match digitpart s 0 with
      | Some (m, _, String "." rest) =>
          match digitpart rest m with
          | Some r => Some r
          | None => Some (m, 0, rest)
          end
      | Some (m, _, rest) => Some (m, 0, rest)
      | None => None
      end
  end.

Definition take_sign (s : string) : bool * string :=
  match s with
  | String "-" s' => (true, s')
  | String "+" s' => (false, s')
  | _ => (false, s)
  end.

(** [exponent] up to the end of the text; no exponent is exponent 0 *)
Definition parse_exponent (s : string) : option Z :=
  match s with
  | EmptyString => Some 0
  | String c s' =>
      if ((c =? "e") || (c =? "E"))%char then
        let '(neg, ds) := take_sign s' in
        match digitpart ds 0 with
        | Some (v, _, EmptyString) => Some (if neg then - v else v)
        | _ => None
        end
      else None
  end.

Definition signed (neg : bool) (m : Z) : Z := if neg then - m else m.

(** [m * 10^e] rounded to binary64. For a negative [e] the quotient is
    computed with at least 56 significant bits and one more bit that
    records a non-zero remainder, which rounds as the exact quotient. *)
Definition round_decimal (neg : bool) (m e : Z) : float :=
  if m =? 0 then S754_zero neg
  else if 0 <=? e then
    binary_normalize prec emax (signed neg (m * 10 ^ e)) 0 neg
  else
    let d := 10 ^ (- e) in
    let k := Z.max 0 (56 + Z.log2 d - Z.log2 m) in
    let n := m * 2 ^ k in
    let q := n / d in
    let sticky := if n mod d =? 0 then 0 else 1 in
    binary_normalize prec emax (signed neg (2 * q + sticky)) (- k - 1) neg.

(** ASCII letters in lower case, as C's [tolower] has them *)
Definition fold_char (c : ascii) : ascii :=
  if is_upper c then ascii_of_N (code c + 32) else c.

Definition is_ascii (c : ascii) : bool := (code c <? 128)%N.

(** What [float] makes of a text that is not all ASCII before it reads
    it: a blank becomes a space, a decimal digit of any script the ASCII
    digit of its value, and the text is cut behind the first code point
    from 127 on that is neither, which becomes a question mark. *)
Fixpoint to_ascii (l : list N) : string :=
  match l with
  | [] => EmptyString
  | c :: l' =>
      if (c <? 127)%N then String (byte c) (to_ascii l')
      else if is_space c then String " " (to_ascii l')
      else
        match decimal c with
        | Some d => String (byte (48 + d)) (to_ascii l')
        | None => "?"
        end
  end.

Definition float_of_string (s : string) : option float :=
  let text := if all_chars is_ascii s then s else to_ascii (decode s) in
  let '(neg, body) := take_sign (strip_by is_c_space text) in
  let l := map_str fold_char body in
  if ((l =? "inf") || (l =? "infinity"))%string then Some (S754_infinity neg)
  else if (l =? "nan")%string then Some S754_nan
  else
    match parse_number body with
    | Some (m, nfrac, rest) =>
        match parse_exponent rest with
        | Some e => Some (round_decimal neg m (e - nfrac))
        | None => None
        end
    | None => None
    end.

(** *** Comparison and truth value *)

Definition leb : float -> float -> bool := SFleb.
Definition ltb : float -> float -> bool := SFltb.

(** the [int] 0 and the literal [0.001] of the source *)
Definition f_zero : float := S754_zero false.
Definition f_0_001 : float := Eval vm_compute in round_decimal false 1 (-3).

(** [bool(x)]: every float but the two zeros is true *)
Definition truthy (x : float) : bool :=
  match x with
  | S754_zero _ => false
  | _ => true
  end.

(** *** [str(x)] and [repr(x)]

    The shortest decimal digits that read back as [x], the nearest to
    [x] among those of that length (ties to the even digit); printed in
    positional notation when the decimal point position [decpt]
    satisfies [-4 < decpt <= 16], in exponent notation otherwise. *)

(** [num / den < 10 ^ t] *)
Definition below_pow10 (num den t : Z) : bool :=
  if 0 <=? t then num <? den * 10 ^ t else num * 10 ^ (- t) <? den.

Fixpoint first_below (fuel : nat) (num den t : Z) : Z :=
  match fuel with
  | O => t
  | S fuel' =>
      if below_pow10 num den t then t else first_below fuel' num den (t + 1)
  end.

(** the least [t] with [num / den < 10 ^ t] *)
Definition decpt_of (num den : Z) : Z :=
  let est := ((Z.log2 num - Z.log2 den) * 30103) / 100000 in
  first_below 6 num den (est - 2).

(** the [n]-digit decimal [c * 10 ^ p] that reads back as [x], if any:
    the two neighbours of [num / den], the nearer one first *)
Definition candidate (x : float) (num den t : Z) (n : Z) : option (Z * Z) :=
  let p := t - n in
  let '(a, b) := if 0 <=? p then (num, den * 10 ^ p)
                 else (num * 10 ^ (- p), den) in
  let lo := a / b in
  let r := a mod b in
  let hi := lo + 1 in
  let up_first := (b <? 2 * r) || ((b =? 2 * r) && Z.odd lo) in
  let '(c1, c2) := if up_first then (hi, lo) else (lo, hi) in
  let back c := match round_decimal false c p, x with
                | S754_finite _ m1 e1, S754_finite _ m2 e2 =>
                    (Pos.eqb m1 m2 && (e1 =? e2))
                | _, _ => false
                end in
  if back c1 then Some (c1, p)
  else if back c2 then Some (c2, p)
  else None.

Fixpoint shortest (fuel : nat) (x : float) (num den t n : Z) : Z * Z :=
  match fuel with
  | O => (0, 0)
  | S fuel' =>
      match candidate x num den t n with
      | Some r => r
      | None => shortest fuel' x num den t (n + 1)
      end
  end.

Definition is_zero_char (c : ascii) : bool := (c =? "0")%char.

Definition exponent_text (e : Z) : string :=
  let a := str_nonneg (Z.abs e) in
  String "e" (String (if e <? 0 then "-" else "+")
    (if Z.abs e <? 10 then String "0" a else a)).

Definition format_digits (ds : string) (decpt : Z) : string :=
  let len := Z.of_nat (String.length ds) in
  if (decpt <=? -4) || (16 <? decpt) then
    match ds with
    | String d EmptyString => String d (exponent_text (decpt - 1))
    | String d rest => String d (String "." rest ++ exponent_text (decpt - 1))
    | EmptyString => EmptyString
    end
  else if decpt <=? 0 then
    "0." ++ repeat_char "0" (Z.to_nat (- decpt)) ++ ds
  else if decpt <? len then
    substring 0 (Z.to_nat decpt) ds ++ "." ++
    substring (Z.to_nat decpt) (Z.to_nat (len - decpt)) ds
  else
    ds ++ repeat_char "0" (Z.to_nat (decpt - len)) ++ ".0".

Definition repr_finite (m : positive) (e : Z) : string :=
  let '(num, den) := if 0 <=? e then (Zpos m * 2 ^ e, 1)
                     else (Zpos m, 2 ^ (- e)) in
  let t := decpt_of num den in
  let '(c, p) := shortest 17 (S754_finite false m e) num den t 1 in
  let all_digits := str_nonneg c in
  format_digits (rstrip_by is_zero_char all_digits)
                (p + Z.of_nat (String.length all_digits)).

Definition float_repr (x : float) : string :=
  match x with
  | S754_nan => "nan"
  | S754_infinity s => if s then "-inf" else "inf"
  | S754_zero s => if s then "-0.0" else "0.0"
  | S754_finite s m e =>
      if s then String "-" (repr_finite m e) else repr_finite m e
  end.

End PyFloat.

Import PyFloat.

(** ** Values, exceptions and effects *)

Module Py.

(** the values that travel in keyword arguments and in the exchange's
    order records *)
Inductive value :=
| VNone
| VStr (s : string)
| VInt (n : Z)
| VFloat (x : float).

(** [str(v)], as an f-string formats it *)
Definition str_value (v : value) : string :=
  match v with
  | VNone => "None"
  | VStr s => s
  | VInt n => str_int n
  | VFloat x => float_repr x
  end.

(** a price variable of the program: a float, or [None] *)
Definition value_of_price (p : option float) : value :=
  match p with
  | Some x => VFloat x
  | None => VNone
  end.

(** a [dict] with string keys, in insertion order *)
Definition dict : Type := list (string * value).

(** [d.get(key, default)] *)
Fixpoint dict_get (d : dict) (key : string) (default : value) : value :=
  match d with
  | [] => default
  | (k, v) :: d' => if (k =? key)%string then v else dict_get d' key default
  end.

Definition dict_has (d : dict) (key : string) : bool :=
  existsb (fun kv => (fst kv =? key)%string) d.

(** The exceptions of the program. [ValueError] and
    [BinanceAPIException] are subclasses of [Exception]; [Exception msg]
    stands for every other instance of [Exception] with [str(e) = msg]
    (among them [EOFError]); [KeyboardInterrupt] is not an [Exception]. *)
Inductive exn :=
| ValueError (msg : string)
| BinanceAPIException (code : Z) (message : string)
| Exception (msg : string)
| KeyboardInterrupt.

Definition is_ValueError (e : exn) : bool :=
  match e with ValueError _ => true | _ => false end.
Definition is_BinanceAPIException (e : exn) : bool :=
  match e with BinanceAPIException _ _ => true | _ => false end.
Definition is_KeyboardInterrupt (e : exn) : bool :=
  match e with KeyboardInterrupt => true | _ => false end.
Definition is_Exception (e : exn) : bool := negb (is_KeyboardInterrupt e).

(** [str(e)]; the exchange library prints its API error as
    [APIError(code=...): message] *)
Definition str_exn (e : exn) : string :=
  match e with
  | ValueError msg => msg
  | BinanceAPIException code message =>
      "APIError(code=" ++ str_int code ++ "): " ++ message
  | Exception msg => msg
  | KeyboardInterrupt => ""
  end.

Inductive res (A : Type) :=
| Ok (a : A)
| Raise (e : exn).
Arguments Ok {A} a.
Arguments Raise {A} e.

Inductive level := INFO | ERROR.

(** what a run does that can be seen from outside, in order *)
Inductive event :=
| Print (text : string)
| Log (logger : string) (lvl : level) (msg : string)
| Input (prompt : string)
| NewClient (api_key api_secret : string) (testnet : bool)
| CreateOrder (kwargs : dict)
| GetOrder (kwargs : dict).

Definition is_request (ev : event) : bool :=
  match ev with
  | CreateOrder _ | GetOrder _ => true
  | _ => false
  end.

(** the calls that reach the exchange library at all *)
Definition is_network (ev : event) : bool :=
  match ev with
  | NewClient _ _ _ | CreateOrder _ | GetOrder _ => true
  | _ => false
  end.

Definition is_create_order (ev : event) : bool :=
  match ev with CreateOrder _ => true | _ => false end.

Definition is_print (ev : event) : bool :=
  match ev with Print _ => true | _ => false end.

Definition trace : Type := list event.
Bind Scope list_scope with trace.

Definition requests (tr : trace) : nat :=
  List.length (filter is_request tr).

(** What the outside world answers. The exchange may answer the [n]-th
    request differently from the ones before it. *)
Record Env := {
  getenv : string -> option string;
  stdin_line : res string;
  connect : string -> string -> bool -> option exn;
  futures_create_order : nat -> dict -> res dict;
  futures_get_order : nat -> dict -> res dict
}.

Definition M (A : Type) : Type := Env -> trace -> res A * trace.

Definition ret {A} (a : A) : M A := fun _ tr => (Ok a, tr).

Definition bind {A B} (m : M A) (f : A -> M B) : M B :=
  fun env tr =>
    match m env tr with
    | (Ok a, tr') => f a env tr'
    | (Raise e, tr') => (Raise e, tr')
    end.

Definition raise {A} (e : exn) : M A := fun _ tr => (Raise e, tr).

Definition emit (ev : event) : M unit := fun _ tr => (Ok tt, (tr ++ [ev])%list).

Definition print (text : string) : M unit := emit (Print text).

(** a [try] statement: the first [except] clause whose class matches
    handles the exception; what a handler raises leaves the statement *)
Fixpoint handle {A} (clauses : list ((exn -> bool) * (exn -> M A)))
         (e : exn) : M A :=
  match clauses with
  | [] => raise e
  | (cls, h) :: rest => if cls e then h e else handle rest e
  end.

Definition try_except {A} (body : M A)
           (clauses : list ((exn -> bool) * (exn -> M A))) : M A :=
  fun env tr =>
    match body env tr with
    | (Ok a, tr') => (Ok a, tr')
    | (Raise e, tr') => handle clauses e env tr'
    end.

(** an outside call: the event is recorded, then the answer comes *)
Definition answer {A} (ev : event) (r : Env -> trace -> res A) : M A :=
  fun env tr => (r env tr, (tr ++ [ev])%list).

(** [input(prompt)] *)
Definition input (prompt : string) : M string :=
  answer (Input prompt) (fun env _ => stdin_line env).

(** [os.getenv(name)] *)
Definition os_getenv (name : string) : M (option string) :=
  fun env tr => (Ok (getenv env name), tr).

Definition nl : string := String (ascii_of_nat 10) EmptyString.

End Py.

Import Py.

Notation "x <- m ;; k" := (bind m (fun x => k))
(at level 61, m at next level, right associativity).
Notation "m ;;; k" := (bind m (fun _ => k))
(at level 61, right associativity).
Notation "'except' c 'as' e => h" := (c, fun e => h)
(at level 62, e name, only parsing).

(** ** [src/bot/validators.py] *)

Module Validator.

(** [$] without [re.MULTILINE]: the end of the text, or just before a
    line feed that ends it *)
Definition dollar (s : string) : bool :=
  match s with
  | EmptyString => true
  | String c EmptyString => (code c =? 10)%N
  | _ => false
  end.

Definition is_AZ09 (c : ascii) : bool := is_upper c || is_digit c.

(** [[A-Z0-9]{lo,hi}$] at the head of [s] *)
Fixpoint class_rep (lo hi : nat) (s : string) {struct s} : bool :=
  ((lo =? 0)%nat && dollar s) ||
  match hi, s with
  | S hi', String c s' => is_AZ09 c && class_rep (pred lo) hi' s'
  | _, _ => false
  end.

(** [re.match(r'^[A-Z0-9]{5,12}$', s)] as a truth value *)
Definition re_match_pattern (s : string) : bool := class_rep 5 12 s.

Definition validate_symbol (symbol : string) : M string :=
  let symbol := strip (upper symbol) in
  if negb (re_match_pattern symbol) then
    raise (ValueError ("Invalid symbol: " ++ symbol ++
                       ". Must be like 'BTCUSDT', 'ETHUSDT'"))
  else ret symbol.

(** [x in l] for a list of strings *)
Definition str_in (x : string) (l : list string) : bool :=
  existsb (String.eqb x) l.

Definition validate_side (side : string) : M string :=
  let side := strip (upper side) in
  if negb (str_in side ["BUY"; "SELL"]) then
    raise (ValueError ("Invalid side: " ++ side ++
                       ". Must be 'BUY' or 'SELL'"))
  else ret side.

Definition validate_order_type (order_type : string) : M string :=
  let order_type := strip (upper order_type) in
  if negb (str_in order_type ["MARKET"; "LIMIT"]) then
    raise (ValueError ("Invalid order type: " ++ order_type ++
                       ". Must be 'MARKET' or 'LIMIT'"))
  else ret order_type.

(** [float(s)]; the text of its [ValueError] never leaves the
    validators *)
Definition py_float (s : string) : M float :=
  match float_of_string s with
  | Some x => ret x
  | None => raise (ValueError ("could not convert string to float: '"
                               ++ s ++ "'"))
  end.

Definition validate_quantity (quantity : string) : M float :=
  try_except
    (qty <- py_float quantity ;;
     (if leb qty f_zero
      then raise (ValueError "Quantity must be greater than 0")
      else ret tt) ;;;
     (if ltb qty f_0_001
      then print ("Warning: Quantity " ++ float_repr qty ++
                  " might be too small for some symbols")
      else ret tt) ;;;
     ret qty)
    [ except is_ValueError as e =>
        raise (ValueError ("Invalid quantity: " ++ quantity ++
                           ". Must be a positive number")) ].

Definition validate_price (price : string) : M float :=
  try_except
    (p <- py_float price ;;
     (if leb p f_zero
      then raise (ValueError "Price must be greater than 0")
      else ret tt) ;;;
     ret p)
    [ except is_ValueError as e =>
        raise (ValueError ("Invalid price: " ++ price ++
                           ". Must be a positive number")) ].

End Validator.

(** ** [src/bot/client.py] *)

Module Client.

Definition logger : string := "trading_bot.client".

Definition info (msg : string) : M unit := emit (Log logger INFO msg).
Definition error (msg : string) : M unit := emit (Log logger ERROR msg).

(** the object: the credentials and mode its exchange handle was made
    with *)
Record BinanceFuturesClient := {
  api_key : string;
  api_secret : string;
  testnet : bool
}.

(** [e.message] and [e.code] of a [BinanceAPIException] *)
Definition exn_message (e : exn) : string :=
  match e with BinanceAPIException _ m => m | _ => str_exn e end.
Definition exn_code (e : exn) : string :=
  match e with BinanceAPIException c _ => str_int c | _ => "None" end.

(** [Client(api_key=..., api_secret=..., testnet=...)] *)
Definition new_Client (key secret : string) (test : bool) : M unit :=
  answer (NewClient key secret test)
         (fun env _ => match connect env key secret test with
                       | None => Ok tt
                       | Some e => Raise e
                       end).

(** [self.client.futures_create_order], called with keyword arguments *)
Definition client_futures_create_order (kwargs : dict) : M dict :=
  answer (CreateOrder kwargs)
         (fun env tr => futures_create_order env (requests tr) kwargs).

(** [self.client.futures_get_order], called with keyword arguments *)
Definition client_futures_get_order (kwargs : dict) : M dict :=
  answer (GetOrder kwargs)
         (fun env tr => futures_get_order env (requests tr) kwargs).

(** [BinanceFuturesClient.__init__] *)
Definition init (key secret : string) (test : bool)
  : M BinanceFuturesClient :=
  info "Starting Binance Futures client..." ;;;
  try_except
    (new_Client key secret test ;;;
     info " Binance client connected successfully!" ;;;
     ret {| api_key := key; api_secret := secret; testnet := test |})
    [ except is_Exception as e =>
        error (" Failed to connect to Binance: " ++ str_exn e) ;;;
        raise e ].

Definition place_market_order (self : BinanceFuturesClient)
           (symbol side : string) (quantity : float) : M dict :=
  try_except
    (info (" Placing MARKET order: " ++ side ++ " " ++
           float_repr quantity ++ " " ++ symbol) ;;;
     order <- client_futures_create_order
                [ ("symbol", VStr symbol);
                  ("side", VStr (upper side));
                  ("type", VStr "MARKET");
                  ("quantity", VFloat quantity) ] ;;
     info (" Market order placed! Order ID: " ++
           str_value (dict_get order "orderId" VNone)) ;;;
     ret order)
    [ except is_BinanceAPIException as e =>
        (let error_msg := "Binance API Error: " ++ exn_message e ++
                          " (Error code: " ++ exn_code e ++ ")" in
         error error_msg ;;;
         raise (Exception error_msg));
      except is_Exception as e =>
        (let error_msg := "Unexpected error placing market order: " ++
                          str_exn e in
         error error_msg ;;;
         raise (Exception error_msg)) ].

(** [price] is whatever the caller holds: a float, or [None] *)
Definition place_limit_order (self : BinanceFuturesClient)
           (symbol side : string) (quantity : float)
           (price : option float) : M dict :=
  try_except
    (info (" Placing LIMIT order: " ++ side ++ " " ++
           float_repr quantity ++ " " ++ symbol ++ " @ $" ++
           str_value (value_of_price price)) ;;;
     order <- client_futures_create_order
                [ ("symbol", VStr symbol);
                  ("side", VStr (upper side));
                  ("type", VStr "LIMIT");
                  ("quantity", VFloat quantity);
                  ("price", value_of_price price);
                  ("timeInForce", VStr "GTC") ] ;;
     info (" Limit order placed! Order ID: " ++
           str_value (dict_get order "orderId" VNone)) ;;;
     ret order)
    [ except is_BinanceAPIException as e =>
        (let error_msg := "Binance API Error: " ++ exn_message e ++
                          " (Error code: " ++ exn_code e ++ ")" in
         error error_msg ;;;
         raise (Exception error_msg));
      except is_Exception as e =>
        (let error_msg := "Unexpected error placing limit order: " ++
                          str_exn e in
         error error_msg ;;;
         raise (Exception error_msg)) ].

Definition get_order_status (self : BinanceFuturesClient)
           (symbol : string) (order_id : Z) : M (option dict) :=
  try_except
    (info (" Checking order status for ID: " ++ str_int order_id) ;;;
     order_status <- client_futures_get_order
                       [ ("symbol", VStr symbol);
                         ("orderId", VInt order_id) ] ;;
     info ("Order status: " ++
           str_value (dict_get order_status "status" VNone)) ;;;
     ret (Some order_status))
    [ except is_Exception as e =>
        error ("Failed to check order status: " ++ str_exn e) ;;;
        ret None ].

End Client.

(** ** [src/cli.py] *)

Module Cli.

Definition logger : string := "trading_bot".

Definition info (msg : string) : M unit := emit (Log logger INFO msg).
Definition error (msg : string) : M unit := emit (Log logger ERROR msg).

(** The namespace that [parser.parse_args()] returns: four positional
    texts and [--price], which argparse has already converted with
    [float] ([None] when the flag is absent). *)
Record Args := {
  symbol : string;
  side : string;
  order_type : string;
  quantity : string;
  price : option float
}.

(** truth value of [None]-or-float and of [None]-or-text *)
Definition truthy_price (p : option float) : bool :=
  match p with
  | Some x => truthy x
  | None => false
  end.

Definition truthy_text (t : option string) : bool :=
  match t with
  | Some EmptyString | None => false
  | Some _ => true
  end.

(** [v == text] *)
Definition value_is (v : value) (text : string) : bool :=
  match v with
  | VStr t => (t =? text)%string
  | _ => false
  end.

Definition print_banner : M unit :=
  print (nl ++ repeat_char "=" 60) ;;;
  print "           BINANCE FUTURES TRADING BOT" ;;;
  print "                 (TESTNET MODE)" ;;;
  print (repeat_char "=" 60).

Definition print_order_summary (symbol side order_type : string)
           (quantity : float) (price : option float) : M bool :=
  print (nl ++ " ORDER SUMMARY:") ;;;
  print (repeat_char "-" 40) ;;;
  print ("   Symbol:       " ++ symbol) ;;;
  print ("   Side:         " ++ side) ;;;
  print ("   Order Type:   " ++ order_type) ;;;
  print ("   Quantity:     " ++ float_repr quantity) ;;;
  (if truthy_price price
   then print ("   Price:        $" ++ str_value (value_of_price price))
   else ret tt) ;;;
  print (repeat_char "-" 40) ;;;
  line <- input (nl ++ "  Confirm this order? (yes/no): ") ;;
  let confirm := lower line in
  ret (confirm =? "yes")%string.

Definition print_order_result (order_response : dict) : M unit :=
  print (nl ++ " ORDER PLACED SUCCESSFULLY!") ;;;
  print (repeat_char "=" 50) ;;;
  print ("   Order ID:     " ++
         str_value (dict_get order_response "orderId" VNone)) ;;;
  print ("   Status:       " ++
         str_value (dict_get order_response "status" VNone)) ;;;
  print ("   Executed Qty: " ++
         str_value (dict_get order_response "executedQty" (VStr "0"))) ;;;
  print ("   Avg Price:    $" ++
         str_value (dict_get order_response "avgPrice" (VStr "N/A"))) ;;;
  print (repeat_char "=" 50) ;;;
  if value_is (dict_get order_response "type" VNone) "LIMIT" then
    print (nl ++ " Your limit order is now active!") ;;;
    print "   It will execute when the market reaches your price."
  else
    print (nl ++ " Market order executed immediately!").

(** the validated order: symbol, side, type, quantity, price *)
Definition order : Type := string * string * string * float * option float.

(** STEP 1, the body of the inner [try] *)
Definition validate_inputs (args : Args) : M order :=
  symbol <- Validator.validate_symbol (symbol args) ;;
  side <- Validator.validate_side (side args) ;;
  order_type <- Validator.validate_order_type (order_type args) ;;
  quantity <- Validator.validate_quantity (quantity args) ;;
  price <-
    (if (order_type =? "LIMIT")%string then
       (if negb (truthy_price (price args))
        then raise (ValueError " Price is required for LIMIT orders!")
        else ret tt) ;;;
       p <- Validator.validate_price
              (str_value (value_of_price (price args))) ;;
       ret (Some p)
     else ret None) ;;
  print " All inputs validated successfully!" ;;;
  ret (symbol, side, order_type, quantity, price).

(** [main()] when [parser.parse_args()] has returned the namespace
    [args]: the banner, which is printed before the command line is
    read, and the [try] statement. Where the source leaves [main] by
    [return] inside a [try], the block yields [inr code]. The exits of
    [parse_args] itself are in [script] below. *)
Definition main (args : Args) : M Z :=
  print_banner ;;;
  try_except
    (info "Starting order placement process..." ;;;
     print (nl ++ " Validating inputs...") ;;;
     validated <-
       try_except
         (o <- validate_inputs args ;; ret (inl o))
         [ except is_ValueError as e =>
             error ("Input validation failed: " ++ str_exn e) ;;;
             print (nl ++ " Error: " ++ str_exn e) ;;;
             print (nl ++ " Tip: Use --help to see examples") ;;;
             ret (inr 1) ] ;;
     match validated with
     | inr status => ret status
     | inl (symbol, side, order_type, quantity, price) =>
         api_key <- os_getenv "BINANCE_API_KEY" ;;
         api_secret <- os_getenv "BINANCE_API_SECRET" ;;
         (* [if not api_key or not api_secret]: [None] and the empty
            text are false *)
         match api_key, api_secret with
         | Some key, Some secret =>
             if negb (truthy_text api_key) || negb (truthy_text api_secret)
             then
               print (nl ++ " API credentials not found!") ;;;
               print "   Please create a '.env' file with:" ;;;
               print "   BINANCE_API_KEY=your_key_here" ;;;
               print "   BINANCE_API_SECRET=your_secret_here" ;;;
               print (nl ++ "   See '.env.example' for an example.") ;;;
               ret 1
             else
               confirmed <- print_order_summary symbol side order_type
                                                quantity price ;;
               if negb confirmed then
                 print (nl ++ " Order cancelled by user.") ;;;
                 ret 0
               else
                 print (nl ++ " Connecting to Binance...") ;;;
                 connected <-
                   try_except
                     (client <- Client.init key secret true ;;
                      print " Connected to Binance Testnet!" ;;;
                      ret (inl client))
                     [ except is_Exception as e =>
                         print (nl ++ " Failed to connect to Binance: "
                                ++ str_exn e) ;;;
                         print (nl ++ " Check your API credentials and internet connection") ;;;
                         ret (inr 1) ] ;;
                 match connected with
                 | inr status => ret status
                 | inl client =>
                     print (nl ++ " Placing " ++ order_type ++ " order...") ;;;
                     try_except
                       (response <-
                          (if (order_type =? "MARKET")%string
                           then Client.place_market_order
                                  client symbol side quantity
                           else Client.place_limit_order
                                  client symbol side quantity price) ;;
                        print_order_result response ;;;
                        info ("Order " ++
                              str_value (dict_get response "orderId" VNone)
                              ++ " placed successfully") ;;;
                        ret 0)
                       [ except is_Exception as e =>
                           print (nl ++ " Failed to place order: " ++
                                  str_exn e) ;;;
                           error ("Order placement failed: " ++ str_exn e) ;;;
                           ret 1 ]
                 end
         | _, _ =>
             print (nl ++ " API credentials not found!") ;;;
             print "   Please create a '.env' file with:" ;;;
             print "   BINANCE_API_KEY=your_key_here" ;;;
             print "   BINANCE_API_SECRET=your_secret_here" ;;;
             print (nl ++ "   See '.env.example' for an example.") ;;;
             ret 1
         end
     end)
    [ except is_KeyboardInterrupt as e =>
        print (nl ++ nl ++ "  Operation cancelled by user.") ;;;
        ret 0;
      except is_Exception as e =>
        print (nl ++ " Unexpected error: " ++ str_exn e) ;;;
        error ("Unexpected error in main: " ++ str_exn e) ;;;
        ret 1 ].

(** What argparse reads off the command line before it applies
    [type=float] to [--price]: the texts of the four positional
    arguments and of [--price] ([None] without the flag); or a request
    for help ([-h], [--help]); or a command line that it refuses, with
    an argument missing or unknown. *)
Inductive command_line :=
| Given (symbol side order_type quantity : string) (price : option string)
| Help
| Refused.

(** [parser.parse_args()]: the namespace, or the status of the
    [SystemExit] that argparse raises: 0 after it has printed the help,
    2 after a usage error, which a [--price] that [float] refuses is
    too. What argparse itself prints is not recorded. *)
Definition parse_args (cl : command_line) : Args + Z :=
  match cl with
  | Given symbol side order_type quantity None =>
      inl {| symbol := symbol; side := side; order_type := order_type;
             quantity := quantity; price := None |}
  | Given symbol side order_type quantity (Some text) =>
      match float_of_string text with
      | Some x =>
          inl {| symbol := symbol; side := side; order_type := order_type;
                 quantity := quantity; price := Some x |}
      | None => inr 2
      end
  | Help => inr 0
  | Refused => inr 2
  end.

(** The file run as a script, [sys.exit(main())], on a command line:
    [main] prints the banner and calls [parse_args]; a [SystemExit] of
    argparse leaves [main] there, outside its [try], and its status is
    the exit status of the process; otherwise the rest of [main] runs on
    the namespace and the process exits with what [main] returns. *)
Definition script (cl : command_line) : M Z :=
  match parse_args cl with
  | inl args => main args
  | inr status => print_banner ;;; ret status
  end.

End Cli.

(** ** [src/bot/logging_config.py] *)

Module LoggingConfig.

(** the numbers of the levels of [logging] *)
Definition NOTSET : Z := 0.
Definition DEBUG : Z := 10.
Definition level_no (l : level) : Z :=
  match l with
  | INFO => 20
  | ERROR => 40
  end.

Definition level_name (l : level) : string :=
  match l with
  | INFO => "INFO"
  | ERROR => "ERROR"
  end.

(** local time, as [datetime.now()] and the log records have it *)
Record moment := {
  year : Z;
  month : Z;
  day : Z;
  hour : Z;
  minute : Z;
  second : Z
}.

(** two digits, as strftime prints months, days, hours, minutes and
    seconds *)
Definition two_digits (n : Z) : string :=
  if n <? 10 then String "0" (str_nonneg n) else str_nonneg n.

(** [t.strftime("%Y%m%d")] *)
Definition strftime_Ymd (t : moment) : string :=
  str_nonneg (year t) ++ two_digits (month t) ++ two_digits (day t).

(** [time.strftime("%Y-%m-%d %H:%M:%S", t)] *)
Definition strftime_stamp (t : moment) : string :=
  str_nonneg (year t) ++ "-" ++ two_digits (month t) ++ "-" ++
  two_digits (day t) ++ " " ++ two_digits (hour t) ++ ":" ++
  two_digits (minute t) ++ ":" ++ two_digits (second t).

(** where a handler writes *)
Inductive stream :=
| Screen
| LogFile (name : string).

(** a [logging.Handler]: its stream, its level, and whether the
    formatter of [setup_logging] was set on it (a handler without one
    writes the bare message) *)
Record Handler := {
  stream_of : stream;
  threshold : Z;
  formatted : bool
}.

(** the state of a [logging.Logger] *)
Record Logger := {
  logger_name : string;
  logger_level : Z;
  handlers : list Handler
}.

(** [logging.getLogger(name)] the first time the name is asked for *)
Definition new_logger (name : string) : Logger := {|
  logger_name := name;
  logger_level := NOTSET;
  handlers := []
|}.

Definition setLevel (lg : Logger) (l : Z) : Logger := {|
  logger_name := logger_name lg;
  logger_level := l;
  handlers := handlers lg
|}.

(** [addHandler] appends the handler object *)
Definition addHandler (lg : Logger) (h : Handler) : Logger := {|
  logger_name := logger_name lg;
  logger_level := logger_level lg;
  handlers := (handlers lg ++ [h])%list
|}.

(** the text of a record under the format
    [%(asctime)s - %(name)s - %(levelname)s - %(message)s] with the date
    format [%Y-%m-%d %H:%M:%S] *)
Definition format_record (t : moment) (name : string) (l : level)
           (msg : string) : string :=
  strftime_stamp t ++ " - " ++ name ++ " - " ++ level_name l ++ " - " ++
  msg.

(** What a record of the logger [lg], or of a logger below it such as
    [trading_bot.client] (no level and no handler of its own, so the
    level and the handlers of [lg] decide), writes: one line on the
    stream of each handler whose level admits it. *)
Definition handle (lg : Logger) (t : moment) (name : string) (l : level)
           (msg : string) : list (stream * string) :=
  if logger_level lg <=? level_no l then
    flat_map
      (fun h =>
         if threshold h <=? level_no l
         then [(stream_of h,
                if formatted h then format_record t name l msg else msg)]
         else [])
      (handlers lg)
  else [].

(** [logging.FileHandler(name)] and [logging.StreamHandler(sys.stdout)]
    as they are made: no level, no formatter *)
Definition FileHandler (name : string) : Handler :=
  {| stream_of := LogFile name; threshold := NOTSET; formatted := false |}.
Definition StreamHandler_stdout : Handler :=
  {| stream_of := Screen; threshold := NOTSET; formatted := false |}.

Definition handler_setLevel (h : Handler) (l : Z) : Handler :=
  {| stream_of := stream_of h; threshold := l; formatted := formatted h |}.

(** [h.setFormatter(log_format)] *)
Definition setFormatter (h : Handler) : Handler :=
  {| stream_of := stream_of h; threshold := threshold h;
     formatted := true |}.

(** [setup_logging()], run at the moment [now] on the state of the
    logger [trading_bot]: the logger as it is afterwards and what the
    call itself wrote *)
Definition setup_logging (now : moment) (logger : Logger)
  : Logger * list (stream * string) :=
  let logger := setLevel logger DEBUG in
  let log_filename := "trading_bot_" ++ strftime_Ymd now ++ ".log" in
  let file_handler := FileHandler log_filename in
  let file_handler := handler_setLevel file_handler DEBUG in
  let screen_handler := StreamHandler_stdout in
  let screen_handler := handler_setLevel screen_handler (level_no INFO) in
  let file_handler := setFormatter file_handler in
  let screen_handler := setFormatter screen_handler in
  let logger := addHandler logger file_handler in
  let logger := addHandler logger screen_handler in
  (logger,
   handle logger now (logger_name logger) INFO
          ("Logging system started. Writing logs to: " ++ log_filename)).

(** the lines that the log records of a trace write, each record at
    the moment [clock] gives for its position *)
Fixpoint written (lg : Logger) (clock : nat -> moment) (n : nat)
         (tr : trace) : list (stream * string) :=
  match tr with
  | [] => []
  | Log name l msg :: tr' =>
      (handle lg (clock n) name l msg ++ written lg clock (S n) tr')%list
  | _ :: tr' => written lg clock (S n) tr'
  end.

(** the log file of the day of [now] *)
Definition log_file (now : moment) : stream :=
  LogFile ("trading_bot_" ++ strftime_Ymd now ++ ".log").

(** the texts of the log records of a trace *)
Fixpoint texts (clock : nat -> moment) (n : nat) (tr : trace)
  : list string :=
  match tr with
  | [] => []
  | Log name l msg :: tr' =>
      format_record (clock n) name l msg :: texts clock (S n) tr'
  | _ :: tr' => texts clock (S n) tr'
  end.

End LoggingConfig.

(** ** Well-formed UTF-8, for the proofs *)

Module Utf8.

(** a Unicode scalar value: a code point that is no surrogate *)
Definition scalar (c : N) : bool :=
  ((c <? 55296) || between 57344 1114111 c)%N.

(** the code point of a byte outside every well-formed sequence *)
Definition stray (c : N) : bool := between 56448 56575 c.

(** the first [k] bytes of [s], as far as they are continuation bytes *)
Fixpoint conts (k : nat) (s : string) : string :=
  match k, s with
  | S k', String c s' =>
      if continuation c then String c (conts k' s') else EmptyString
  | _, _ => EmptyString
  end.

Fixpoint skip (k : nat) (s : string) : string :=
  match k, s with
  | S k', String _ s' => skip k' s'
  | _, _ => s
  end.

(** the sequence of two to four bytes that the byte [b0] starts when
    the continuation bytes [c] follow it: its code point and the number
    of bytes after [b0] *)
Definition seq_of (b0 : ascii) (c : string) : option (N * nat) :=
  match c with
  | String b1 c1 =>
      if in_range 194 223 b0 then Some (two b0 b1, 1%nat)
      else
        match c1 with
        | String b2 c2 =>
            if in_range 224 239 b0 && second_ok b0 b1
            then Some (three b0 b1 b2, 2%nat)
            else
              match c2 with
              | String b3 _ =>
                  if in_range 240 244 b0 && second_ok b0 b1
                  then Some (four b0 b1 b2 b3, 3%nat)
                  else None
              | EmptyString => None
              end
        | EmptyString => None
        end
  | EmptyString => None
  end.

(** the first byte, when it is a continuation byte *)
Definition lead (s : string) : option ascii :=
  match s with
  | String c _ => if continuation c then Some c else None
  | EmptyString => None
  end.

End Utf8.

(** ** The words of the specification *)

Module Spec.

Definition blank (c : N) : Prop := is_space c = true.

(** [u] is [l] uppercased: every code point is replaced by its
    uppercase form, in place *)
Inductive uppercased : list N -> list N -> Prop :=
| uppercased_nil : uppercased [] []
| uppercased_cons c l u :
    uppercased l u -> uppercased (c :: l) (to_upper c ++ u).

(** [t] is [l] trimmed: [l] without the blanks at its two ends *)
Definition trimmed (l t : list N) : Prop :=
  exists a b,
    l = (a ++ t ++ b)%list /\ Forall blank a /\ Forall blank b /\
    (forall c t', t = c :: t' -> ~ blank c) /\
    (forall t' c, t = (t' ++ [c])%list -> ~ blank c).

(** [s] is the uppercased-and-trimmed form of the text [raw] *)
Definition normal_form (raw s : string) : Prop :=
  exists u t, uppercased (decode raw) u /\ trimmed u t /\ s = encode t.

(** only characters of [A-Z0-9], and 5 to 12 of them *)
Definition symbol_char (c : ascii) : bool :=
  (("A" <=? c) && (c <=? "Z") || ("0" <=? c) && (c <=? "9"))%char.

Fixpoint only_symbol_chars (s : string) : bool :=
  match s with
  | EmptyString => true
  | String c s' => symbol_char c && only_symbol_chars s'
  end.

Definition symbol_shape (s : string) : bool :=
  only_symbol_chars s &&
  (5 <=? String.length s)%nat && (String.length s <=? 12)%nat.

End Spec.

(** ** Vocabulary of the properties *)

Module Outcome.

Definition error_of {A} (r : res A) : option exn :=
  match r with
  | Ok _ => None
  | Raise e => Some e
  end.

(** The outside calls of a trace, each with the exception it ended in, if
    any; [n] counts the requests sent to the exchange before. *)
Fixpoint outside_from (env : Env) (n : nat) (tr : trace)
  : list (event * option exn) :=
  match tr with
  | [] => []
  | ev :: tr' =>
      match ev with
      | Print _ | Log _ _ _ => outside_from env n tr'
      | Input _ => (ev, error_of (stdin_line env)) :: outside_from env n tr'
      | NewClient k s t => (ev, connect env k s t) :: outside_from env n tr'
      | CreateOrder kw =>
          (ev, error_of (futures_create_order env n kw))
            :: outside_from env (S n) tr'
      | GetOrder kw =>
          (ev, error_of (futures_get_order env n kw))
            :: outside_from env (S n) tr'
      end
  end.

Definition outside (env : Env) (tr : trace) : list (event * option exn) :=
  outside_from env 0 tr.

Definition line_feed (c : ascii) : bool := (code c =? 10)%N.

(** the events that are outside calls *)
Definition is_outside (ev : event) : bool :=
  match ev with
  | Print _ | Log _ _ _ => false
  | _ => true
  end.

(** an order was placed: a create-order call came back with a record *)
Definition placed (env : Env) (tr : trace) : Prop :=
  exists kw, In (CreateOrder kw, None) (outside env tr).

(** the user answered the prompt with something else than yes *)
Definition declined (env : Env) (tr : trace) : Prop :=
  exists prompt line,
    In (Input prompt, None) (outside env tr) /\
    stdin_line env = Ok line /\ lower line <> "yes".

(** the user interrupted an outside call *)
Definition interrupted (env : Env) (tr : trace) : Prop :=
  exists ev, In (ev, Some KeyboardInterrupt) (outside env tr).

Definition connection_failed (env : Env) (tr : trace) : Prop :=
  exists k s t e,
    In (NewClient k s t, Some e) (outside env tr) /\ is_Exception e = true.

Definition submission_failed (env : Env) (tr : trace) : Prop :=
  exists kw e,
    In (CreateOrder kw, Some e) (outside env tr) /\ is_Exception e = true.

Definition credentials_missing (env : Env) : Prop :=
  Cli.truthy_text (getenv env "BINANCE_API_KEY") = false \/
  Cli.truthy_text (getenv env "BINANCE_API_SECRET") = false.

Definition validation_failed (args : Cli.Args) (env : Env) : Prop :=
  exists e out, Cli.validate_inputs args env [] = (Raise e, out).

(** what is sent for a validated order *)
Definition market_kwargs (symbol side : string) (quantity : float) : dict :=
  [ ("symbol", VStr symbol); ("side", VStr (upper side));
    ("type", VStr "MARKET"); ("quantity", VFloat quantity) ].

Definition limit_kwargs (symbol side : string) (quantity : float)
           (price : option float) : dict :=
  [ ("symbol", VStr symbol); ("side", VStr (upper side));
    ("type", VStr "LIMIT"); ("quantity", VFloat quantity);
    ("price", value_of_price price); ("timeInForce", VStr "GTC") ].

Definition order_kwargs (o : Cli.order) : dict :=
  let '(symbol, side, order_type, quantity, price) := o in
  if (order_type =? "MARKET")%string
  then market_kwargs symbol side quantity
  else limit_kwargs symbol side quantity price.

(** a price travels with the request *)
Definition has_price (kw : dict) : bool :=
  match dict_get kw "price" VNone with
  | VNone => false
  | _ => true
  end.

(** 5 to 12 characters, each of [A-Z0-9] *)
Definition well_formed_symbol (s : string) : bool :=
  all_chars Validator.is_AZ09 s &&
  (5 <=? String.length s)%nat && (String.length s <=? 12)%nat.

(** the namespace [args] with another value of [--price] *)
Definition with_price (args : Cli.Args) (p : option float) : Cli.Args := {|
  Cli.symbol := Cli.symbol args;
  Cli.side := Cli.side args;
  Cli.order_type := Cli.order_type args;
  Cli.quantity := Cli.quantity args;
  Cli.price := p
|}.

(** the fields of an order and their validators, results as values *)
Inductive field := Symbol | Side | OrderType | Quantity | Price.

Definition validate (f : field) (raw : string) : M value :=
  match f with
  | Symbol => v <- Validator.validate_symbol raw ;; ret (VStr v)
  | Side => v <- Validator.validate_side raw ;; ret (VStr v)
  | OrderType => v <- Validator.validate_order_type raw ;; ret (VStr v)
  | Quantity => v <- Validator.validate_quantity raw ;; ret (VFloat v)
  | Price => v <- Validator.validate_price raw ;; ret (VFloat v)
  end.

Definition field_name (f : field) : string :=
  match f with
  | Symbol => "symbol"
  | Side => "side"
  | OrderType => "order type"
  | Quantity => "quantity"
  | Price => "price"
  end.

(** the value that an error message shows *)
Definition shown (f : field) (raw : string) : string :=
  match f with
  | Symbol | Side | OrderType => strip (upper raw)
  | Quantity | Price => raw
  end.

Definition expected (f : field) : string :=
  match f with
  | Symbol => "Must be like 'BTCUSDT', 'ETHUSDT'"
  | Side => "Must be 'BUY' or 'SELL'"
  | OrderType => "Must be 'MARKET' or 'LIMIT'"
  | Quantity | Price => "Must be a positive number"
  end.

(** the message of a failing validator *)
Definition message (f : field) (raw : string) : string :=
  "Invalid " ++ field_name f ++ ": " ++ shown f raw ++ ". " ++ expected f.

(** what a place-order function raises for what the exchange library
    raised; [what] is [market] or [limit] *)
Definition wrapped (what : string) (e : exn) : exn :=
  match e with
  | BinanceAPIException code message =>
      Exception ("Binance API Error: " ++ message ++
                 " (Error code: " ++ str_int code ++ ")")
  | KeyboardInterrupt => KeyboardInterrupt
  | _ => Exception ("Unexpected error placing " ++ what ++ " order: " ++
                    str_exn e)
  end.

Definition warning (qty : float) : event :=
  Print ("Warning: Quantity " ++ float_repr qty ++
         " might be too small for some symbols").

(** *** The flow of the orchestrator

    Validate, read the credentials, confirm, connect, submit: what a run
    exchanges with the outside and the status it ends with. *)

Definition prompt : event :=
  Input (nl ++ "  Confirm this order? (yes/no): ").

(** the status after an exception that no inner handler took *)
Definition status_of (e : exn) : Z := if is_Exception e then 1 else 0.

Definition credentials (env : Env) (key secret : string) : Prop :=
  getenv env "BINANCE_API_KEY" = Some key /\
  getenv env "BINANCE_API_SECRET" = Some secret /\
  key <> "" /\ secret <> "".

Inductive flow (args : Cli.Args) (env : Env)
  : Z -> list (event * option exn) -> Prop :=
| flow_invalid e out :
    Cli.validate_inputs args env [] = (Raise e, out) ->
    flow args env 1 []
| flow_unconfigured o out :
    Cli.validate_inputs args env [] = (Ok o, out) ->
    credentials_missing env ->
    flow args env 1 []
| flow_prompt_raised o out key secret e :
    Cli.validate_inputs args env [] = (Ok o, out) ->
    credentials env key secret ->
    stdin_line env = Raise e ->
    flow args env (status_of e) [(prompt, Some e)]
| flow_declined o out key secret line :
    Cli.validate_inputs args env [] = (Ok o, out) ->
    credentials env key secret ->
    stdin_line env = Ok line -> lower line <> "yes" ->
    flow args env 0 [(prompt, None)]
| flow_connect_raised o out key secret line e :
    Cli.validate_inputs args env [] = (Ok o, out) ->
    credentials env key secret ->
    stdin_line env = Ok line -> lower line = "yes" ->
    connect env key secret true = Some e ->
    flow args env (status_of e)
         [(prompt, None); (NewClient key secret true, Some e)]
| flow_order_raised o out key secret line e :
    Cli.validate_inputs args env [] = (Ok o, out) ->
    credentials env key secret ->
    stdin_line env = Ok line -> lower line = "yes" ->
    connect env key secret true = None ->
    futures_create_order env 0 (order_kwargs o) = Raise e ->
    flow args env (status_of e)
         [(prompt, None); (NewClient key secret true, None);
          (CreateOrder (order_kwargs o), Some e)]
| flow_placed o out key secret line record :
    Cli.validate_inputs args env [] = (Ok o, out) ->
    credentials env key secret ->
    stdin_line env = Ok line -> lower line = "yes" ->
    connect env key secret true = None ->
    futures_create_order env 0 (order_kwargs o) = Ok record ->
    flow args env 0
         [(prompt, None); (NewClient key secret true, None);
          (CreateOrder (order_kwargs o), None)].

End Outcome.

(** ** Sample runs *)

Module Sample.

Definition order_record (kw : dict) : dict :=
  [ ("orderId", VInt 42); ("status", VStr "NEW");
    ("executedQty", VStr "0"); ("avgPrice", VStr "0.00");
    ("type", dict_get kw "type" VNone) ].

(** a testnet that accepts everything, with the user's answer [line] *)
Definition env (line : res string) : Env := {|
  getenv := fun _ => Some "testnet-credential";
  stdin_line := line;
  connect := fun _ _ _ => None;
  futures_create_order := fun _ kw => Ok (order_record kw);
  futures_get_order := fun _ kw => Ok (order_record kw)
|}.

Definition args (order_type quantity : string) (price : option float)
  : Cli.Args := {|
  Cli.symbol := "ETHUSDT";
  Cli.side := "SELL";
  Cli.order_type := order_type;
  Cli.quantity := quantity;
  Cli.price := price
|}.

Definition f_2500 : float := Eval vm_compute in round_decimal false 2500 0.

(** 3 November 2026, 14:05:09 *)
Definition afternoon : LoggingConfig.moment := {|
  LoggingConfig.year := 2026;
  LoggingConfig.month := 11;
  LoggingConfig.day := 3;
  LoggingConfig.hour := 14;
  LoggingConfig.minute := 5;
  LoggingConfig.second := 9
|}.

Definition client : Client.BinanceFuturesClient := {|
  Client.api_key := "testnet-credential";
  Client.api_secret := "testnet-credential";
  Client.testnet := true
|}.

(** no credentials in the environment *)
Definition unconfigured_env : Env := {|
  getenv := fun _ => None;
  stdin_line := Ok "yes";
  connect := fun _ _ _ => None;
  futures_create_order := fun _ kw => Ok (order_record kw);
  futures_get_order := fun _ kw => Ok (order_record kw)
|}.

(** the input stream is closed: [input] raises [EOFError] *)
Definition closed_stdin_env : Env := env (Raise (Exception "EOF when reading a line")).

(** an exchange that rejects every order *)
Definition rejecting_env : Env := {|
  getenv := fun _ => Some "testnet-credential";
  stdin_line := Ok "yes";
  connect := fun _ _ _ => None;
  futures_create_order :=
    fun _ _ => Raise (BinanceAPIException (-2019) "Margin is insufficient.");
  futures_get_order := fun _ _ => Raise (Exception "timed out")
|}.

(** the user interrupts while a status query is under way *)
Definition interrupting_env : Env := {|
  getenv := fun _ => Some "testnet-credential";
  stdin_line := Ok "yes";
  connect := fun _ _ _ => None;
  futures_create_order := fun _ kw => Ok (order_record kw);
  futures_get_order := fun _ _ => Raise KeyboardInterrupt
|}.

End Sample.

(** * Properties *)

(** ** Text *)

Section Text.

Import Outcome.

Ltac each_char c := destruct c as [[] [] [] [] [] [] [] []]; vm_compute.

Lemma byte_code (c : ascii) : byte (code c) = c.
Proof. apply ascii_N_embedding. Qed.

Lemma code_byte (n : N) : (n < 256)%N -> code (byte n) = n.
Proof. apply N_ascii_embedding. Qed.

Lemma append_empty (s : string) : s ++ "" = s.
Proof. induction s as [|c s IH]; simpl; congruence. Qed.

Lemma append_assoc (a b c : string) : (a ++ b) ++ c = a ++ b ++ c.
Proof. induction a as [|x a IH]; simpl; congruence. Qed.

Lemma encode_app (l1 l2 : list N) :
  encode (l1 ++ l2) = encode l1 ++ encode l2.
Proof.
  induction l1 as [|c l1 IH]; [reflexivity|].
  cbn [app encode]. now rewrite IH, append_assoc.
Qed.

(** *** ASCII text: one byte is one code point *)

Lemma decode_ascii (s : string) :
  all_chars is_ascii s = true ->
  decode s = map code (list_ascii_of_string s).
Proof.
  induction s as [|c s IH]; [reflexivity|].
  cbn [all_chars decode list_ascii_of_string map]. intros H.
  apply andb_true_iff in H as [Hc Hs]. unfold is_ascii in Hc.
  now rewrite Hc, (IH Hs).
Qed.

Lemma encode_ascii (s : string) :
  all_chars is_ascii s = true ->
  encode (map code (list_ascii_of_string s)) = s.
Proof.
  induction s as [|c s IH]; [reflexivity|].
  cbn [all_chars list_ascii_of_string map encode]. intros H.
  apply andb_true_iff in H as [Hc Hs]. unfold is_ascii in Hc.
  unfold encode_char. rewrite Hc, byte_code, (IH Hs). reflexivity.
Qed.

Lemma AZ09_ascii (c : ascii) :
  Validator.is_AZ09 c = true -> is_ascii c = true.
Proof. each_char c; intros H; first [reflexivity | discriminate H]. Qed.

Lemma AZ09_to_upper (c : ascii) :
  Validator.is_AZ09 c = true -> to_upper (code c) = [code c].
Proof. each_char c; intros H; first [reflexivity | discriminate H]. Qed.

Lemma AZ09_not_space (c : ascii) :
  Validator.is_AZ09 c = true -> is_space (code c) = false.
Proof. each_char c; intros H; first [reflexivity | discriminate H]. Qed.

Lemma AZ09_all_ascii (s : string) :
  all_chars Validator.is_AZ09 s = true -> all_chars is_ascii s = true.
Proof.
  induction s as [|c s IH]; [reflexivity|].
  cbn [all_chars]. intros H. apply andb_true_iff in H as [Hc Hs].
  now rewrite (AZ09_ascii c Hc), (IH Hs).
Qed.

Lemma upper_fixed (s : string) :
  all_chars Validator.is_AZ09 s = true -> upper s = s.
Proof.
  intros H. unfold upper.
  rewrite (decode_ascii s (AZ09_all_ascii s H)).
  rewrite <- (encode_ascii s (AZ09_all_ascii s H)) at 2. f_equal.
  induction s as [|c s IH]; [reflexivity|].
  cbn [all_chars] in H. apply andb_true_iff in H as [Hc Hs].
  cbn [list_ascii_of_string map flat_map].
  now rewrite (AZ09_to_upper c Hc), (IH Hs).
Qed.

Lemma rstrip_list_fixed (s : string) :
  all_chars Validator.is_AZ09 s = true ->
  rstrip_list is_space (map code (list_ascii_of_string s)) =
  map code (list_ascii_of_string s).
Proof.
  induction s as [|c s IH]; [reflexivity|].
  cbn [all_chars list_ascii_of_string map rstrip_list]. intros H.
  apply andb_true_iff in H as [Hc Hs]. rewrite (IH Hs).
  destruct s; [|reflexivity].
  cbn [list_ascii_of_string map]. now rewrite (AZ09_not_space c Hc).
Qed.

Lemma strip_fixed (s : string) :
  all_chars Validator.is_AZ09 s = true -> strip s = s.
Proof.
  intros H. unfold strip.
  rewrite (decode_ascii s (AZ09_all_ascii s H)).
  rewrite <- (encode_ascii s (AZ09_all_ascii s H)) at 2. f_equal.
  assert (Hl : lstrip_list is_space (map code (list_ascii_of_string s)) =
               map code (list_ascii_of_string s)).
  { destruct s as [|c s]; [reflexivity|].
    cbn [all_chars] in H. apply andb_true_iff in H as [Hc _].
    cbn [list_ascii_of_string map lstrip_list].
    now rewrite (AZ09_not_space c Hc). }
  rewrite Hl. now apply rstrip_list_fixed.
Qed.

(** *** What [strip] leaves at the end *)

Lemma ends_with_app (p : ascii -> bool) (a b : string) :
  b <> "" -> ends_with p (a ++ b) = ends_with p b.
Proof.
  intros Hb. induction a as [|c a IH]; [reflexivity|].
  cbn [append]. change (ends_with p (String c (a ++ b)))
    with (match a ++ b with
          | EmptyString => p c
          | String _ _ => ends_with p (a ++ b)
          end).
  destruct (a ++ b) eqn:E; [|exact IH].
  destruct a; [|discriminate E]. now destruct Hb.
Qed.

Lemma encode_char_not_empty (c : N) : encode_char c <> "".
Proof.
  unfold encode_char.
  destruct (c <? 128)%N; [discriminate|].
  destruct (between 56448 56575 c); [discriminate|].
  destruct (c <? 2048)%N; [discriminate|].
  destruct (c <? 65536)%N; discriminate.
Qed.

(** the last byte of a code point is a line feed only for the line
    feed *)
Lemma encode_char_line_feed (c : N) :
  ends_with line_feed (encode_char c) = (c =? 10)%N.
Proof.
  unfold encode_char, line_feed, between.
  destruct (c <? 128)%N eqn:H1.
  { apply N.ltb_lt in H1. cbn [ends_with]. rewrite code_byte by lia.
    reflexivity. }
  apply N.ltb_ge in H1.
  assert (Hc : (c =? 10)%N = false) by (apply N.eqb_neq; lia).
  rewrite Hc.
  destruct ((56448 <=? c) && (c <=? 56575))%N eqn:H2.
  { apply andb_true_iff in H2 as [Ha Hb].
    apply N.leb_le in Ha, Hb. cbn [ends_with].
    rewrite code_byte by lia. apply N.eqb_neq. lia. }
  assert (Hm : (c mod 64 < 64)%N) by (apply N.mod_lt; discriminate).
  generalize dependent (c mod 64)%N. intros m Hm.
  destruct (c <? 2048)%N;
    [|destruct (c <? 65536)%N]; cbn [ends_with];
    (rewrite code_byte by lia); apply N.eqb_neq; lia.
Qed.

Lemma rstrip_list_last (sp : N -> bool) (l : list N) :
  rstrip_list sp l = [] \/
  exists l' c, rstrip_list sp l = (l' ++ [c])%list /\ sp c = false.
Proof.
  induction l as [|c l IH]; [now left|].
  cbn [rstrip_list].
  destruct IH as [E|(l' & d & E & Hd)]; rewrite E.
  - destruct (sp c) eqn:Hc; [now left|].
    right. exists [], c. now split.
  - right. exists (c :: l'), d. split; [|exact Hd].
    destruct l'; reflexivity.
Qed.

Lemma strip_ends (s : string) : ends_with line_feed (strip s) = false.
Proof.
  unfold strip.
  destruct (rstrip_list_last is_space (lstrip_list is_space (decode s)))
    as [E|(l' & c & E & Hc)]; rewrite E; [reflexivity|].
  rewrite encode_app. cbn [encode]. rewrite append_empty.
  rewrite (ends_with_app _ _ _ (encode_char_not_empty c)).
  rewrite encode_char_line_feed.
  destruct (N.eqb_spec c 10) as [->|]; [discriminate Hc | reflexivity].
Qed.

Lemma dollar_inside (s : string) :
  ends_with line_feed s = false ->
  Validator.dollar s = match s with EmptyString => true | _ => false end.
Proof.
  destruct s as [|c [|d s]]; simpl; try reflexivity.
  unfold line_feed. now intros ->.
Qed.

(** on a text that does not end in a line feed, the pattern is a test
    of the characters and of the length *)
Lemma class_rep_spec (s : string) : forall lo hi,
  ends_with line_feed s = false ->
  Validator.class_rep lo hi s =
  all_chars Validator.is_AZ09 s &&
  (lo <=? String.length s)%nat && (String.length s <=? hi)%nat.
Proof.
  induction s as [|c s IH]; intros lo hi Hend.
  - simpl. destruct lo, hi; reflexivity.
  - assert (Hs : ends_with line_feed s = false).
    { destruct s; [reflexivity | exact Hend]. }
    cbn [Validator.class_rep]. rewrite (dollar_inside _ Hend).
    rewrite andb_false_r. cbn [orb].
    destruct hi as [|hi].
    + cbn [all_chars String.length]. rewrite !andb_false_r. reflexivity.
    + rewrite (IH (pred lo) hi Hs). cbn [all_chars String.length].
      replace (pred lo <=? String.length s)%nat
        with (lo <=? S (String.length s))%nat
        by (destruct lo; reflexivity).
      change (S (String.length s) <=? S hi)%nat
        with (String.length s <=? hi)%nat.
      now rewrite !andb_assoc.
Qed.

End Text.

(** ** Code points and their bytes *)

Section Utf8Facts.

Import Utf8.

Lemma between_true (lo hi c : N) :
  between lo hi c = true <-> (lo <= c <= hi)%N.
Proof.
  unfold between. rewrite andb_true_iff, !N.leb_le. tauto.
Qed.

Lemma between_false (lo hi c : N) :
  between lo hi c = false <-> (c < lo \/ hi < c)%N.
Proof.
  unfold between. rewrite andb_false_iff, !N.leb_gt. tauto.
Qed.

Lemma in_range_between (lo hi : N) (c : ascii) :
  in_range lo hi c = between lo hi (code c).
Proof. reflexivity. Qed.

Lemma code_bound (c : ascii) : (code c < 256)%N.
Proof. apply N_ascii_bounded. Qed.

Lemma second_ok_continuation (b0 b1 : ascii) :
  second_ok b0 b1 = true -> continuation b1 = true.
Proof.
  unfold second_ok, continuation. rewrite !in_range_between.
  intros H. apply between_true in H. apply between_true.
  destruct (code b0 =? 224)%N, (code b0 =? 240)%N, (code b0 =? 237)%N,
    (code b0 =? 244)%N; lia.
Qed.

(** one step of [decode], by the continuation bytes that follow *)
Lemma decode_step (b0 : ascii) (s1 : string) :
  decode (String b0 s1) =
  if (code b0 <? 128)%N then code b0 :: decode s1
  else
    match seq_of b0 (conts 3 s1) with
    | Some (c, k) => c :: decode (skip k s1)
    | None => escape b0 :: decode s1
    end.
Proof.
  destruct (code b0 <? 128)%N eqn:H0;
    [cbn [decode]; now rewrite H0|].
  destruct s1 as [|b1 [|b2 [|b3 s4]]]; cbn [decode conts seq_of skip];
    rewrite H0; try reflexivity.
  all: pose proof (second_ok_continuation b0 b1) as H1.
  all: destruct (continuation b1) eqn:C1;
    [|destruct (second_ok b0 b1); [discriminate (H1 eq_refl)|]];
    cbn [seq_of andb]; rewrite ?andb_true_r, ?andb_false_r;
    destruct (in_range 194 223 b0) eqn:R2; cbn [andb]; try reflexivity.
  all: try (destruct (continuation b2) eqn:C2; cbn [seq_of andb];
            rewrite ?andb_true_r, ?andb_false_r;
            destruct (in_range 224 239 b0 && second_ok b0 b1) eqn:R3;
            cbn [andb]; try reflexivity).
  all: try (destruct (continuation b3) eqn:C3; cbn [seq_of andb];
            rewrite ?andb_true_r, ?andb_false_r;
            destruct (in_range 240 244 b0 && second_ok b0 b1) eqn:R4;
            cbn [andb]; try reflexivity).
Qed.

Lemma conts_all (k : nat) : forall s,
  all_chars continuation (conts k s) = true.
Proof.
  induction k as [|k IH]; intros [|c s]; try reflexivity.
  cbn [conts]. destruct (continuation c) eqn:Hc; [|reflexivity].
  cbn [all_chars]. now rewrite Hc, IH.
Qed.

Lemma skip_length (k : nat) : forall s,
  (String.length (skip k s) <= String.length s)%nat.
Proof.
  induction k as [|k IH]; intros [|c s]; cbn [skip String.length]; auto.
Qed.

(** a continuation byte at the head belongs to no sequence *)
Lemma decode_cont (c : ascii) (s : string) :
  continuation c = true -> decode (String c s) = escape c :: decode s.
Proof.
  intros Hc. rewrite decode_step.
  unfold continuation in Hc. rewrite in_range_between in Hc.
  apply between_true in Hc.
  assert (H0 : (code c <? 128)%N = false) by (apply N.ltb_ge; lia).
  assert (H2 : in_range 194 223 c = false)
    by (rewrite in_range_between; apply between_false; lia).
  assert (H3 : in_range 224 239 c = false)
    by (rewrite in_range_between; apply between_false; lia).
  assert (H4 : in_range 240 244 c = false)
    by (rewrite in_range_between; apply between_false; lia).
  rewrite H0. unfold seq_of. rewrite H2, H3, H4.
  destruct (conts 3 s) as [|b1 [|b2 [|b3 r]]]; reflexivity.
Qed.

(** the code point of a sequence is a scalar value *)
Lemma seq_of_scalar (b0 : ascii) (c : string) (x : N) (k : nat) :
  all_chars continuation c = true ->
  seq_of b0 c = Some (x, k) -> scalar x = true.
Proof.
  unfold seq_of, scalar, two, three, four, low6, second_ok, continuation.
  intros Hc H. rewrite !in_range_between in *.
  destruct c as [|b1 c]; [discriminate H|].
  cbn [all_chars] in Hc. apply andb_true_iff in Hc as [C1 Hc].
  rewrite in_range_between in C1. apply between_true in C1.
  destruct (between 194 223 (code b0)) eqn:R2.
  { inversion H; subst. apply between_true in R2.
    apply orb_true_iff. left. apply N.ltb_lt. lia. }
  apply between_false in R2.
  destruct c as [|b2 c]; [discriminate H|].
  cbn [all_chars] in Hc. apply andb_true_iff in Hc as [C2 Hc].
  rewrite in_range_between in C2. apply between_true in C2.
  destruct (between 224 239 (code b0) && _) eqn:R3.
  { inversion H; subst. apply andb_true_iff in R3 as [R3 S3].
    apply between_true in R3, S3.
    apply orb_true_iff.
    destruct (N.eqb_spec (code b0) 224), (N.eqb_spec (code b0) 240),
      (N.eqb_spec (code b0) 237), (N.eqb_spec (code b0) 244);
      cbn iota in S3; try lia;
      (destruct (N.le_gt_cases (code b0) 236);
       first [ left; apply N.ltb_lt; lia
             | right; apply between_true; lia ]). }
  destruct c as [|b3 c]; [discriminate H|].
  cbn [all_chars] in Hc. apply andb_true_iff in Hc as [C3 Hc].
  rewrite in_range_between in C3. apply between_true in C3.
  destruct (between 240 244 (code b0) && _) eqn:R4; [|discriminate H].
  inversion H; subst. apply andb_true_iff in R4 as [R4 S4].
  apply between_true in R4, S4.
  apply orb_true_iff. right. apply between_true.
  destruct (N.eqb_spec (code b0) 224), (N.eqb_spec (code b0) 240),
    (N.eqb_spec (code b0) 237), (N.eqb_spec (code b0) 244);
    cbn iota in S4; lia.
Qed.

Ltac range_facts :=
  repeat match goal with
         | H : in_range _ _ _ = true |- _ =>
             rewrite in_range_between in H; apply between_true in H
         | H : in_range _ _ _ = false |- _ =>
             rewrite in_range_between in H; apply between_false in H
         | H : between _ _ _ = true |- _ => apply between_true in H
         | H : between _ _ _ = false |- _ => apply between_false in H
         | H : (_ <? _)%N = true |- _ => apply N.ltb_lt in H
         | H : (_ <? _)%N = false |- _ => apply N.ltb_ge in H
         end.

Ltac range_goal :=
  rewrite ?in_range_between;
  first [ apply between_true | apply between_false
        | apply N.ltb_lt | apply N.ltb_ge ]; lia.

Lemma decode2 (b0 b1 : ascii) (x : string) :
  in_range 194 223 b0 = true -> continuation b1 = true ->
  decode (String b0 (String b1 x)) = two b0 b1 :: decode x.
Proof.
  intros H0 H1. cbn [decode]. rewrite H0, H1. cbn [andb].
  range_facts.
  now replace (code b0 <? 128)%N with false by (symmetry; range_goal).
Qed.

Lemma decode3 (b0 b1 b2 : ascii) (x : string) :
  in_range 224 239 b0 = true -> second_ok b0 b1 = true ->
  continuation b2 = true ->
  decode (String b0 (String b1 (String b2 x))) =
  three b0 b1 b2 :: decode x.
Proof.
  intros H0 H1 H2. cbn [decode]. rewrite H0, H1, H2. cbn [andb].
  range_facts.
  replace (code b0 <? 128)%N with false by (symmetry; range_goal).
  now replace (in_range 194 223 b0) with false by (symmetry; range_goal).
Qed.

Lemma decode4 (b0 b1 b2 b3 : ascii) (x : string) :
  in_range 240 244 b0 = true -> second_ok b0 b1 = true ->
  continuation b2 = true -> continuation b3 = true ->
  decode (String b0 (String b1 (String b2 (String b3 x)))) =
  four b0 b1 b2 b3 :: decode x.
Proof.
  intros H0 H1 H2 H3. cbn [decode]. rewrite H0, H1, H2, H3. cbn [andb].
  range_facts.
  replace (code b0 <? 128)%N with false by (symmetry; range_goal).
  replace (in_range 194 223 b0) with false by (symmetry; range_goal).
  now replace (in_range 224 239 b0) with false by (symmetry; range_goal).
Qed.

Lemma second_ok_byte (n0 n1 : N) :
  (n0 < 256)%N -> (n1 < 256)%N ->
  ((if n0 =? 224 then 160 else if n0 =? 240 then 144 else 128) <= n1)%N ->
  (n1 <= (if n0 =? 237 then 159 else if n0 =? 244 then 143 else 191))%N ->
  second_ok (byte n0) (byte n1) = true.
Proof.
  intros H0 H1 Hlo Hhi. unfold second_ok.
  rewrite in_range_between, !code_byte by assumption.
  apply between_true. now split.
Qed.

Lemma in_range_byte (lo hi n : N) :
  (n < 256)%N -> (lo <= n <= hi)%N -> in_range lo hi (byte n) = true.
Proof.
  intros Hn H. rewrite in_range_between, code_byte by assumption.
  now apply between_true.
Qed.

(** the bytes of a scalar value are read back as that value, whatever
    follows them *)
Lemma decode_scalar (c : N) (x : string) :
  scalar c = true -> decode (encode_char c ++ x) = c :: decode x.
Proof.
  unfold scalar, encode_char. intros Hs.
  apply orb_true_iff in Hs.
  assert (Hc : (c < 55296 \/ 57344 <= c <= 1114111)%N)
    by (destruct Hs as [H|H]; range_facts; lia).
  clear Hs.
  pose proof (N.div_mod c 64 ltac:(discriminate)) as E1.
  pose proof (N.mod_lt c 64 ltac:(discriminate)) as L1.
  pose proof (N.div_mod (c / 64) 64 ltac:(discriminate)) as E2.
  pose proof (N.mod_lt (c / 64) 64 ltac:(discriminate)) as L2.
  pose proof (N.div_mod c 4096 ltac:(discriminate)) as E3.
  pose proof (N.mod_lt c 4096 ltac:(discriminate)) as L3.
  pose proof (N.div_mod (c / 4096) 64 ltac:(discriminate)) as E4.
  pose proof (N.mod_lt (c / 4096) 64 ltac:(discriminate)) as L4.
  pose proof (N.div_mod c 262144 ltac:(discriminate)) as E5.
  pose proof (N.mod_lt c 262144 ltac:(discriminate)) as L5.
  generalize dependent (c mod 262144)%N. intros m5 E5 L5.
  generalize dependent (c / 262144)%N. intros q5 E5.
  generalize dependent ((c / 4096) mod 64)%N. intros m4 E4 L4.
  generalize dependent (c / 4096 / 64)%N. intros q4 E4.
  generalize dependent (c mod 4096)%N. intros m3 E3 L3.
  generalize dependent (c / 4096)%N. intros q3 E3 E4.
  generalize dependent ((c / 64) mod 64)%N. intros m2 E2 L2.
  generalize dependent (c / 64 / 64)%N. intros q2 E2.
  generalize dependent (c mod 64)%N. intros m1 E1 L1.
  generalize dependent (c / 64)%N. intros q1 E1 E2.
  destruct (c <? 128)%N eqn:H1.
  { range_facts. cbn [append]. cbn [decode].
    rewrite code_byte by lia.
    now replace (c <? 128)%N with true by (symmetry; range_goal). }
  destruct (between 56448 56575 c) eqn:H2; [range_facts; lia|].
  destruct (c <? 2048)%N eqn:H3.
  { range_facts. cbn [append].
    rewrite decode2;
      [| apply in_range_byte; lia | apply in_range_byte; lia ].
    unfold two, low6. rewrite !code_byte by lia. f_equal. lia. }
  destruct (c <? 65536)%N eqn:H4.
  { range_facts. cbn [append].
    rewrite decode3;
      [| apply in_range_byte; lia
       | apply second_ok_byte; try lia;
         destruct (N.eqb_spec (224 + q3) 224), (N.eqb_spec (224 + q3) 240),
           (N.eqb_spec (224 + q3) 237), (N.eqb_spec (224 + q3) 244); lia
       | apply in_range_byte; lia ].
    unfold three, low6. rewrite !code_byte by lia. f_equal. lia. }
  range_facts. cbn [append].
  rewrite decode4;
    [| apply in_range_byte; lia
     | apply second_ok_byte; try lia;
       destruct (N.eqb_spec (240 + q5) 224), (N.eqb_spec (240 + q5) 240),
         (N.eqb_spec (240 + q5) 237), (N.eqb_spec (240 + q5) 244); lia
     | apply in_range_byte; lia
     | apply in_range_byte; lia ].
  unfold four, low6. rewrite !code_byte by lia. f_equal. lia.
Qed.

Lemma decode_scalars (l : list N) (x : string) :
  Forall (fun c => scalar c = true) l ->
  decode (encode l ++ x) = (l ++ decode x)%list.
Proof.
  induction 1 as [|c l Hc _ IH]; [reflexivity|].
  cbn [encode app]. now rewrite append_assoc, (decode_scalar c _ Hc), IH.
Qed.

(** the first byte of a scalar value is no continuation byte *)
Lemma encode_char_lead (c : N) (x : string) :
  scalar c = true -> lead (encode_char c ++ x) = None.
Proof.
  unfold scalar, encode_char, lead, continuation. intros Hs.
  apply orb_true_iff in Hs.
  assert (Hc : (c < 55296 \/ 57344 <= c <= 1114111)%N)
    by (destruct Hs as [H|H]; range_facts; lia).
  clear Hs.
  pose proof (N.div_mod c 64 ltac:(discriminate)) as E1.
  pose proof (N.mod_lt c 64 ltac:(discriminate)) as L1.
  pose proof (N.div_mod c 4096 ltac:(discriminate)) as E3.
  pose proof (N.mod_lt c 4096 ltac:(discriminate)) as L3.
  pose proof (N.div_mod c 262144 ltac:(discriminate)) as E5.
  pose proof (N.mod_lt c 262144 ltac:(discriminate)) as L5.
  generalize dependent (c mod 262144)%N. intros m5 E5 L5.
  generalize dependent (c / 262144)%N. intros q5 E5.
  generalize dependent (c mod 4096)%N. intros m3 E3 L3.
  generalize dependent (c / 4096)%N. intros q3 E3.
  generalize dependent (c mod 64)%N. intros m1 E1 L1.
  generalize dependent (c / 64)%N. intros q1 E1.
  destruct (c <? 128)%N eqn:H1;
    [|destruct (between 56448 56575 c) eqn:H2;
      [range_facts; lia
      |destruct (c <? 2048)%N eqn:H3;
       [|destruct (c <? 65536)%N eqn:H4]]];
    range_facts; cbn [append]; rewrite in_range_between;
    (rewrite code_byte by lia);
    (replace (between 128 191 _) with false by (symmetry; range_goal));
    reflexivity.
Qed.

Lemma encode_escape (b : ascii) :
  (128 <= code b)%N -> encode_char (escape b) = String b EmptyString.
Proof.
  intros Hb. pose proof (code_bound b) as Hlt.
  unfold encode_char, escape.
  replace (56320 + code b <? 128)%N with false by (symmetry; range_goal).
  replace (between 56448 56575 (56320 + code b)) with true
    by (symmetry; range_goal).
  replace (56320 + code b - 56320)%N with (code b) by lia.
  now rewrite byte_code.
Qed.

Lemma stray_escape (b : ascii) :
  (128 <= code b)%N -> stray (escape b) = true.
Proof.
  intros Hb. pose proof (code_bound b) as Hlt.
  unfold stray, escape. range_goal.
Qed.

Lemma conts_no_lead (k : nat) (s : string) :
  lead s = None -> conts (S k) s = EmptyString.
Proof.
  destruct s as [|c s]; [reflexivity|]. cbn [lead conts].
  now destruct (continuation c).
Qed.

(** *** A map over the code points that keeps stray bytes and scalar
    values apart can be read back from its bytes *)

Section Mapped.

Variable f : N -> list N.
Hypothesis f_stray : forall c, stray c = true -> f c = [c].
Hypothesis f_scalar :
  forall c, scalar c = true ->
            exists x l, f c = x :: l /\
                        Forall (fun c => scalar c = true) (x :: l).

Lemma mapped_lead (s : string) :
  lead s = None -> lead (encode (flat_map f (decode s))) = None.
Proof.
  destruct s as [|c s]; [reflexivity|]. intros Hl.
  assert (Hc : continuation c = false)
    by (cbn [lead] in Hl; now destruct (continuation c)).
  rewrite decode_step.
  assert (Hx : forall x r, scalar x = true ->
                 lead (encode (flat_map f (x :: r))) = None).
  { intros x r Hx. destruct (f_scalar x Hx) as (y & l & E & Hy).
    cbn [flat_map]. rewrite E. cbn [app encode].
    apply encode_char_lead.
    now inversion Hy. }
  destruct (code c <? 128)%N eqn:H0.
  { apply Hx. unfold scalar. range_facts.
    apply orb_true_iff. left. range_goal. }
  destruct (seq_of c (conts 3 s)) as [[x k]|] eqn:Hseq.
  { apply Hx. eapply seq_of_scalar; [apply conts_all | exact Hseq]. }
  range_facts. cbn [flat_map].
  rewrite (f_stray _ (stray_escape c H0)). cbn [app encode].
  rewrite (encode_escape c H0). cbn [append lead]. now rewrite Hc.
Qed.

Lemma mapped_conts (k : nat) : forall s,
  conts k (encode (flat_map f (decode s))) = conts k s.
Proof.
  induction k as [|k IH]; intros s.
  { now destruct (encode _), s. }
  destruct s as [|c s]; [reflexivity|].
  destruct (continuation c) eqn:Hc.
  - rewrite (decode_cont c s Hc). cbn [flat_map].
    assert (H0 : (128 <= code c)%N)
      by (unfold continuation in Hc; range_facts; lia).
    rewrite (f_stray _ (stray_escape c H0)). cbn [app encode].
    rewrite (encode_escape c H0). cbn [append conts].
    now rewrite Hc, IH.
  - rewrite (conts_no_lead k (String c s))
      by (cbn [lead]; now rewrite Hc).
    apply conts_no_lead, mapped_lead. cbn [lead]. now rewrite Hc.
Qed.

Lemma decode_mapped_le (n : nat) : forall s,
  (String.length s <= n)%nat ->
  decode (encode (flat_map f (decode s))) = flat_map f (decode s).
Proof.
  induction n as [|n IH]; intros [|b0 s1] Hn; try reflexivity.
  { cbn [String.length] in Hn. lia. }
  cbn [String.length] in Hn.
  assert (Hx : forall x r,
             scalar x = true -> (String.length r <= n)%nat ->
             decode (encode (flat_map f (x :: decode r))) =
             flat_map f (x :: decode r)).
  { intros x r Hx Hr. destruct (f_scalar x Hx) as (y & l & E & Hy).
    cbn [flat_map]. rewrite encode_app, E.
    rewrite (decode_scalars _ _ Hy). now rewrite (IH r Hr). }
  rewrite decode_step.
  destruct (code b0 <? 128)%N eqn:H0.
  { apply Hx; [|lia]. unfold scalar. range_facts.
    apply orb_true_iff. left. range_goal. }
  destruct (seq_of b0 (conts 3 s1)) as [[x k]|] eqn:Hseq.
  { apply Hx.
    - eapply seq_of_scalar; [apply conts_all | exact Hseq].
    - pose proof (skip_length k s1). lia. }
  range_facts. cbn [flat_map].
  rewrite (f_stray _ (stray_escape b0 H0)). cbn [app encode].
  rewrite (encode_escape b0 H0). cbn [append].
  rewrite decode_step.
  replace (code b0 <? 128)%N with false by (symmetry; range_goal).
  rewrite mapped_conts, Hseq. f_equal. apply IH. lia.
Qed.

Lemma decode_mapped (s : string) :
  decode (encode (flat_map f (decode s))) = flat_map f (decode s).
Proof. now apply (decode_mapped_le (String.length s)). Qed.

End Mapped.

(** *** The case tables keep stray bytes and scalar values apart *)

Lemma special_in_In (t : list (N * list N)) (c : N) (l : list N) :
  special_in t c = Some l -> In (c, l) t.
Proof.
  induction t as [|[k v] t IH]; [discriminate|].
  cbn [special_in]. destruct (N.eqb_spec k c) as [->|].
  - intros E. inversion E. now left.
  - intros E. right. now apply IH.
Qed.

Lemma shift_in_In (t : list (N * N * N * N)) (c u : N) :
  shift_in t c = Some u ->
  exists first last step image,
    In (first, last, step, image) t /\
    (first <= c <= last)%N /\ u = (image + (c - first))%N.
Proof.
  induction t as [|[[[first last] step] image] t IH]; [discriminate|].
  cbn [shift_in].
  destruct (between first last c && _) eqn:E.
  - intros H. inversion H. exists first, last, step, image.
    apply andb_true_iff in E as [E _]. apply between_true in E.
    split; [now left | now split].
  - intros H. destruct (IH H) as (a & b & st & im & Hin & Hr).
    exists a, b, st, im. split; [now right | exact Hr].
Qed.

Lemma upper_special_checked :
  forallb (fun kv => negb (stray (fst kv)) && scalar (fst kv) &&
                     match snd kv with [] => false | _ => true end &&
                     forallb scalar (snd kv))
          upper_special = true.
Proof. vm_compute. reflexivity. Qed.

Lemma upper_ranges_checked :
  forallb (fun e => let '(first, last, step, image) := e in
                    ((last <? 55296) || (57344 <=? first)) &&
                    ((image + (last - first) <? 55296) ||
                     (57344 <=? image) &&
                     (image + (last - first) <=? 1114111)))%N
          upper_ranges = true.
Proof. vm_compute. reflexivity. Qed.

Lemma to_upper_stray (c : N) : stray c = true -> to_upper c = [c].
Proof.
  intros Hc. unfold to_upper.
  destruct (special_in upper_special c) as [l|] eqn:E.
  { apply special_in_In in E.
    pose proof upper_special_checked as H.
    rewrite forallb_forall in H. specialize (H _ E). cbn [fst snd] in H.
    rewrite Hc in H. discriminate H. }
  destruct (shift_in upper_ranges c) as [u|] eqn:E'; [|reflexivity].
  destruct (shift_in_In _ _ _ E')
    as (first & last & step & image & Hin & Hr & _).
  pose proof upper_ranges_checked as H.
  rewrite forallb_forall in H. specialize (H _ Hin). cbn beta iota in H.
  apply andb_true_iff in H as [H _]. unfold stray in Hc.
  apply orb_true_iff in H. range_facts.
  destruct H as [H|H]; [apply N.ltb_lt in H | apply N.leb_le in H]; lia.
Qed.

Lemma to_upper_scalar (c : N) :
  scalar c = true ->
  exists x l, to_upper c = x :: l /\
              Forall (fun c => scalar c = true) (x :: l).
Proof.
  intros Hc. unfold to_upper.
  destruct (special_in upper_special c) as [l|] eqn:E.
  { apply special_in_In in E.
    pose proof upper_special_checked as H.
    rewrite forallb_forall in H. specialize (H _ E). cbn [fst snd] in H.
    apply andb_true_iff in H as [H Hall].
    apply andb_true_iff in H as [_ Hne].
    destruct l as [|x l]; [discriminate Hne|].
    exists x, l. split; [reflexivity|].
    apply Forall_forall. now apply forallb_forall. }
  destruct (shift_in upper_ranges c) as [u|] eqn:E'.
  2:{ exists c, []. split; [reflexivity|]. now constructor. }
  destruct (shift_in_In _ _ _ E')
    as (first & last & step & image & Hin & Hr & ->).
  pose proof upper_ranges_checked as H.
  rewrite forallb_forall in H. specialize (H _ Hin). cbn beta iota in H.
  apply andb_true_iff in H as [_ H].
  exists (image + (c - first))%N, []. split; [reflexivity|].
  constructor; [|constructor]. unfold scalar.
  apply orb_true_iff. apply orb_true_iff in H.
  destruct H as [H|H].
  - left. apply N.ltb_lt in H. apply N.ltb_lt. lia.
  - right. apply andb_true_iff in H as [Ha Hb].
    apply N.leb_le in Ha, Hb. apply between_true. lia.
Qed.

(** the code points of [s.upper()] are the uppercase forms of those of
    [s] *)
Lemma decode_upper (s : string) :
  decode (upper s) = flat_map to_upper (decode s).
Proof.
  unfold upper. apply decode_mapped.
  - exact to_upper_stray.
  - exact to_upper_scalar.
Qed.

End Utf8Facts.

(** ** Validators *)

Section Validators.

Import Outcome.

Variable env : Env.
Variable tr : trace.

Lemma re_match_pattern_strip (raw : string) :
  Validator.re_match_pattern (strip raw) = well_formed_symbol (strip raw).
Proof. apply class_rep_spec, strip_ends. Qed.

Lemma validate_symbol_run (raw : string) :
  Validator.validate_symbol raw env tr =
  let s := strip (upper raw) in
  if well_formed_symbol s
  then (Ok s, tr)
  else (Raise (ValueError ("Invalid symbol: " ++ s ++
                           ". Must be like 'BTCUSDT', 'ETHUSDT'")), tr).
Proof.
  unfold Validator.validate_symbol. cbv zeta.
  rewrite re_match_pattern_strip.
  destruct (well_formed_symbol (strip (upper raw))); reflexivity.
Qed.

(** *** The uppercased-and-trimmed form, in the words of the
    specification *)

Lemma uppercased_flat_map (l : list N) :
  Spec.uppercased l (flat_map to_upper l).
Proof.
  induction l as [|c l IH]; [constructor|].
  cbn [flat_map]. now constructor.
Qed.

Lemma uppercased_unique (l u : list N) :
  Spec.uppercased l u -> u = flat_map to_upper l.
Proof. induction 1; cbn [flat_map]; congruence. Qed.

Lemma lstrip_blank (b : list N) :
  Forall Spec.blank b -> lstrip_list is_space b = [].
Proof.
  induction 1 as [|c b Hc _ IH]; [reflexivity|].
  cbn [lstrip_list]. now rewrite Hc.
Qed.

Lemma lstrip_blank_app (a x : list N) :
  Forall Spec.blank a ->
  lstrip_list is_space (a ++ x) = lstrip_list is_space x.
Proof.
  induction 1 as [|c a Hc _ IH]; [reflexivity|].
  cbn [app lstrip_list]. now rewrite Hc.
Qed.

Lemma rstrip_blank (b : list N) :
  Forall Spec.blank b -> rstrip_list is_space b = [].
Proof.
  induction 1 as [|c b Hc _ IH]; [reflexivity|].
  cbn [rstrip_list]. now rewrite IH, Hc.
Qed.

Lemma rstrip_app_blank (x b : list N) :
  Forall Spec.blank b ->
  rstrip_list is_space (x ++ b) = rstrip_list is_space x.
Proof.
  intros Hb. induction x as [|c x IH]; [now apply rstrip_blank|].
  cbn [app rstrip_list]. now rewrite IH.
Qed.

Lemma rstrip_keeps (t : list N) :
  (forall t' c, t = (t' ++ [c])%list -> ~ Spec.blank c) ->
  rstrip_list is_space t = t.
Proof.
  induction t as [|c t IH]; [reflexivity|]. intros H.
  cbn [rstrip_list]. destruct t as [|d t].
  - cbn [rstrip_list]. destruct (is_space c) eqn:Hc; [|reflexivity].
    now destruct (H [] c eq_refl).
  - rewrite IH; [reflexivity|].
    intros t' e E. apply (H (c :: t') e). now rewrite E.
Qed.

Lemma lstrip_split (l : list N) :
  exists a, l = (a ++ lstrip_list is_space l)%list /\ Forall Spec.blank a.
Proof.
  induction l as [|c l (a & E & Ha)]; [now exists []|].
  cbn [lstrip_list]. destruct (is_space c) eqn:Hc.
  - exists (c :: a). split; [cbn [app]; congruence | now constructor].
  - now exists [].
Qed.

Lemma lstrip_head (l : list N) (c : N) (x : list N) :
  lstrip_list is_space l = c :: x -> is_space c = false.
Proof.
  induction l as [|d l IH]; [discriminate|].
  cbn [lstrip_list]. destruct (is_space d) eqn:Hd; [exact IH|].
  intros E. inversion E. now subst.
Qed.

Lemma rstrip_split (l : list N) :
  exists b, l = (rstrip_list is_space l ++ b)%list /\ Forall Spec.blank b.
Proof.
  induction l as [|c l (b & E & Hb)]; [now exists []|].
  cbn [rstrip_list]. destruct (rstrip_list is_space l) as [|d r] eqn:Er.
  - destruct (is_space c) eqn:Hc.
    + exists (c :: l). split; [reflexivity|].
      constructor; [exact Hc|]. cbn [app] in E. now rewrite E.
    + exists l. split; [reflexivity|]. cbn [app] in E. now rewrite E.
  - exists b. split; [|exact Hb]. cbn [app] in *. congruence.
Qed.

(** what [strip] computes is the trimmed form, and the only one *)
Lemma trimmed_strip (l : list N) :
  Spec.trimmed l (rstrip_list is_space (lstrip_list is_space l)).
Proof.
  destruct (lstrip_split l) as (a & Ea & Ha).
  destruct (rstrip_split (lstrip_list is_space l)) as (b & Eb & Hb).
  exists a, b. split; [congruence|]. split; [exact Ha|].
  split; [exact Hb|]. split.
  - intros c t' E. rewrite E in Eb. cbn [app] in Eb.
    apply lstrip_head in Eb. unfold Spec.blank. congruence.
  - intros t' c E.
    destruct (rstrip_list_last is_space (lstrip_list is_space l))
      as [E'|(l' & d & E' & Hd)]; rewrite E' in E.
    + now destruct t'.
    + apply app_inj_tail in E as [_ ->]. unfold Spec.blank. congruence.
Qed.

Lemma trimmed_unique (l t : list N) :
  Spec.trimmed l t -> t = rstrip_list is_space (lstrip_list is_space l).
Proof.
  intros (a & b & -> & Ha & Hb & Hhead & Hlast).
  rewrite (lstrip_blank_app _ _ Ha).
  destruct t as [|c t].
  - cbn [app]. now rewrite (lstrip_blank _ Hb).
  - cbn [app lstrip_list].
    destruct (is_space c) eqn:Hc; [now destruct (Hhead c t eq_refl)|].
    change (c :: (t ++ b)%list) with ((c :: t) ++ b)%list.
    now rewrite (rstrip_app_blank _ _ Hb), (rstrip_keeps _ Hlast).
Qed.

Lemma normal_form_strip_upper (raw : string) :
  Spec.normal_form raw (strip (upper raw)).
Proof.
  exists (flat_map to_upper (decode raw)),
         (rstrip_list is_space
            (lstrip_list is_space (flat_map to_upper (decode raw)))).
  split; [apply uppercased_flat_map|].
  split; [apply trimmed_strip|].
  unfold strip. now rewrite decode_upper.
Qed.

Lemma normal_form_unique (raw s : string) :
  Spec.normal_form raw s -> s = strip (upper raw).
Proof.
  intros (u & t & Hu & Ht & ->).
  apply uppercased_unique in Hu. subst u.
  apply trimmed_unique in Ht. subst t.
  unfold strip. now rewrite decode_upper.
Qed.

Lemma symbol_shape_well_formed (s : string) :
  Spec.symbol_shape s = well_formed_symbol s.
Proof.
  unfold Spec.symbol_shape, well_formed_symbol. do 2 f_equal.
  induction s as [|c s IH]; [reflexivity|].
  cbn [Spec.only_symbol_chars all_chars]. now rewrite IH.
Qed.

Lemma ascii_case_and_blanks (c : N) :
  (c < 128)%N ->
  to_upper c = [if between 97 122 c then (c - 32)%N else c] /\
  is_space c = between 9 13 c || between 28 32 c.
Proof.
  intros Hc. rewrite <- (code_byte c) by lia.
  assert (Ha : is_ascii (byte c) = true)
    by (unfold is_ascii; rewrite code_byte by lia; now apply N.ltb_lt).
  revert Ha. generalize (byte c). clear c Hc. intros a.
  destruct a as [[] [] [] [] [] [] [] []]; vm_compute;
    intros H; first [discriminate H | split; reflexivity].
Qed.

(** C4: every text has exactly one uppercased-and-trimmed form: its
    code points replaced by their uppercase forms, without the blanks at
    the two ends. When that form has only characters of [A-Z0-9] and
    5 to 12 of them, [validate_symbol] returns it; for every other text
    it raises [ValueError]. Neither case prints or logs. Among the ASCII
    characters the uppercase forms are those of the letters a to z, and
    the blanks are the characters 9 to 13 and 28 to 32. *)
Theorem validate_symbol_spec (raw : string) :
  (exists s,
      Spec.normal_form raw s /\
      (forall s', Spec.normal_form raw s' -> s' = s) /\
      if Spec.symbol_shape s
      then Validator.validate_symbol raw env tr = (Ok s, tr)
      else exists msg,
          Validator.validate_symbol raw env tr =
          (Raise (ValueError msg), tr)) /\
  (forall c, (c < 128)%N ->
             to_upper c = [if between 97 122 c then (c - 32)%N else c] /\
             is_space c = between 9 13 c || between 28 32 c).
Proof.
  split; [|exact ascii_case_and_blanks].
  exists (strip (upper raw)).
  split; [apply normal_form_strip_upper|].
  split.
  { intros s' H'. now apply normal_form_unique. }
  rewrite symbol_shape_well_formed.
  unfold Validator.validate_symbol, Validator.re_match_pattern. cbv zeta.
  rewrite (class_rep_spec _ 5 12 (strip_ends (upper raw))).
  fold (well_formed_symbol (strip (upper raw))).
  destruct (well_formed_symbol (strip (upper raw)));
    [reflexivity | eexists; reflexivity].
Qed.

Lemma validate_side_run (raw : string) :
  Validator.validate_side raw env tr =
  let s := strip (upper raw) in
  if Validator.str_in s ["BUY"; "SELL"]
  then (Ok s, tr)
  else (Raise (ValueError ("Invalid side: " ++ s ++
                           ". Must be 'BUY' or 'SELL'")), tr).
Proof.
  unfold Validator.validate_side. cbv zeta.
  destruct (Validator.str_in (strip (upper raw)) ["BUY"; "SELL"]);
    reflexivity.
Qed.

Lemma validate_order_type_run (raw : string) :
  Validator.validate_order_type raw env tr =
  let s := strip (upper raw) in
  if Validator.str_in s ["MARKET"; "LIMIT"]
  then (Ok s, tr)
  else (Raise (ValueError ("Invalid order type: " ++ s ++
                           ". Must be 'MARKET' or 'LIMIT'")), tr).
Proof.
  unfold Validator.validate_order_type. cbv zeta.
  destruct (Validator.str_in (strip (upper raw)) ["MARKET"; "LIMIT"]);
    reflexivity.
Qed.

(** every path of [validate_quantity]: the two failures end in the same
    message, the warning is printed and the value returned all the same *)
Lemma validate_quantity_run (raw : string) :
  Validator.validate_quantity raw env tr =
  match float_of_string raw with
  | None =>
      (Raise (ValueError ("Invalid quantity: " ++ raw ++
                          ". Must be a positive number")), tr)
  | Some q =>
      if leb q f_zero then
        (Raise (ValueError ("Invalid quantity: " ++ raw ++
                            ". Must be a positive number")), tr)
      else if ltb q f_0_001 then (Ok q, (tr ++ [warning q])%list)
      else (Ok q, tr)
  end.
Proof.
  unfold Validator.validate_quantity, Validator.py_float, try_except, bind.
  destruct (float_of_string raw) as [q|]; [|reflexivity].
  cbn. destruct (leb q f_zero); [reflexivity|].
  cbn. destruct (ltb q f_0_001); reflexivity.
Qed.

Lemma validate_price_run (raw : string) :
  Validator.validate_price raw env tr =
  match float_of_string raw with
  | None =>
      (Raise (ValueError ("Invalid price: " ++ raw ++
                          ". Must be a positive number")), tr)
  | Some p =>
      if leb p f_zero then
        (Raise (ValueError ("Invalid price: " ++ raw ++
                            ". Must be a positive number")), tr)
      else (Ok p, tr)
  end.
Proof.
  unfold Validator.validate_price, Validator.py_float, try_except, bind.
  destruct (float_of_string raw) as [p|]; [|reflexivity].
  cbn. destruct (leb p f_zero); reflexivity.
Qed.

(** the quantity and price validators fail exactly when [float] refuses
    the text or the value compares [<= 0] *)
Lemma validate_quantity_fails_iff (raw : string) :
  (exists e out, Validator.validate_quantity raw env tr = (Raise e, out)) <->
  match float_of_string raw with
  | None => True
  | Some q => leb q f_zero = true
  end.
Proof.
  rewrite validate_quantity_run.
  destruct (float_of_string raw) as [q|].
  - destruct (leb q f_zero).
    + split; [reflexivity | intros _; eauto].
    + split; [|discriminate].
      intros (e & out & H). destruct (ltb q f_0_001); discriminate H.
  - split; [trivial | intros _; eauto].
Qed.

Lemma validate_price_fails_iff (raw : string) :
  (exists e out, Validator.validate_price raw env tr = (Raise e, out)) <->
  match float_of_string raw with
  | None => True
  | Some p => leb p f_zero = true
  end.
Proof.
  rewrite validate_price_run.
  destruct (float_of_string raw) as [p|].
  - destruct (leb p f_zero).
    + split; [reflexivity | intros _; eauto].
    + split; [|discriminate]. intros (e & out & H). discriminate H.
  - split; [trivial | intros _; eauto].
Qed.

(** C3: at the text [nan] neither validator fails: [float] reads it as
    the IEEE value that is not a number, which compares neither [<= 0]
    nor [< 0.001], so it is returned as a valid quantity and as a valid
    price, without a warning. *)
Theorem validate_nan_accepted :
  float_of_string "nan" = Some S754_nan /\
  Validator.validate_quantity "nan" env tr = (Ok S754_nan, tr) /\
  Validator.validate_price "nan" env tr = (Ok S754_nan, tr).
Proof.
  split; [reflexivity|].
  split; [rewrite validate_quantity_run | rewrite validate_price_run];
    reflexivity.
Qed.

End Validators.

Section SpecExamples.

(** the examples of the specification, section 8 *)

Variable env : Env.

Example side_buy : Validator.validate_side "buy" env [] = (Ok "BUY", []).
Proof. reflexivity. Qed.

Example side_sell : Validator.validate_side " SELL " env [] = (Ok "SELL", []).
Proof. reflexivity. Qed.

Example side_hold :
  Validator.validate_side "HOLD" env [] =
  (Raise (ValueError "Invalid side: HOLD. Must be 'BUY' or 'SELL'"), []).
Proof. reflexivity. Qed.

Example quantity_rejected :
  map (fun raw => Outcome.error_of (fst (Validator.validate_quantity raw env [])))
      ["0"; "-1"; "abc"] =
  map (fun raw => Some (ValueError ("Invalid quantity: " ++ raw ++
                                    ". Must be a positive number")))
      ["0"; "-1"; "abc"].
Proof. reflexivity. Qed.

Example quantity_threshold :
  Validator.validate_quantity "0.001" env [] = (Ok f_0_001, []).
Proof. vm_compute. reflexivity. Qed.

Example quantity_below_threshold :
  snd (Validator.validate_quantity "0.0001" env []) =
  [Print "Warning: Quantity 0.0001 might be too small for some symbols"].
Proof. vm_compute. reflexivity. Qed.

Example price_zero :
  Validator.validate_price "0" env [] =
  (Raise (ValueError "Invalid price: 0. Must be a positive number"), []).
Proof. reflexivity. Qed.

Example price_50000 :
  option_map float_repr
    (match fst (Validator.validate_price "50000" env []) with
     | Ok p => Some p
     | Raise _ => None
     end) = Some "50000.0".
Proof. vm_compute. reflexivity. Qed.

Example symbol_normalized :
  Validator.validate_symbol " btcusdt " env [] = (Ok "BTCUSDT", []).
Proof. reflexivity. Qed.

(** texts beyond ASCII: the sharp s, whose uppercase form is SS; a
    no-break space, which [strip] removes; Arabic-Indic digits, which
    [float] reads; the Kelvin sign, which [lower] turns into k while
    [upper] leaves it *)

Example symbol_sharp_s :
  Validator.validate_symbol (encode [223%N] ++ "tcusd") env [] =
  (Ok "SSTCUSD", []).
Proof. vm_compute. reflexivity. Qed.

Example side_no_break_space :
  Validator.validate_side (encode [160%N] ++ "hold") env [] =
  (Raise (ValueError "Invalid side: HOLD. Must be 'BUY' or 'SELL'"), []).
Proof. vm_compute. reflexivity. Qed.

Example quantity_arabic_indic :
  Validator.validate_quantity (encode [1633; 46; 1637]%N) env [] =
  (Ok (round_decimal false 15 (-1)), []).
Proof. vm_compute. reflexivity. Qed.

Example symbol_kelvin_sign :
  lower (encode [8490%N] ++ "avausdt") = "kavausdt" /\
  Validator.validate_symbol "kavausdt" env [] = (Ok "KAVAUSDT", []) /\
  Outcome.error_of
    (fst (Validator.validate_symbol (encode [8490%N] ++ "avausdt") env []))
  = Some (ValueError ("Invalid symbol: " ++ encode [8490%N] ++
                      "AVAUSDT. Must be like 'BTCUSDT', 'ETHUSDT'")).
Proof. vm_compute. repeat split; reflexivity. Qed.

End SpecExamples.

(** ** Error messages and idempotence *)

Section Messages.

Import Outcome.

Lemma prefix_append (x b : string) : prefix x (x ++ b) = true.
Proof.
  induction x as [|c x IH]; simpl; [destruct b; reflexivity|].
  destruct (ascii_dec c c) as [_|N]; [exact IH | now destruct N].
Qed.

Lemma contains_here (x b : string) : contains x (x ++ b) = true.
Proof.
  destruct x as [|c x]; [destruct b; reflexivity|].
  change (prefix (String c x) (String c x ++ b) ||
          contains (String c x) (x ++ b) = true).
  now rewrite prefix_append.
Qed.

Lemma contains_self (x : string) : contains x x = true.
Proof.
  assert (E : x ++ "" = x) by (induction x; simpl; congruence).
  rewrite <- E at 2. apply contains_here.
Qed.

Lemma contains_later (x a s : string) :
  contains x s = true -> contains x (a ++ s) = true.
Proof.
  intros H. induction a as [|c a IH]; [exact H|].
  change (prefix x (String c (a ++ s)) || contains x (a ++ s) = true).
  rewrite IH. apply orb_true_r.
Qed.

Lemma contains_inside (x a b : string) : contains x (a ++ x ++ b) = true.
Proof. apply contains_later, contains_here. Qed.

Lemma message_names (f : field) (raw : string) :
  contains (field_name f) (message f raw) = true /\
  contains (shown f raw) (message f raw) = true /\
  contains (expected f) (message f raw) = true.
Proof.
  unfold message. repeat split.
  - apply contains_inside.
  - apply contains_later, contains_later, contains_inside.
  - do 5 apply contains_later. apply contains_self.
Qed.

Ltac run_validator H :=
  unfold validate, bind in H;
  first [ rewrite validate_symbol_run in H
        | rewrite validate_side_run in H
        | rewrite validate_order_type_run in H
        | rewrite validate_quantity_run in H
        | rewrite validate_price_run in H ];
  cbv zeta in H.

(** C8, as the code has it: a validator that fails raises [ValueError]
    with the message [Invalid <field>: <value>. <expected format>], where
    the value shown is the text as passed for quantity and price and the
    uppercased-and-trimmed form of the text for symbol, side and order
    type; a failing validator prints nothing. A validator that succeeds prints nothing
    either, except [validate_quantity], which prints one warning line
    when the quantity is below 0.001. *)
Theorem validation_error_message
        (f : field) (raw : string) (env : Env) (tr tr' : trace)
        (r : res value) :
  validate f raw env tr = (r, tr') ->
  match r with
  | Raise e =>
      e = ValueError (message f raw) /\ tr' = tr /\
      contains (field_name f) (message f raw) = true /\
      contains (shown f raw) (message f raw) = true /\
      contains (expected f) (message f raw) = true /\
      match f with
      | Symbol | Side | OrderType => Spec.normal_form raw (shown f raw)
      | Quantity | Price => shown f raw = raw
      end
  | Ok v =>
      tr' = tr \/
      (f = Quantity /\
       exists q, v = VFloat q /\ ltb q f_0_001 = true /\
                 tr' = (tr ++ [warning q])%list)
  end.
Proof.
  intros H.
  destruct (message_names f raw) as (Hm1 & Hm2 & Hm3).
  assert (Hn := normal_form_strip_upper raw).
  destruct f; run_validator H.
  - destruct (well_formed_symbol _); inversion H; subst; auto 7.
  - destruct (Validator.str_in _ _); inversion H; subst; auto 7.
  - destruct (Validator.str_in _ _); inversion H; subst; auto 7.
  - destruct (float_of_string raw) as [q|]; [|inversion H; subst; auto 7].
    destruct (leb q f_zero); [inversion H; subst; auto 7|].
    destruct (ltb q f_0_001) eqn:Hs; inversion H; subst; [right|left]; eauto.
  - destruct (float_of_string raw) as [q|]; [|inversion H; subst; auto 7].
    destruct (leb q f_zero); inversion H; subst; auto 7.
Qed.

Lemma validation_error_message_witness :
  validate Symbol "btc" (Sample.env (Ok "")) [] =
    (Raise (ValueError "Invalid symbol: BTC. Must be like 'BTCUSDT', 'ETHUSDT'"), []) /\
  ValueError "Invalid symbol: BTC. Must be like 'BTCUSDT', 'ETHUSDT'" =
    ValueError (message Symbol "btc") /\
  @nil event = [] /\
  contains "symbol" (message Symbol "btc") = true /\
  contains "BTC" (message Symbol "btc") = true /\
  contains "Must be like 'BTCUSDT', 'ETHUSDT'" (message Symbol "btc") = true /\
  Spec.normal_form "btc" "BTC".
Proof.
  split; [reflexivity|].
  exact (validation_error_message Symbol "btc" (Sample.env (Ok "")) [] []
           (Raise (ValueError (message Symbol "btc"))) eq_refl).
Defined.

(** C8, as stated, fails at the symbol [btc] and at the quantity
    [0.0001]: the message of the first shows [BTC] and nowhere the text
    that was passed; validating the second prints a line. *)
Lemma message_not_raw_and_warning_printed :
  validate Symbol "btc" (Sample.env (Ok "")) [] =
    (Raise (ValueError "Invalid symbol: BTC. Must be like 'BTCUSDT', 'ETHUSDT'"), []) /\
  contains "btc" "Invalid symbol: BTC. Must be like 'BTCUSDT', 'ETHUSDT'" = false /\
  snd (validate Quantity "0.0001" (Sample.env (Ok "")) []) =
    [Print "Warning: Quantity 0.0001 might be too small for some symbols"].
Proof. repeat split; vm_compute; reflexivity. Qed.

Lemma accepted_side (s : string) :
  Validator.str_in s ["BUY"; "SELL"] = true -> s = "BUY" \/ s = "SELL".
Proof.
  unfold Validator.str_in, existsb. intros H.
  destruct (String.eqb_spec s "BUY"); [now left|].
  destruct (String.eqb_spec s "SELL"); [now right | discriminate H].
Qed.

Lemma accepted_order_type (s : string) :
  Validator.str_in s ["MARKET"; "LIMIT"] = true ->
  s = "MARKET" \/ s = "LIMIT".
Proof.
  unfold Validator.str_in, existsb. intros H.
  destruct (String.eqb_spec s "MARKET"); [now left|].
  destruct (String.eqb_spec s "LIMIT"); [now right | discriminate H].
Qed.

(** C9: a value that [validate_symbol], [validate_side] or
    [validate_order_type] returned is returned unchanged when the same
    validator is applied to it again. *)
Theorem validators_idempotent
        (f : field) (raw v : string) (env : Env) (tr tr' : trace) :
  validate f raw env tr = (Ok (VStr v), tr') ->
  validate f v env tr' = (Ok (VStr v), tr').
Proof.
  intros H. destruct f.
  - run_validator H.
    destruct (well_formed_symbol (strip (upper raw))) eqn:Hw;
      inversion H; subst; clear H.
    unfold validate, bind. rewrite validate_symbol_run. cbv zeta.
    assert (Hc : all_chars Validator.is_AZ09 (strip (upper raw)) = true).
    { unfold well_formed_symbol in Hw.
      apply andb_true_iff in Hw as [Hw _].
      now apply andb_true_iff in Hw as [Hw _]. }
    rewrite (upper_fixed _ Hc), (strip_fixed _ Hc), Hw. reflexivity.
  - run_validator H.
    destruct (Validator.str_in (strip (upper raw)) _) eqn:Hw;
      inversion H; subst; clear H.
    destruct (accepted_side _ Hw) as [E|E]; rewrite E; reflexivity.
  - run_validator H.
    destruct (Validator.str_in (strip (upper raw)) _) eqn:Hw;
      inversion H; subst; clear H.
    destruct (accepted_order_type _ Hw) as [E|E]; rewrite E; reflexivity.
  - unfold validate, bind in H.
    destruct (Validator.validate_quantity raw env tr) as [[q|e] t];
      discriminate H.
  - unfold validate, bind in H.
    destruct (Validator.validate_price raw env tr) as [[q|e] t];
      discriminate H.
Qed.

Lemma validators_idempotent_witness :
  validate Symbol " btcusdt " (Sample.env (Ok "")) [] =
    (Ok (VStr "BTCUSDT"), []) /\
  validate Symbol "BTCUSDT" (Sample.env (Ok "")) [] =
    (Ok (VStr "BTCUSDT"), []).
Proof.
  split; [reflexivity|].
  exact (validators_idempotent Symbol " btcusdt " "BTCUSDT"
           (Sample.env (Ok "")) [] [] eq_refl).
Defined.

End Messages.

(** ** Exchange gateway *)

Section Gateway.

Import Outcome.

Variable env : Env.
Variable self : Client.BinanceFuturesClient.

Lemma requests_app (a b : trace) :
  requests (a ++ b) = (requests a + requests b)%nat.
Proof. unfold requests. now rewrite filter_app, length_app. Qed.

Lemma requests_silent (tr : trace) (ev : event) :
  is_request ev = false -> requests (tr ++ [ev]) = requests tr.
Proof.
  intros H. rewrite requests_app. unfold requests at 2. simpl.
  rewrite H. simpl. apply Nat.add_0_r.
Qed.

Ltac run_gateway :=
  unfold Client.place_market_order, Client.place_limit_order,
    Client.get_order_status, Client.client_futures_create_order,
    Client.client_futures_get_order, Client.info, Client.error,
    try_except, bind, answer, emit, ret;
  cbn [fst snd];
  rewrite ?requests_silent by reflexivity.

Ltac trace_tail :=
  cbn [fst snd]; rewrite <- ?app_assoc; cbn [app]; reflexivity.

(** a market order: one call, failures wrapped, nothing tried again *)
Lemma place_market_order_run (symbol side : string) (quantity : float)
      (tr : trace) :
  let kw := market_kwargs symbol side quantity in
  let answer := futures_create_order env (requests tr) kw in
  let run := Client.place_market_order self symbol side quantity env tr in
  fst run = match answer with
            | Ok order => Ok order
            | Raise e => Raise (wrapped "market" e)
            end /\
  exists out, snd run = (tr ++ out)%list /\
              filter is_network out = [CreateOrder kw].
Proof.
  intros kw answer run. subst run answer kw. run_gateway.
  unfold market_kwargs.
  destruct (futures_create_order env (requests tr) _) as [o|[m|c m|m|]];
    cbn [handle is_BinanceAPIException is_Exception is_KeyboardInterrupt
         negb raise fst snd];
    (split; [reflexivity | eexists; split; [trace_tail | reflexivity]]).
Qed.

Lemma place_limit_order_run (symbol side : string) (quantity : float)
      (price : option float) (tr : trace) :
  let kw := limit_kwargs symbol side quantity price in
  let answer := futures_create_order env (requests tr) kw in
  let run := Client.place_limit_order self symbol side quantity price
               env tr in
  fst run = match answer with
            | Ok order => Ok order
            | Raise e => Raise (wrapped "limit" e)
            end /\
  exists out, snd run = (tr ++ out)%list /\
              filter is_network out = [CreateOrder kw].
Proof.
  intros kw answer run. subst run answer kw. run_gateway.
  unfold limit_kwargs.
  destruct (futures_create_order env (requests tr) _) as [o|[m|c m|m|]];
    cbn [handle is_BinanceAPIException is_Exception is_KeyboardInterrupt
         negb raise fst snd];
    (split; [reflexivity | eexists; split; [trace_tail | reflexivity]]).
Qed.

(** C5: [place_market_order] and [place_limit_order] call create-order
    exactly once, whatever the exchange answers, also when a second call
    would be answered differently; an API rejection is raised as one
    [Exception] whose message holds the exchange's message and code;
    every other [Exception] is raised as one [Exception] with the generic
    text; a record is returned as it came. *)
Theorem place_order_once
        (symbol side : string) (quantity : float) (price : option float)
        (tr : trace) :
  let sent_market := market_kwargs symbol side quantity in
  let sent_limit := limit_kwargs symbol side quantity price in
  let market := Client.place_market_order self symbol side quantity env tr in
  let limit := Client.place_limit_order self symbol side quantity price
                 env tr in
  (exists out, snd market = (tr ++ out)%list /\
               filter is_network out = [CreateOrder sent_market]) /\
  (exists out, snd limit = (tr ++ out)%list /\
               filter is_network out = [CreateOrder sent_limit]) /\
  fst market =
    match futures_create_order env (requests tr) sent_market with
    | Ok order => Ok order
    | Raise (BinanceAPIException code message) =>
        Raise (Exception ("Binance API Error: " ++ message ++
                          " (Error code: " ++ str_int code ++ ")"))
    | Raise KeyboardInterrupt => Raise KeyboardInterrupt
    | Raise e =>
        Raise (Exception ("Unexpected error placing market order: " ++
                          str_exn e))
    end /\
  fst limit =
    match futures_create_order env (requests tr) sent_limit with
    | Ok order => Ok order
    | Raise (BinanceAPIException code message) =>
        Raise (Exception ("Binance API Error: " ++ message ++
                          " (Error code: " ++ str_int code ++ ")"))
    | Raise KeyboardInterrupt => Raise KeyboardInterrupt
    | Raise e =>
        Raise (Exception ("Unexpected error placing limit order: " ++
                          str_exn e))
    end /\
  forall code message,
    contains message ("Binance API Error: " ++ message ++
                      " (Error code: " ++ str_int code ++ ")") = true /\
    contains (str_int code) ("Binance API Error: " ++ message ++
                             " (Error code: " ++ str_int code ++ ")") = true.
Proof.
  intros sent_market sent_limit market limit.
  destruct (place_market_order_run symbol side quantity tr) as [Hm Hmo].
  destruct (place_limit_order_run symbol side quantity price tr) as [Hl Hlo].
  split; [exact Hmo|]. split; [exact Hlo|].
  split; [|split].
  - subst market sent_market. rewrite Hm.
    destruct (futures_create_order env (requests tr)
                (market_kwargs symbol side quantity)) as [o|[m|c m|m|]];
      reflexivity.
  - subst limit sent_limit. rewrite Hl.
    destruct (futures_create_order env (requests tr)
                (limit_kwargs symbol side quantity price)) as [o|[m|c m|m|]];
      reflexivity.
  - intros code message. split.
    + apply contains_inside.
    + apply contains_later, contains_later, contains_inside.
Qed.

(** C7, as the code has it: [get_order_status] returns the record when
    the query succeeds; when the query fails with any [Exception] it
    logs the error and returns [None]; it raises no [Exception] itself.
    Only a [KeyboardInterrupt] of the user passes through it. *)
Theorem get_order_status_best_effort
        (symbol : string) (order_id : Z) (tr : trace) :
  let kw := [("symbol", VStr symbol); ("orderId", VInt order_id)] in
  let run := Client.get_order_status self symbol order_id env tr in
  match futures_get_order env (requests tr) kw with
  | Ok record => fst run = Ok (Some record)
  | Raise KeyboardInterrupt => fst run = Raise KeyboardInterrupt
  | Raise e =>
      fst run = Ok None /\
      exists out,
        snd run =
        (tr ++ out ++
           [Log Client.logger ERROR
                ("Failed to check order status: " ++ str_exn e)])%list
  end /\
  match fst run with
  | Raise e => is_Exception e = false
  | Ok _ => True
  end.
Proof.
  intros kw run. subst run kw. run_gateway.
  destruct (futures_get_order env (requests tr) _) as [o|[m|c m|m|]];
    cbn [handle is_BinanceAPIException is_Exception is_KeyboardInterrupt
         negb raise fst snd];
    (split; [|reflexivity || exact I]);
    first [ reflexivity
          | split; [reflexivity|];
            rewrite <- !app_assoc; eexists [_; _]; cbn [app]; reflexivity ].
Qed.

End Gateway.

(** C7, as stated, fails when the user interrupts the query: the
  [KeyboardInterrupt] is no [Exception], the handler does not take it
  and it reaches the caller. *)
Lemma get_order_status_interrupted :
fst (Client.get_order_status Sample.client "BTCUSDT" 42
       Sample.interrupting_env []) = Raise KeyboardInterrupt.
Proof. reflexivity. Qed.

(** ** Orchestrator *)

Section Orchestrator.

Import Outcome.

Variable args : Cli.Args.
Variable env : Env.

Ltac close_frame :=
  cbn [fst snd app]; rewrite ?app_nil_r, <- ?app_assoc; reflexivity.

(** validation runs the same after any trace and only appends to it *)
Lemma validate_inputs_frame (tr : trace) :
  Cli.validate_inputs args env tr =
  (fst (Cli.validate_inputs args env []),
   (tr ++ snd (Cli.validate_inputs args env []))%list).
Proof.
  unfold Cli.validate_inputs, bind.
  rewrite !validate_symbol_run. cbv zeta.
  destruct (well_formed_symbol _); [|close_frame].
  rewrite !validate_side_run. cbv zeta.
  destruct (Validator.str_in _ ["BUY"; "SELL"]); [|close_frame].
  rewrite !validate_order_type_run. cbv zeta.
  destruct (Validator.str_in _ ["MARKET"; "LIMIT"]); [|close_frame].
  rewrite !validate_quantity_run.
  destruct (float_of_string (Cli.quantity args)) as [q|]; [|close_frame].
  destruct (leb q f_zero); [close_frame|].
  destruct (ltb q f_0_001);
    (destruct (_ =? "LIMIT")%string;
     [ destruct (Cli.truthy_price (Cli.price args)); cbn [negb raise ret];
       [ rewrite !validate_price_run;
         destruct (float_of_string _) as [p|];
         [ destruct (leb p f_zero) |] |]
     |]; unfold print, emit, ret; close_frame).
Qed.

(** what validation leaves behind: printed lines only; an error is a
    [ValueError]; an accepted order is normalized, MARKET without a
    price, LIMIT with the price that was passed *)
Lemma validate_inputs_cases :
  forallb is_print (snd (Cli.validate_inputs args env [])) = true /\
  match fst (Cli.validate_inputs args env []) with
  | Raise e => is_ValueError e = true
  | Ok (s, sd, ot, q, p) =>
      s = strip (upper (Cli.symbol args)) /\
      well_formed_symbol s = true /\
      (sd = "BUY" \/ sd = "SELL") /\
      float_of_string (Cli.quantity args) = Some q /\
      leb q f_zero = false /\
      ((ot = "MARKET" /\ p = None) \/
       (ot = "LIMIT" /\ Cli.truthy_price (Cli.price args) = true /\
        exists x, p = Some x /\ leb x f_zero = false /\
                  float_of_string
                    (str_value (value_of_price (Cli.price args))) = Some x))
  end.
Proof.
  unfold Cli.validate_inputs, bind.
  rewrite !validate_symbol_run. cbv zeta.
  destruct (well_formed_symbol _) eqn:Hsym; [|now split].
  rewrite !validate_side_run. cbv zeta.
  destruct (Validator.str_in _ ["BUY"; "SELL"]) eqn:Hside; [|now split].
  rewrite !validate_order_type_run. cbv zeta.
  destruct (Validator.str_in _ ["MARKET"; "LIMIT"]) eqn:Htype; [|now split].
  rewrite !validate_quantity_run.
  destruct (float_of_string (Cli.quantity args)) as [q|]; [|now split].
  destruct (leb q f_zero) eqn:Hq; [now split|].
  apply accepted_side in Hside. apply accepted_order_type in Htype.
  destruct (ltb q f_0_001);
    (destruct Htype as [Ht|Ht]; rewrite Ht; cbn [String.eqb Ascii.eqb Bool.eqb];
     [ unfold print, emit, ret; cbn [fst snd forallb is_print app andb];
       repeat split; auto
     | destruct (Cli.truthy_price (Cli.price args)) eqn:Hp;
       cbn [negb raise ret]; [|now split];
       rewrite !validate_price_run;
       destruct (float_of_string _) as [x|] eqn:Hfx; [|now split];
       destruct (leb x f_zero) eqn:Hx; [now split|];
       unfold print, emit, ret; cbn [fst snd forallb is_print app andb];
       repeat split; auto; right; repeat split; eauto ]).
Qed.

Lemma prints_are_silent (out rest : trace) (n : nat) :
  forallb is_print out = true ->
  outside_from env n (out ++ rest) = outside_from env n rest.
Proof.
  induction out as [|ev out IH]; [reflexivity|].
  cbn [forallb]. intros H. apply andb_true_iff in H as [Hev Hout].
  destruct ev; try discriminate Hev. cbn [app outside_from]. now apply IH.
Qed.

Lemma prints_no_request (out : trace) :
  forallb is_print out = true -> requests out = 0%nat.
Proof.
  induction out as [|ev out IH]; [reflexivity|].
  cbn [forallb]. intros H. apply andb_true_iff in H as [Hev Hout].
  destruct ev; try discriminate Hev. exact (IH Hout).
Qed.

Ltac step :=
  cbv beta iota zeta delta
      [Cli.main Cli.print_banner Cli.print_order_summary
       Cli.print_order_result Cli.info Cli.error Cli.truthy_text
       Client.init Client.new_Client Client.info Client.error
       Client.place_market_order Client.place_limit_order
       Client.client_futures_create_order
       bind ret raise emit print try_except handle answer input os_getenv
       is_ValueError is_Exception is_KeyboardInterrupt
       is_BinanceAPIException negb orb fst snd].

Ltac count_requests Hout :=
  repeat rewrite requests_app;
  rewrite (prints_no_request _ Hout);
  cbn [requests filter is_request List.length Nat.add].

Ltac observe Hout :=
  do 2 eexists; split; [reflexivity|];
  unfold outside; rewrite <- ?app_assoc; cbn [app outside_from];
  rewrite (prints_are_silent _ _ _ Hout); cbn [app outside_from].

Lemma credentials_intro (key secret : string) (c d : ascii) (k s : string) :
  getenv env "BINANCE_API_KEY" = Some key ->
  getenv env "BINANCE_API_SECRET" = Some secret ->
  key = String c k -> secret = String d s ->
  credentials env key secret.
Proof. intros Hk Hs -> ->. repeat split; auto; discriminate. Qed.

(** [main] follows the flow: it always returns a status, and the
    status and the outside calls are those of one of the seven paths *)
Lemma main_flow :
  exists status tr,
    Cli.main args env [] = (Ok status, tr) /\
    flow args env status (outside env tr).
Proof.
  destruct validate_inputs_cases as [Hout Hres].
  step. rewrite validate_inputs_frame.
  destruct (Cli.validate_inputs args env []) as [[o|e] out] eqn:Hv;
    cbn [fst snd] in *.
  2:{ destruct e; try discriminate Hres. step. observe Hout.
      eapply flow_invalid; eassumption. }
  destruct o as [[[[s sd] ot] q] p]. step.
  destruct (getenv env "BINANCE_API_KEY") as [key|] eqn:Hkey.
  2:{ destruct (getenv env "BINANCE_API_SECRET"); step; observe Hout;
      (eapply flow_unconfigured; [eassumption|]); left; now rewrite Hkey. }
  destruct (getenv env "BINANCE_API_SECRET") as [secret|] eqn:Hsec.
  2:{ step. observe Hout.
      (eapply flow_unconfigured; [eassumption|]); right; now rewrite Hsec. }
  destruct key as [|c k].
  { destruct secret; step; observe Hout;
      (eapply flow_unconfigured; [eassumption|]); left; now rewrite Hkey. }
  destruct secret as [|d sc].
  { step. observe Hout.
    (eapply flow_unconfigured; [eassumption|]); right; now rewrite Hsec. }
  assert (Hcred : credentials env (String c k) (String d sc))
    by (eapply credentials_intro; eauto).
  assert (Hyes : forall line, (lower line =? "yes")%string = true ->
                              lower line = "yes")
    by (intros line; apply String.eqb_eq).
  assert (Hno : forall line, (lower line =? "yes")%string = false ->
                             lower line <> "yes")
    by (intros line; apply String.eqb_neq).
  step.
  destruct (Cli.truthy_price p); step;
  (destruct (stdin_line env) as [line|e] eqn:Hin; step;
   [ destruct (lower line =? "yes")%string eqn:Hline; step;
     [ destruct (connect env (String c k) (String d sc) true) as [e|]
         eqn:Hconn; step;
       [ destruct e; step; observe Hout; rewrite Hin, Hconn;
         cbn [error_of];
         match goal with
         | |- flow _ _ _ [_; (_, Some ?e)] =>
             exact (flow_connect_raised args env _ out _ _ line e
                      Hv Hcred Hin (Hyes _ Hline) Hconn)
         end
       | destruct (ot =? "MARKET")%string eqn:Hot; step;
         count_requests Hout;
         match goal with
         | |- context [futures_create_order env 0 ?kw] =>
             assert (Hkw : order_kwargs (s, sd, ot, q, p) = kw)
               by (unfold order_kwargs, market_kwargs, limit_kwargs;
                   rewrite Hot; reflexivity);
             rewrite <- Hkw
         end;
         (destruct (futures_create_order env 0
                      (order_kwargs (s, sd, ot, q, p)))
            as [record|e] eqn:Hord; step;
         [ destruct (Cli.value_is (dict_get record "type" VNone) "LIMIT");
           step; observe Hout; rewrite Hin, Hconn, Hord; cbn [error_of];
           exact (flow_placed args env _ out _ _ line record
                    Hv Hcred Hin (Hyes _ Hline) Hconn Hord)
         | destruct e; step; observe Hout; rewrite Hin, Hconn, Hord;
           cbn [error_of];
           match goal with
           | |- flow _ _ _ [_; _; (_, Some ?e)] =>
               exact (flow_order_raised args env _ out _ _ line e
                        Hv Hcred Hin (Hyes _ Hline) Hconn Hord)
           end ]) ]
     | observe Hout; rewrite Hin; cbn [error_of];
       exact (flow_declined args env _ out _ _ line
                Hv Hcred Hin (Hno _ Hline)) ]
   | destruct e; step; observe Hout; rewrite Hin; cbn [error_of];
     match goal with
     | |- flow _ _ _ [(_, Some ?e)] =>
         exact (flow_prompt_raised args env _ out _ _ e Hv Hcred Hin)
     end ]).
Qed.

End Orchestrator.

(** ** Exit status, confirmation and what is submitted *)

Section Run.

Import Outcome.

Variable args : Cli.Args.
Variable env : Env.

Lemma outside_events (tr : trace) : forall n,
  map fst (outside_from env n tr) = filter is_outside tr.
Proof.
  induction tr as [|ev tr IH]; intros n; [reflexivity|].
  destruct ev; cbn [outside_from filter is_outside map fst];
    now rewrite ?IH.
Qed.

Lemma network_is_outside (tr : trace) :
  filter is_network (filter is_outside tr) = filter is_network tr.
Proof.
  induction tr as [|ev tr IH]; [reflexivity|].
  destruct ev; cbn [filter is_outside is_network]; now rewrite ?IH.
Qed.

Lemma network_of_outside (tr : trace) :
  filter is_network tr = filter is_network (map fst (outside env tr)).
Proof.
  unfold outside. now rewrite outside_events, network_is_outside.
Qed.

Lemma event_is_outside (tr : trace) (ev : event) :
  is_outside ev = true -> In ev tr -> In ev (map fst (outside env tr)).
Proof.
  intros Hev Hin. unfold outside. rewrite outside_events.
  apply filter_In. now split.
Qed.

Lemma credentials_present (key secret : string) :
  credentials env key secret -> ~ credentials_missing env.
Proof.
  intros (Hk & Hs & Nk & Ns) [H|H].
  - rewrite Hk in H. destruct key; [now apply Nk | discriminate H].
  - rewrite Hs in H. destruct secret; [now apply Ns | discriminate H].
Qed.

Ltac settle :=
  unfold prompt in *;
  repeat match goal with
         | |- _ /\ _ => split
         | |- _ <-> _ => split
         | |- _ -> _ => intro
         | H : exists _, _ |- _ => destruct H
         | H : _ /\ _ |- _ => destruct H
         | H : _ \/ _ |- _ => destruct H
         | H : In _ (_ :: _) |- _ => destruct H
         | H : In _ [] |- _ => destruct H
         | H : validation_failed _ _ |- _ => destruct H as (? & ? & H)
         | H : credentials_missing _ |- _ =>
             exfalso; eapply credentials_present; eassumption
         end;
  try congruence; try reflexivity;
  try (repeat match goal with
              | H : (_, _) = (_, _) |- _ => inversion H; clear H; subst
              end;
       discriminate);
  cbn [In filter map fst is_network]; eauto 12.

Lemma outside_prints (out : trace) :
  forallb is_print out = true -> filter is_outside out = [].
Proof.
  induction out as [|ev out IH]; [reflexivity|].
  cbn [forallb]. intros H. apply andb_true_iff in H as [Hev Hout].
  destruct ev; try discriminate Hev. cbn [filter is_outside]. now apply IH.
Qed.

Lemma parse_args_exit (cl : Cli.command_line) (code : Z) :
  Cli.parse_args cl = inr code ->
  (code = 0 /\ cl = Cli.Help) \/
  (code = 2 /\
   (cl = Cli.Refused \/
    exists sym sd ot q text,
      cl = Cli.Given sym sd ot q (Some text) /\
      float_of_string text = None)).
Proof.
  destruct cl as [sym sd ot q [text|]| |]; cbn [Cli.parse_args].
  - destruct (float_of_string text) eqn:E; [discriminate|].
    intros H. inversion H. right. split; [reflexivity|]. right.
    now exists sym, sd, ot, q, text.
  - discriminate.
  - intros H. inversion H. now left.
  - intros H. inversion H. right. split; [reflexivity|]. now left.
Qed.

(** C1, as the code has it: the script always ends with an exit status.
    When argparse ends the run, the status is its own: 0 after the help,
    2 after a command line it refuses, among them a [--price] that is
    no number; nothing has been asked of the user or of the exchange
    then. Otherwise the status is the one [main] returns, 0 or 1: it is 0
    exactly when an order was placed, the user declined at the prompt, or
    the user interrupted an outside call, and it is 1 after a validation
    failure, with missing credentials, after a failed connection and
    after a failed submission. With valid arguments and credentials, an
    answer other than yes gives status 0 without any call to the exchange
    library, the answer yes followed by a connection and an accepted
    order gives status 0 after exactly these two calls, and an interrupt
    at the prompt gives status 0. *)
Theorem exit_status (cl : Cli.command_line) :
  exists status tr,
    Cli.script cl env [] = (Ok status, tr) /\
    match Cli.parse_args cl with
    | inr code =>
        status = code /\ filter is_outside tr = [] /\
        ((code = 0 /\ cl = Cli.Help) \/
         (code = 2 /\
          (cl = Cli.Refused \/
           exists sym sd ot q text,
             cl = Cli.Given sym sd ot q (Some text) /\
             float_of_string text = None)))
    | inl args =>
        (status = 0 \/ status = 1) /\
        (status = 0 <->
         placed env tr \/ declined env tr \/ interrupted env tr) /\
        (declined env tr -> filter is_network tr = []) /\
        (validation_failed args env \/ credentials_missing env \/
         connection_failed env tr \/ submission_failed env tr ->
         status = 1) /\
        (forall o out key secret,
            Cli.validate_inputs args env [] = (Ok o, out) ->
            credentials env key secret ->
            match stdin_line env with
            | Ok line =>
                if (lower line =? "yes")%string then
                  connect env key secret true = None ->
                  forall record,
                    futures_create_order env 0 (order_kwargs o) =
                    Ok record ->
                    status = 0 /\ placed env tr /\
                    filter is_network tr =
                    [NewClient key secret true;
                     CreateOrder (order_kwargs o)]
                else
                  status = 0 /\ declined env tr /\
                  filter is_network tr = []
            | Raise e =>
                e = KeyboardInterrupt ->
                status = 0 /\ interrupted env tr /\
                filter is_network tr = []
            end)
    end.
Proof.
  unfold Cli.script.
  destruct (Cli.parse_args cl) as [args'|code] eqn:Hp.
  2:{ exists code. eexists. split; [reflexivity|].
      split; [reflexivity|]. split; [reflexivity|].
      now apply parse_args_exit. }
  destruct (main_flow args' env) as (status & tr & Hmain & Hflow).
  exists status, tr. split; [exact Hmain|].
  rewrite network_of_outside.
  unfold placed, declined, interrupted, connection_failed,
    submission_failed.
  remember (outside env tr) as L eqn:HL. clear HL Hmain.
  assert (Hcred : forall k s k' s',
             credentials env k s -> credentials env k' s' ->
             k' = k /\ s' = s).
  { intros k s k' s' (Hk & Hs & _) (Hk' & Hs' & _).
    split; congruence. }
  destruct Hflow as
      [ e out Hv
      | o out Hv Hmiss
      | o out key secret e Hv Hcre Hin
      | o out key secret line Hv Hcre Hin Hno
      | o out key secret line e Hv Hcre Hin Hyes Hconn
      | o out key secret line e Hv Hcre Hin Hyes Hconn Hord
      | o out key secret line record Hv Hcre Hin Hyes Hconn Hord ].
  all: (split; [|split; [|split; [|split]]]).
  all: try (intros o' out' key' secret' Hv' Hcre';
            first [ exfalso; eapply credentials_present; eassumption
                  | congruence
                  | destruct (Hcred _ _ _ _ Hcre Hcre') as [-> ->];
                    assert (o' = o) by congruence; subst o';
                    rewrite Hin;
                    try (pose proof Hno as Hno';
                         apply String.eqb_neq in Hno; rewrite Hno);
                    try (apply String.eqb_eq in Hyes; rewrite Hyes);
                    try (intros ->); try (intros Hc' record' Hr');
                    first [ congruence
                          | unfold prompt, status_of;
                            cbn [In filter map fst is_network is_Exception
                                    is_KeyboardInterrupt negb];
                            repeat split; eauto 8;
                            try (do 2 eexists;
                                 split; [left; reflexivity|];
                                 split; [reflexivity | assumption]) ] ]).
  all: try (destruct e; unfold status_of;
            cbn [is_Exception is_KeyboardInterrupt negb]).
  all: settle.
Qed.

Lemma outside_event_in (tr : trace) (ev : event) :
  In ev (map fst (outside env tr)) -> In ev tr.
Proof.
  unfold outside. rewrite outside_events. intros H.
  now apply filter_In in H.
Qed.

Lemma summary_answer (line : string) (sym sd ot : string) (q : float)
      (p : option float) (tr : trace) :
  stdin_line env = Ok line ->
  fst (Cli.print_order_summary sym sd ot q p env tr) =
  Ok (lower line =? "yes")%string.
Proof.
  intros Hin.
  unfold Cli.print_order_summary, bind, print, emit, input, answer, ret.
  destruct (Cli.truthy_price p); cbn [fst]; now rewrite Hin.
Qed.

(** C10: the prompt takes an answer as yes exactly when its lowercase
    form is the text yes, so [y], [YES ] with a blank behind it and the
    empty answer decline. With valid arguments and credentials, [main]
    reaches the prompt; an answer that is not yes ends the run with
    status 0 and without any call to the exchange library; after yes the
    run goes on to connect. *)
Theorem confirmation_by_yes (o : Cli.order) (out : trace)
        (key secret line : string) :
  Cli.validate_inputs args env [] = (Ok o, out) ->
  credentials env key secret ->
  stdin_line env = Ok line ->
  (forall sym sd ot q p tr,
      fst (Cli.print_order_summary sym sd ot q p env tr) =
      Ok (lower line =? "yes")%string) /\
  map (fun answer => (lower answer =? "yes")%string)
      ["y"; "YES "; EmptyString; "no"; "yes"; "YES"; "Yes"] =
  [false; false; false; false; true; true; true] /\
  exists status tr,
    Cli.main args env [] = (Ok status, tr) /\
    In prompt tr /\
    if (lower line =? "yes")%string
    then In (NewClient key secret true) tr
    else status = 0 /\ filter is_network tr = [].
Proof.
  intros Hvalid Hcredentials Hline.
  split; [intros; now apply summary_answer|].
  split; [reflexivity|].
  destruct (main_flow args env) as (status & tr & Hmain & Hflow).
  exists status, tr. split; [exact Hmain|].
  rewrite network_of_outside.
  assert (Hback : forall ev, In ev (map fst (outside env tr)) -> In ev tr)
    by (intros ev; apply outside_event_in).
  remember (outside env tr) as L eqn:HL. clear HL Hmain.
  assert (Hcred : forall k s, credentials env k s -> k = key /\ s = secret).
  { intros k s (Hk & Hs & _). destruct Hcredentials as (Hk' & Hs' & _).
    split; congruence. }
  destruct Hflow as
      [ e out' Hv
      | o' out' Hv Hmiss
      | o' out' key' secret' e Hv Hcre Hin
      | o' out' key' secret' line' Hv Hcre Hin Hno
      | o' out' key' secret' line' e Hv Hcre Hin Hyes Hconn
      | o' out' key' secret' line' e Hv Hcre Hin Hyes Hconn Hord
      | o' out' key' secret' line' record Hv Hcre Hin Hyes Hconn Hord ];
    try congruence;
    try (exfalso; eapply credentials_present; eassumption);
    destruct (Hcred _ _ Hcre) as [-> ->];
    assert (line' = line) by congruence; subst line';
    (split; [apply Hback; cbn [map fst In]; auto|]).
  - apply String.eqb_neq in Hno. rewrite Hno. now split.
  - apply String.eqb_eq in Hyes. rewrite Hyes.
    apply Hback. cbn [map fst In]. auto.
  - apply String.eqb_eq in Hyes. rewrite Hyes.
    apply Hback. cbn [map fst In]. auto.
  - apply String.eqb_eq in Hyes. rewrite Hyes.
    apply Hback. cbn [map fst In]. auto.
Qed.

End Run.

Section Submitted.

Import Outcome.

Variable env : Env.

Lemma confirmation_by_yes_witness :
  (forall sym sd ot q p tr,
      fst (Cli.print_order_summary sym sd ot q p
                                   (Sample.env (Ok "YES ")) tr) =
      Ok (lower "YES " =? "yes")%string) /\
  map (fun answer => (lower answer =? "yes")%string)
      ["y"; "YES "; EmptyString; "no"; "yes"; "YES"; "Yes"] =
  [false; false; false; false; true; true; true] /\
  exists status tr,
    Cli.main (Sample.args "MARKET" "0.001" None)
             (Sample.env (Ok "YES ")) [] = (Ok status, tr) /\
    In prompt tr /\
    if (lower "YES " =? "yes")%string
    then In (NewClient "testnet-credential" "testnet-credential" true) tr
    else status = 0 /\ filter is_network tr = [].
Proof.
  refine (confirmation_by_yes
            (Sample.args "MARKET" "0.001" None) (Sample.env (Ok "YES "))
            ("ETHUSDT", "SELL", "MARKET", f_0_001, None)
            [Print " All inputs validated successfully!"]
            "testnet-credential" "testnet-credential" "YES "
            _ _ eq_refl).
  - vm_compute. reflexivity.
  - repeat split; discriminate.
Defined.

Lemma validated_order (args : Cli.Args) (o : Cli.order) (out : trace) :
  Cli.validate_inputs args env [] = (Ok o, out) ->
  exists sym sd ot q p,
    o = (sym, sd, ot, q, p) /\
    ((ot = "MARKET" /\ p = None) \/
     (ot = "LIMIT" /\ exists x, p = Some x)).
Proof.
  intros Hv. destruct (validate_inputs_cases args env) as [_ H].
  rewrite Hv in H. cbn [fst] in H.
  destruct o as [[[[sym sd] ot] q] p]. exists sym, sd, ot, q, p.
  split; [reflexivity|].
  destruct H as (_ & _ & _ & _ & _ & [[Ht Hp]|(Ht & _ & x & Hp & _)]).
  - now left.
  - right. split; [exact Ht | now exists x].
Qed.

(** C6: a market order is sent without a price field; a limit order is
    sent with its price and with the time in force GTC. In every run
    of [main], a create-order request carries a price exactly when its
    type is LIMIT: for a validated MARKET order the price of the command
    line is dropped, for a validated LIMIT order the validated price is
    sent. *)
Theorem price_iff_limit :
  (forall sym sd q, dict_has (market_kwargs sym sd q) "price" = false /\
                    dict_get (market_kwargs sym sd q) "type" VNone =
                    VStr "MARKET") /\
  (forall sym sd q p,
      dict_get (limit_kwargs sym sd q p) "price" VNone = value_of_price p /\
      dict_get (limit_kwargs sym sd q p) "timeInForce" VNone = VStr "GTC" /\
      dict_get (limit_kwargs sym sd q p) "type" VNone = VStr "LIMIT") /\
  (forall self sym sd q p tr,
      filter is_create_order
             (snd (Client.place_market_order self sym sd q env tr)) =
      (filter is_create_order tr ++ [CreateOrder (market_kwargs sym sd q)])%list /\
      filter is_create_order
             (snd (Client.place_limit_order self sym sd q p env tr)) =
      (filter is_create_order tr ++ [CreateOrder (limit_kwargs sym sd q p)])%list) /\
  forall args status tr kw,
    Cli.main args env [] = (status, tr) ->
    In (CreateOrder kw) tr ->
    (has_price kw = true <-> dict_get kw "type" VNone = VStr "LIMIT") /\
    exists sym sd ot q p out,
      Cli.validate_inputs args env [] = (Ok (sym, sd, ot, q, p), out) /\
      ((ot = "MARKET" /\ p = None /\ kw = market_kwargs sym sd q) \/
       (ot = "LIMIT" /\
        exists x, p = Some x /\ kw = limit_kwargs sym sd q (Some x) /\
                  dict_get kw "price" VNone = VFloat x)).
Proof.
  split; [intros; split; reflexivity|].
  split; [intros; repeat split; reflexivity|].
  split.
  { intros self sym sd q p tr.
    destruct (place_market_order_run env self sym sd q tr)
      as (_ & om & Hm & Hfm).
    destruct (place_limit_order_run env self sym sd q p tr)
      as (_ & ol & Hl & Hfl).
    rewrite Hm, Hl, !filter_app.
    assert (Hc : forall l, filter is_create_order l =
                           filter is_create_order (filter is_network l)).
    { induction l as [|ev l IH]; [reflexivity|].
      destruct ev; cbn [filter is_network is_create_order]; now rewrite ?IH. }
    rewrite (Hc om), (Hc ol), Hfm, Hfl. split; reflexivity. }
  intros args status tr kw Hmain Hin.
  destruct (main_flow args env) as (status' & tr' & Hmain' & Hflow).
  rewrite Hmain in Hmain'. inversion Hmain'; subst status tr'; clear Hmain'.
  apply (event_is_outside env tr (CreateOrder kw) eq_refl) in Hin.
  remember (outside env tr) as L eqn:HL. clear HL Hmain.
  assert (Hgoal : forall o out,
             Cli.validate_inputs args env [] = (Ok o, out) ->
             kw = order_kwargs o ->
             (has_price kw = true <-> dict_get kw "type" VNone = VStr "LIMIT") /\
             exists sym sd ot q p out,
               Cli.validate_inputs args env [] = (Ok (sym, sd, ot, q, p), out) /\
               ((ot = "MARKET" /\ p = None /\ kw = market_kwargs sym sd q) \/
                (ot = "LIMIT" /\
                 exists x, p = Some x /\ kw = limit_kwargs sym sd q (Some x) /\
                           dict_get kw "price" VNone = VFloat x))).
  { intros o out Hv ->.
    destruct (validated_order args o out Hv)
      as (sym & sd & ot & q & p & -> & [[-> ->]|(-> & x & ->)]).
    - split; [split; discriminate|].
      exists sym, sd, "MARKET", q, None, out. split; [exact Hv|].
      left. repeat split.
    - split; [split; reflexivity|].
      exists sym, sd, "LIMIT", q, (Some x), out. split; [exact Hv|].
      right. split; [reflexivity|]. exists x. repeat split. }
  destruct Hflow as
      [ e out Hv
      | o out Hv Hmiss
      | o out key secret e Hv Hcred Hi
      | o out key secret line Hv Hcred Hi Hno
      | o out key secret line e Hv Hcred Hi Hyes Hconn
      | o out key secret line e Hv Hcred Hi Hyes Hconn Hord
      | o out key secret line record Hv Hcred Hi Hyes Hconn Hord ];
    cbn [map fst In] in Hin;
    repeat match goal with
           | H : _ \/ _ |- _ => destruct H as [H|H]
           | H : False |- _ => destruct H
           end;
    try discriminate;
    (apply (Hgoal o out Hv); congruence).
Qed.

(** C2: with order type LIMIT and the price 0 passed on the command
    line, [validate_price] is not consulted: the run ends with the
    message for a missing price, status 1 and no call to the exchange
    library, whereas [validate_price] rejects the same price with its own
    message, as the run does for a negative price. *)
Theorem zero_price_reported_missing :
  let zero := S754_zero false in
  let minus_five := SFopp (round_decimal false 5 0) in
  fst (Cli.validate_inputs (Sample.args "LIMIT" "0.1" (Some zero)) env []) =
    Raise (ValueError " Price is required for LIMIT orders!") /\
  (exists tr,
      Cli.main (Sample.args "LIMIT" "0.1" (Some zero)) env [] = (Ok 1, tr) /\
      In (Print (nl ++ " Error:  Price is required for LIMIT orders!")) tr /\
      filter is_network tr = []) /\
  Validator.validate_price (float_repr zero) env [] =
    (Raise (ValueError "Invalid price: 0.0. Must be a positive number"), []) /\
  fst (Cli.validate_inputs (Sample.args "LIMIT" "0.1" (Some minus_five))
                           env []) =
    Raise (ValueError "Invalid price: -5.0. Must be a positive number").
Proof.
  cbv zeta. split; [vm_compute; reflexivity|].
  split.
  { eexists. split; [vm_compute; reflexivity|].
    split; [|reflexivity]. do 7 right. left. reflexivity. }
  split; vm_compute; reflexivity.
Qed.

End Submitted.

Lemma price_iff_limit_witness :
exists tr kw,
  Cli.main (Sample.args "LIMIT" "0.1" (Some Sample.f_2500))
           (Sample.env (Ok "yes")) [] = (Ok 0, tr) /\
  In (CreateOrder kw) tr /\
  (Outcome.has_price kw = true <->
   dict_get kw "type" VNone = VStr "LIMIT").
Proof.
eexists. eexists. split; [vm_compute; reflexivity|].
assert (Hin : In (CreateOrder
                    (Outcome.limit_kwargs "ETHUSDT" "SELL"
                       (round_decimal false 1 (-1)) (Some Sample.f_2500)))
                 (snd (Cli.main
                         (Sample.args "LIMIT" "0.1" (Some Sample.f_2500))
                         (Sample.env (Ok "yes")) []))).
{ vm_compute. repeat (first [left; reflexivity | right]). }
split; [exact Hin|].
destruct (price_iff_limit (Sample.env (Ok "yes"))) as (_ & _ & _ & H).
exact (proj1 (H (Sample.args "LIMIT" "0.1" (Some Sample.f_2500))
                _ _ _ (surjective_pairing _) Hin)).
Defined.

Lemma exit_status_witness :
exists status tr,
  Cli.script (Cli.Given "ETHUSDT" "SELL" "LIMIT" "0.1" (Some "2500"))
             (Sample.env (Ok "no")) [] = (Ok status, tr) /\
  status = 0 /\ filter is_network tr = [].
Proof.
destruct (exit_status (Sample.env (Ok "no"))
            (Cli.Given "ETHUSDT" "SELL" "LIMIT" "0.1" (Some "2500")))
  as (status & tr & Hrun & H).
exists status, tr. split; [exact Hrun|].
assert (Hp : Cli.parse_args
               (Cli.Given "ETHUSDT" "SELL" "LIMIT" "0.1" (Some "2500")) =
             inl (Sample.args "LIMIT" "0.1" (Some Sample.f_2500)))
  by (vm_compute; reflexivity).
rewrite Hp in H. destruct H as (_ & _ & _ & _ & H).
assert (Hv : Cli.validate_inputs
               (Sample.args "LIMIT" "0.1" (Some Sample.f_2500))
               (Sample.env (Ok "no")) [] =
             (Ok ("ETHUSDT", "SELL", "LIMIT", round_decimal false 1 (-1),
                  Some Sample.f_2500),
              [Print " All inputs validated successfully!"]))
  by (vm_compute; reflexivity).
assert (Hc : Outcome.credentials (Sample.env (Ok "no"))
               "testnet-credential" "testnet-credential")
  by (repeat split; discriminate).
destruct (H _ _ _ _ Hv Hc) as (H0 & _ & Hn). now split.
Defined.

(** C1, as stated, fails for a command line with a price that is no
  number, where the script exits with status 2 before any validation,
  and for a request for help, where it exits with status 0 although no
  order was placed and the user neither declined nor interrupted. *)
Lemma rejected_price_exits_with_2 :
(exists tr,
    Cli.script (Cli.Given "BTCUSDT" "BUY" "LIMIT" "0.001" (Some "abc"))
               (Sample.env (Ok "yes")) [] = (Ok 2, tr) /\
    filter Outcome.is_outside tr = []) /\
(exists tr,
    Cli.script Cli.Help (Sample.env (Ok "yes")) [] = (Ok 0, tr) /\
    ~ (Outcome.placed (Sample.env (Ok "yes")) tr \/
       Outcome.declined (Sample.env (Ok "yes")) tr \/
       Outcome.interrupted (Sample.env (Ok "yes")) tr)).
Proof.
split.
- eexists. split; [vm_compute; reflexivity | reflexivity].
- eexists. split; [vm_compute; reflexivity|].
  intros [(kw & H)|[(p & l & H & _)|(ev & H)]]; exact H.
Qed.

(** ** More on the validators *)

Section Normalization.

Import Outcome Utf8.

Lemma blank_cases (c : N) :
  is_space c = true ->
  In c [9; 10; 11; 12; 13; 28; 29; 30; 31; 32; 133; 160; 5760; 8192; 8193;
        8194; 8195; 8196; 8197; 8198; 8199; 8200; 8201; 8202; 8232; 8233;
        8239; 8287; 12288]%N.
Proof.
  unfold is_space. rewrite !orb_true_iff, !between_true, !N.eqb_eq.
  intros H. cbn [In].
  destruct H as [[[[[[[[[[H|H]|H]|H]|H]|H]|H]|H]|H]|H]|H]; lia.
Qed.

Lemma blank_scalar (c : N) : is_space c = true -> scalar c = true.
Proof.
  intros H. apply blank_cases in H. cbn [In] in H.
  repeat (destruct H as [<-|H]; [reflexivity|]). destruct H.
Qed.

Lemma blank_to_upper (c : N) : is_space c = true -> to_upper c = [c].
Proof.
  intros H. apply blank_cases in H. cbn [In] in H.
  repeat (destruct H as [<-|H]; [reflexivity|]). destruct H.
Qed.

Lemma blanks_scalar (l : list N) :
  Forall Spec.blank l -> Forall (fun c => scalar c = true) l.
Proof.
  intros H. eapply Forall_impl; [|exact H]. intros c. apply blank_scalar.
Qed.

Lemma blanks_upper (l : list N) :
  Forall Spec.blank l -> flat_map to_upper l = l.
Proof.
  induction 1 as [|c l Hc _ IH]; [reflexivity|].
  cbn [flat_map]. now rewrite (blank_to_upper c Hc), IH.
Qed.

Lemma conts_app (k : nat) : forall a y,
  lead y = None -> conts k (a ++ y) = conts k a.
Proof.
  induction k as [|k IH]; intros a y Hy.
  { now destruct (a ++ y), a. }
  destruct a as [|c a]; cbn [append].
  - now apply conts_no_lead.
  - cbn [conts]. now rewrite (IH a y Hy).
Qed.

Lemma skip_app (k : nat) : forall a y,
  (k <= String.length a)%nat -> skip k (a ++ y) = skip k a ++ y.
Proof.
  induction k as [|k IH]; intros a y Hk; [reflexivity|].
  destruct a as [|c a]; cbn [String.length] in Hk; [lia|].
  cbn [append skip]. apply IH. lia.
Qed.

Lemma conts_length (k : nat) : forall s,
  (String.length (conts k s) <= String.length s)%nat.
Proof.
  induction k as [|k IH]; intros [|c s]; cbn [conts String.length];
    try lia.
  destruct (continuation c); cbn [String.length]; [|lia].
  specialize (IH s). lia.
Qed.

Lemma seq_of_length (b0 : ascii) (c : string) (x : N) (k : nat) :
  seq_of b0 c = Some (x, k) -> (k <= String.length c)%nat.
Proof.
  unfold seq_of. destruct c as [|b1 [|b2 [|b3 c]]];
    repeat match goal with
           | |- context [if ?b then _ else _] => destruct b
           end;
    intros H; inversion H; cbn [String.length]; lia.
Qed.

(** a text whose first byte starts a character is decoded on its own
    behind any other text *)
Lemma decode_app_le (n : nat) : forall a y,
  (String.length a <= n)%nat -> lead y = None ->
  decode (a ++ y) = (decode a ++ decode y)%list.
Proof.
  induction n as [|n IH]; intros [|b0 a1] y Hn Hy; try reflexivity.
  { cbn [String.length] in Hn. lia. }
  cbn [String.length] in Hn. cbn [append].
  rewrite !decode_step, (conts_app 3 a1 y Hy).
  destruct (code b0 <? 128)%N.
  { cbn [app]. f_equal. apply IH; [lia | exact Hy]. }
  destruct (seq_of b0 (conts 3 a1)) as [[x k]|] eqn:Hseq.
  - cbn [app]. f_equal.
    assert (Hk : (k <= String.length a1)%nat).
    { pose proof (seq_of_length _ _ _ _ Hseq).
      pose proof (conts_length 3 a1). lia. }
    rewrite (skip_app k a1 y Hk). apply IH; [|exact Hy].
    pose proof (skip_length k a1). lia.
  - cbn [app]. f_equal. apply IH; [lia | exact Hy].
Qed.

Lemma blanks_lead (l : list N) :
  Forall Spec.blank l -> lead (encode l) = None.
Proof.
  intros [|c l' Hc _]; [reflexivity|].
  cbn [encode]. apply encode_char_lead. now apply blank_scalar.
Qed.

Lemma decode_surrounded (before behind : list N) (s : string) :
  Forall Spec.blank before -> Forall Spec.blank behind ->
  decode (encode before ++ s ++ encode behind) =
  (before ++ decode s ++ behind)%list.
Proof.
  intros Hb Ha.
  rewrite (decode_scalars _ _ (blanks_scalar _ Hb)).
  rewrite (decode_app_le _ s _ (le_n _) (blanks_lead _ Ha)).
  rewrite <- (append_empty (encode behind)).
  rewrite (decode_scalars _ _ (blanks_scalar _ Ha)).
  cbn [decode]. now rewrite app_nil_r.
Qed.

Lemma strip_app_blank (l behind : list N) :
  Forall Spec.blank behind ->
  rstrip_list is_space (lstrip_list is_space (l ++ behind)) =
  rstrip_list is_space (lstrip_list is_space l).
Proof.
  intros Ha. induction l as [|d l IH].
  - cbn [app]. now rewrite (lstrip_blank _ Ha).
  - cbn [app lstrip_list]. destruct (is_space d); [exact IH|].
    change (d :: (l ++ behind)%list) with ((d :: l) ++ behind)%list.
    now rewrite (rstrip_app_blank _ _ Ha).
Qed.

(** blanks around a text do not reach its uppercased-and-trimmed
    form *)
Lemma normal_form_surrounded (before behind : list N) (s : string) :
  Forall Spec.blank before -> Forall Spec.blank behind ->
  strip (upper (encode before ++ s ++ encode behind)) = strip (upper s).
Proof.
  intros Hb Ha. unfold strip.
  rewrite !decode_upper, (decode_surrounded _ _ _ Hb Ha).
  rewrite !flat_map_app, (blanks_upper _ Hb), (blanks_upper _ Ha).
  rewrite (lstrip_blank_app _ _ Hb).
  now rewrite (strip_app_blank _ _ Ha).
Qed.

Variable env : Env.
Variable tr : trace.

(** Blanks around the text of a symbol, a side or an order type make
    no difference: with blanks of any kind (spaces, tabs, line ends,
    no-break and other Unicode spaces) before and behind it the text gets
    the result and the error message of the text itself. *)
Theorem text_validators_ignore_blanks
        (raw : string) (before behind : list N) :
  Forall Spec.blank before ->
  Forall Spec.blank behind ->
  forall run,
    In run [Validator.validate_symbol; Validator.validate_side;
            Validator.validate_order_type] ->
    run (encode before ++ raw ++ encode behind) env tr = run raw env tr.
Proof.
  intros Hb Ha run Hrun.
  assert (E := normal_form_surrounded before behind raw Hb Ha).
  destruct Hrun as [<-|[<-|[<-|[]]]].
  - rewrite !validate_symbol_run. cbv zeta. now rewrite E.
  - rewrite !validate_side_run. cbv zeta. now rewrite E.
  - rewrite !validate_order_type_run. cbv zeta. now rewrite E.
Qed.

(** What a validator returns: a symbol of 5 to 12 characters of
    [A-Z0-9] that is the uppercased-and-trimmed form of the input; the side BUY or SELL;
    the order type MARKET or LIMIT; for quantity and price the float that
    [float] read from the text, which does not compare [<= 0]. *)
Theorem validator_postcondition
        (f : field) (raw : string) (v : value) (tr' : trace) :
  validate f raw env tr = (Ok v, tr') ->
  match f, v with
  | Symbol, VStr s =>
      s = strip (upper raw) /\ Spec.normal_form raw s /\
      well_formed_symbol s = true
  | Side, VStr s => s = "BUY" \/ s = "SELL"
  | OrderType, VStr s => s = "MARKET" \/ s = "LIMIT"
  | Quantity, VFloat x | Price, VFloat x =>
      float_of_string raw = Some x /\ leb x f_zero = false
  | _, _ => False
  end.
Proof.
  intros H. destruct f; unfold validate, bind in H.
  - rewrite validate_symbol_run in H. cbv zeta in H.
    destruct (well_formed_symbol _) eqn:Hw; inversion H; subst.
    split; [reflexivity|]. split; [apply normal_form_strip_upper | exact Hw].
  - rewrite validate_side_run in H. cbv zeta in H.
    destruct (Validator.str_in _ _) eqn:Hw; inversion H; subst.
    now apply accepted_side.
  - rewrite validate_order_type_run in H. cbv zeta in H.
    destruct (Validator.str_in _ _) eqn:Hw; inversion H; subst.
    now apply accepted_order_type.
  - rewrite validate_quantity_run in H.
    destruct (float_of_string raw) as [q|]; [|discriminate H].
    destruct (leb q f_zero) eqn:Hq; [discriminate H|].
    destruct (ltb q f_0_001); inversion H; subst; now split.
  - rewrite validate_price_run in H.
    destruct (float_of_string raw) as [q|]; [|discriminate H].
    destruct (leb q f_zero) eqn:Hq; inversion H; subst; now split.
Qed.

(** [validate_quantity] and [validate_price] fail exactly when [float]
    refuses the text or the value it reads compares [<= 0]; both reasons
    give the same [ValueError], whose message holds the text as passed:
    the inner message (must be greater than 0) never reaches the
    caller. *)
Theorem numeric_validators_fail_iff (raw : string) :
  let refused :=
    float_of_string raw = None \/
    exists x, float_of_string raw = Some x /\ leb x f_zero = true in
  ((exists e out, Validator.validate_quantity raw env tr = (Raise e, out))
   <-> refused) /\
  ((exists e out, Validator.validate_price raw env tr = (Raise e, out))
   <-> refused) /\
  (forall e out,
      Validator.validate_quantity raw env tr = (Raise e, out) ->
      e = ValueError ("Invalid quantity: " ++ raw ++
                      ". Must be a positive number") /\ out = tr) /\
  (forall e out,
      Validator.validate_price raw env tr = (Raise e, out) ->
      e = ValueError ("Invalid price: " ++ raw ++
                      ". Must be a positive number") /\ out = tr).
Proof.
  cbv zeta. rewrite validate_quantity_run, validate_price_run.
  destruct (float_of_string raw) as [x|].
  - destruct (leb x f_zero) eqn:Hx.
    + repeat split; eauto; intros; try (right; eauto); congruence.
    + destruct (ltb x f_0_001);
        (repeat split;
         [ intros (e & out & H); discriminate H
         | intros [H|(y & H & Hy)]; congruence
         | intros (e & out & H); discriminate H
         | intros [H|(y & H & Hy)]; congruence
         | discriminate | discriminate | discriminate | discriminate ]).
  - repeat split; eauto; intros; congruence.
Qed.

(** A quantity that is accepted is returned after exactly one printed
    warning line when it compares [< 0.001], and without any output
    otherwise; the warning names the value as Python prints it. At the
    threshold itself nothing is printed. *)
Theorem quantity_warning_below_threshold (raw : string) (q : float)
        (tr' : trace) :
  Validator.validate_quantity raw env tr = (Ok q, tr') ->
  tr' = (tr ++ (if ltb q f_0_001
                then [Print ("Warning: Quantity " ++ float_repr q ++
                             " might be too small for some symbols")]
                else []))%list /\
  ltb f_0_001 f_0_001 = false.
Proof.
  rewrite validate_quantity_run. intros H.
  split; [|reflexivity].
  destruct (float_of_string raw) as [x|]; [|discriminate H].
  destruct (leb x f_zero); [discriminate H|].
  destruct (ltb x f_0_001) eqn:Hx; inversion H; subst; rewrite Hx;
    [reflexivity | now rewrite app_nil_r].
Qed.

(** The pattern alone accepts a well-formed symbol that is followed by
    one line feed, because [$] also matches before a final line feed;
    [validate_symbol] still returns the symbol without it, since it
    trims the text first. *)
Theorem pattern_accepts_final_line_feed (s : string) :
  well_formed_symbol s = true ->
  Validator.re_match_pattern (s ++ nl) = true /\
  Validator.validate_symbol (s ++ nl) env tr = (Ok s, tr).
Proof.
  intros Hw. split.
  - unfold well_formed_symbol in Hw.
    apply andb_true_iff in Hw as [Hw Hhi].
    apply andb_true_iff in Hw as [Hall Hlo].
    unfold Validator.re_match_pattern.
    revert Hall Hlo Hhi. generalize 5%nat as lo, 12%nat as hi.
    induction s as [|c s IH]; intros lo hi Hall Hlo Hhi.
    + destruct lo; [reflexivity | discriminate Hlo].
    + cbn [all_chars] in Hall. apply andb_true_iff in Hall as [Hc Hs].
      destruct hi as [|hi]; [discriminate Hhi|].
      change (Validator.class_rep lo (S hi) (String c s ++ nl))
        with (((lo =? 0)%nat && Validator.dollar (String c (s ++ nl))) ||
              (Validator.is_AZ09 c &&
               Validator.class_rep (pred lo) hi (s ++ nl))).
      rewrite Hc, (IH (pred lo) hi Hs); [apply orb_true_r| |exact Hhi].
      destruct lo; [reflexivity | exact Hlo].
  - assert (Hall : all_chars Validator.is_AZ09 s = true).
    { unfold well_formed_symbol in Hw.
      apply andb_true_iff in Hw as [Hw _].
      now apply andb_true_iff in Hw as [Hw _]. }
    rewrite validate_symbol_run. cbv zeta.
    assert (E : strip (upper (s ++ nl)) = s).
    { change (s ++ nl) with (encode [] ++ s ++ encode [10%N]).
      rewrite (normal_form_surrounded [] [10%N] s);
        [| constructor | repeat constructor].
      now rewrite (upper_fixed s Hall), (strip_fixed s Hall). }
    now rewrite E, Hw.
Qed.

End Normalization.

Lemma text_validators_ignore_blanks_witness :
Validator.validate_side (encode [160; 32]%N ++ "sell" ++ encode [10; 8195]%N)
                        (Sample.env (Ok "yes")) [] =
Validator.validate_side "sell" (Sample.env (Ok "yes")) [].
Proof.
refine (text_validators_ignore_blanks
          (Sample.env (Ok "yes")) [] "sell" [160; 32]%N [10; 8195]%N _ _
          Validator.validate_side (or_intror (or_introl eq_refl)));
  repeat constructor.
Defined.

Lemma validator_postcondition_witness :
Outcome.validate Outcome.Quantity "0.001" (Sample.env (Ok "yes")) [] =
  (Ok (VFloat f_0_001), []) /\
float_of_string "0.001" = Some f_0_001 /\ leb f_0_001 f_zero = false.
Proof.
split; [vm_compute; reflexivity|].
exact (validator_postcondition (Sample.env (Ok "yes")) []
         Outcome.Quantity "0.001" (VFloat f_0_001) [] eq_refl).
Defined.

Lemma quantity_warning_below_threshold_witness :
Validator.validate_quantity "0.0005" (Sample.env (Ok "yes")) [] =
  (Ok (round_decimal false 5 (-4)),
   [Print "Warning: Quantity 0.0005 might be too small for some symbols"]) /\
[Print "Warning: Quantity 0.0005 might be too small for some symbols"] =
  ([] ++ (if ltb (round_decimal false 5 (-4)) f_0_001
          then [Print ("Warning: Quantity " ++
                       float_repr (round_decimal false 5 (-4)) ++
                       " might be too small for some symbols")]
          else []))%list /\
ltb f_0_001 f_0_001 = false.
Proof.
split; [vm_compute; reflexivity|].
exact (quantity_warning_below_threshold
         (Sample.env (Ok "yes")) [] "0.0005" (round_decimal false 5 (-4))
         [Print "Warning: Quantity 0.0005 might be too small for some symbols"]
         eq_refl).
Defined.

Lemma pattern_accepts_final_line_feed_witness :
Outcome.well_formed_symbol "BTCUSDT" = true /\
Validator.re_match_pattern ("BTCUSDT" ++ nl) = true /\
Validator.validate_symbol ("BTCUSDT" ++ nl) (Sample.env (Ok "yes")) [] =
  (Ok "BTCUSDT", []).
Proof.
split; [reflexivity|].
exact (pattern_accepts_final_line_feed (Sample.env (Ok "yes")) []
         "BTCUSDT" eq_refl).
Defined.

(** ** More on the exchange gateway *)

Section GatewayDetails.

Import Outcome.

Variable env : Env.

Ltac run_client :=
  unfold Client.init, Client.new_Client, Client.place_market_order,
    Client.place_limit_order, Client.get_order_status,
    Client.client_futures_create_order, Client.client_futures_get_order,
    Client.info, Client.error, try_except, bind, answer, emit, ret;
  cbn [fst snd];
  rewrite ?requests_silent by reflexivity.

Ltac handlers :=
  cbn [handle is_BinanceAPIException is_Exception is_KeyboardInterrupt
       negb raise fst snd Client.exn_message Client.exn_code].

(** Creating the client asks the exchange library for one connection.
    When that succeeds the object holds the credentials and the mode it
    was given; when it raises an [Exception] the error is logged and the
    same exception reaches the caller; a [KeyboardInterrupt] passes
    without a log record. *)
Theorem init_connects_once (key secret : string) (test : bool) (tr : trace) :
  let run := Client.init key secret test env tr in
  let asked :=
    [Log Client.logger INFO "Starting Binance Futures client...";
     NewClient key secret test] in
  match connect env key secret test with
  | None =>
      run =
      (Ok {| Client.api_key := key; Client.api_secret := secret;
             Client.testnet := test |},
       (tr ++ asked ++
          [Log Client.logger INFO
               " Binance client connected successfully!"])%list)
  | Some e =>
      run =
      (Raise e,
       (tr ++ asked ++
          (if is_Exception e
           then [Log Client.logger ERROR
                     (" Failed to connect to Binance: " ++ str_exn e)]
           else []))%list)
  end.
Proof.
  cbv zeta. run_client.
  destruct (connect env key secret test) as [[m|c m|m|]|]; handlers;
    rewrite <- ?app_assoc; cbn [app]; rewrite ?app_nil_r; reflexivity.
Qed.

(** A status query is read-only and is made once: whatever the exchange
    answers, the only call that reaches the exchange library is one
    get-order request for the given symbol and order id. *)
Theorem get_order_status_read_only
        (self : Client.BinanceFuturesClient) (symbol : string)
        (order_id : Z) (tr : trace) :
  exists out,
    snd (Client.get_order_status self symbol order_id env tr) =
      (tr ++ out)%list /\
    filter is_network out =
      [GetOrder [("symbol", VStr symbol); ("orderId", VInt order_id)]].
Proof.
  run_client.
  destruct (futures_get_order env (requests tr) _) as [o|[m|c m|m|]];
    handlers; rewrite <- ?app_assoc; cbn [app];
    eexists; (split; [reflexivity|]); reflexivity.
Qed.

(** What the place-order functions raise is what they logged: when one
    of them fails with an [Exception], the last record of the log is
    an ERROR with the very message of that exception. When it returns,
    the last record is an INFO that names the order id of the answer
    ([None] when the answer has none). *)
Theorem place_order_logs_outcome
        (self : Client.BinanceFuturesClient) (symbol side : string)
        (quantity : float) (price : option float) (tr : trace) :
  forall run,
    In run [Client.place_market_order self symbol side quantity;
            Client.place_limit_order self symbol side quantity price] ->
    exists before,
      match fst (run env tr) with
      | Raise (Exception msg) =>
          snd (run env tr) =
          (before ++ [Log Client.logger ERROR msg])%list
      | Raise e => e = KeyboardInterrupt
      | Ok order =>
          exists what,
            snd (run env tr) =
            (before ++
               [Log Client.logger INFO
                    (what ++ str_value (dict_get order "orderId" VNone))])%list
      end.
Proof.
  intros run [<-|[<-|[]]]; run_client;
    (destruct (futures_create_order env (requests tr) _) as [o|[m|c m|m|]];
     handlers;
     first [ exists tr; reflexivity
           | eexists; reflexivity
           | eexists; eexists; reflexivity ]).
Qed.

End GatewayDetails.

Lemma place_order_logs_outcome_witness :
exists before,
  snd (Client.place_market_order Sample.client "BTCUSDT" "BUY" f_0_001
         Sample.rejecting_env []) =
  (before ++
     [Log Client.logger ERROR
          "Binance API Error: Margin is insufficient. (Error code: -2019)"])%list.
Proof.
destruct (place_order_logs_outcome Sample.rejecting_env Sample.client
            "BTCUSDT" "BUY" f_0_001 None []
            (Client.place_market_order Sample.client "BTCUSDT" "BUY" f_0_001)
            (or_introl eq_refl)) as [before H].
exists before. exact H.
Defined.

(** ** More on the orchestrator *)

Section Validation.

Import Outcome.

Variable args : Cli.Args.
Variable env : Env.
Variable tr : trace.

(** Validation reports one error at a time, in the order symbol, side,
    order type, quantity: the error of the first field that is invalid is
    the error of the whole step, whatever the later fields hold. *)
Theorem first_invalid_field_reported :
  let step := fst (Cli.validate_inputs args env tr) in
  match fst (Validator.validate_symbol (Cli.symbol args) env tr) with
  | Raise e => step = Raise e
  | Ok _ =>
      match fst (Validator.validate_side (Cli.side args) env tr) with
      | Raise e => step = Raise e
      | Ok _ =>
          match fst (Validator.validate_order_type
                       (Cli.order_type args) env tr) with
          | Raise e => step = Raise e
          | Ok _ =>
              match fst (Validator.validate_quantity
                           (Cli.quantity args) env tr) with
              | Raise e => step = Raise e
              | Ok _ => True
              end
          end
      end
  end.
Proof.
  cbv zeta. unfold Cli.validate_inputs, bind.
  rewrite !validate_symbol_run. cbv zeta.
  destruct (well_formed_symbol _); [|reflexivity]. cbn [fst].
  rewrite !validate_side_run. cbv zeta.
  destruct (Validator.str_in _ ["BUY"; "SELL"]); [|reflexivity]. cbn [fst].
  rewrite !validate_order_type_run. cbv zeta.
  destruct (Validator.str_in _ ["MARKET"; "LIMIT"]); [|reflexivity].
  cbn [fst].
  rewrite !validate_quantity_run.
  destruct (float_of_string (Cli.quantity args)) as [q|]; [|reflexivity].
  destruct (leb q f_zero); [reflexivity|].
  destruct (ltb q f_0_001); exact I.
Qed.

(** A LIMIT order needs a price: when symbol, side and quantity are
    valid, the order type reads LIMIT and [--price] is absent (or is a
    zero), validation fails with the message that a price is required,
    and [validate_price] is not reached. *)
Theorem limit_requires_price (sym sd : string) (q : float) (out : trace) :
  Validator.validate_symbol (Cli.symbol args) env tr = (Ok sym, tr) ->
  Validator.validate_side (Cli.side args) env tr = (Ok sd, tr) ->
  Validator.validate_order_type (Cli.order_type args) env tr =
    (Ok "LIMIT", tr) ->
  Validator.validate_quantity (Cli.quantity args) env tr = (Ok q, out) ->
  Cli.truthy_price (Cli.price args) = false ->
  Cli.validate_inputs args env tr =
  (Raise (ValueError " Price is required for LIMIT orders!"), out).
Proof.
  intros Hs Hd Ht Hq Hp.
  unfold Cli.validate_inputs, bind. rewrite Hs, Hd, Ht, Hq.
  cbn [String.eqb Ascii.eqb Bool.eqb]. now rewrite Hp.
Qed.

(** For a MARKET order the value of [--price] plays no part: validation,
    and with it the whole run, is the same whatever price was passed. *)
Theorem market_ignores_price (p : option float) :
  strip (upper (Cli.order_type args)) = "MARKET" ->
  Cli.validate_inputs (with_price args p) env tr =
    Cli.validate_inputs args env tr /\
  Cli.main (with_price args p) env [] = Cli.main args env [].
Proof.
  intros Hm.
  assert (E : forall t, Cli.validate_inputs (with_price args p) env t =
                        Cli.validate_inputs args env t).
  { intros t. unfold Cli.validate_inputs, bind.
    cbn [with_price Cli.symbol Cli.side Cli.order_type Cli.quantity
         Cli.price].
    rewrite !validate_symbol_run. cbv zeta.
    destruct (well_formed_symbol _); [|reflexivity].
    rewrite !validate_side_run. cbv zeta.
    destruct (Validator.str_in _ ["BUY"; "SELL"]); [|reflexivity].
    rewrite !validate_order_type_run. cbv zeta. rewrite Hm.
    cbn [Validator.str_in existsb String.eqb Ascii.eqb Bool.eqb orb].
    destruct (Validator.validate_quantity (Cli.quantity args) env t)
      as [[q|e] t']; reflexivity. }
  split; [apply E|].
  cbv beta iota zeta delta
      [Cli.main Cli.print_banner Cli.info bind ret emit print try_except].
  now rewrite E.
Qed.

End Validation.

Section Flow.

Import Outcome.

Variable args : Cli.Args.
Variable env : Env.

(** [main] is the flow validate, read the credentials, confirm, connect,
    submit: it returns a status whatever the outside does, and the status
    and the outside calls of the run are those of one of the seven paths
    of [flow]. *)
Theorem main_follows_flow :
  exists status tr,
    Cli.main args env [] = (Ok status, tr) /\
    flow args env status (outside env tr).
Proof. exact (main_flow args env). Qed.

(** The outside calls of a run come in one order and at most once each:
    the prompt, then one connection, always to the testnet and with the
    credentials of the environment, then one create-order request. No
    run queries an order status. *)
Theorem outside_calls_in_order :
  exists status tr key secret kw rest,
    Cli.main args env [] = (Ok status, tr) /\
    (filter is_outside tr ++ rest)%list =
      [prompt; NewClient key secret true; CreateOrder kw] /\
    (In (NewClient key secret true) tr ->
     getenv env "BINANCE_API_KEY" = Some key /\
     getenv env "BINANCE_API_SECRET" = Some secret).
Proof.
  destruct (main_flow args env) as (status & tr & Hmain & Hflow).
  exists status, tr.
  assert (Hin : forall ev, In ev tr -> is_outside ev = true ->
                           In ev (map fst (outside env tr)))
    by (intros ev H1 H2; now apply event_is_outside).
  assert (Hf := outside_events env tr 0).
  unfold outside in *.
  remember (outside_from env 0 tr) as L eqn:HL. clear HL.
  destruct Hflow as
      [ e out Hv
      | o out Hv Hmiss
      | o out key secret e Hv Hcred Hi
      | o out key secret line Hv Hcred Hi Hno
      | o out key secret line e Hv Hcred Hi Hyes Hconn
      | o out key secret line e Hv Hcred Hi Hyes Hconn Hord
      | o out key secret line record Hv Hcred Hi Hyes Hconn Hord ];
    rewrite <- Hf; cbn [map fst] in *.
  1,2: exists EmptyString, EmptyString, [], [prompt; NewClient EmptyString EmptyString true; CreateOrder []].
  3,4: exists EmptyString, EmptyString, [], [NewClient EmptyString EmptyString true; CreateOrder []].
  5: exists key, secret, [], [CreateOrder []].
  6: exists key, secret, (order_kwargs o), [].
  7: exists key, secret, (order_kwargs o), [].
  all: (split; [exact Hmain|]); (split; [reflexivity|]).
  all: intros H; apply Hin in H; [|reflexivity]; cbn [map fst In] in H.
  all: repeat match goal with
              | H : _ \/ _ |- _ => destruct H as [H|H]
              | H : False |- _ => destruct H
              end;
    try discriminate.
  all: destruct Hcred as (Hk & Hs & _); now split.
Qed.

(** Without credentials nothing is asked and nothing is sent: when one
    of the two environment variables is unset or empty, the run ends
    with status 1 before the prompt, with no outside call at all. *)
Theorem missing_credentials_stop_early :
  credentials_missing env ->
  exists tr,
    Cli.main args env [] = (Ok 1, tr) /\ filter is_outside tr = [].
Proof.
  intros Hmiss.
  destruct (main_flow args env) as (status & tr & Hmain & Hflow).
  assert (Hf := outside_events env tr 0).
  unfold outside in Hflow.
  remember (outside_from env 0 tr) as L eqn:HL. clear HL.
  destruct Hflow as
      [ e out Hv
      | o out Hv Hm
      | o out key secret e Hv Hcred Hi
      | o out key secret line Hv Hcred Hi Hno
      | o out key secret line e Hv Hcred Hi Hyes Hconn
      | o out key secret line e Hv Hcred Hi Hyes Hconn Hord
      | o out key secret line record Hv Hcred Hi Hyes Hconn Hord ];
    try (exfalso; eapply credentials_present; eassumption);
    exists tr; rewrite <- Hf; now split.
Qed.

(** Every order that is submitted went through validation: its symbol
    is the uppercased-and-trimmed form of the argument and is well
    formed, its side is
    BUY or SELL, its quantity is the float read from the argument and
    does not compare [<= 0]; the price of a LIMIT order is the float read
    back from the text of [--price] and does not compare [<= 0]. *)
Theorem submitted_order_is_validated (status : res Z) (tr : trace)
        (kw : dict) :
  Cli.main args env [] = (status, tr) ->
  In (CreateOrder kw) tr ->
  exists sym sd q,
    dict_get kw "symbol" VNone = VStr sym /\
    sym = strip (upper (Cli.symbol args)) /\
    Spec.normal_form (Cli.symbol args) sym /\
    well_formed_symbol sym = true /\
    dict_get kw "side" VNone = VStr sd /\ (sd = "BUY" \/ sd = "SELL") /\
    dict_get kw "quantity" VNone = VFloat q /\
    float_of_string (Cli.quantity args) = Some q /\
    leb q f_zero = false /\
    (dict_get kw "type" VNone = VStr "MARKET" \/
     dict_get kw "type" VNone = VStr "LIMIT" /\
     exists x,
       dict_get kw "price" VNone = VFloat x /\ leb x f_zero = false /\
       float_of_string (str_value (value_of_price (Cli.price args))) =
         Some x).
Proof.
  intros Hmain Hin.
  destruct (main_flow args env) as (status' & tr' & Hmain' & Hflow).
  rewrite Hmain in Hmain'. inversion Hmain'; subst status tr'; clear Hmain'.
  apply (event_is_outside env tr (CreateOrder kw) eq_refl) in Hin.
  destruct (validate_inputs_cases args env) as [_ Hres].
  remember (outside env tr) as L eqn:HL. clear HL Hmain.
  assert (Hgoal : forall o out,
             Cli.validate_inputs args env [] = (Ok o, out) ->
             kw = order_kwargs o ->
             exists sym sd q,
               dict_get kw "symbol" VNone = VStr sym /\
               sym = strip (upper (Cli.symbol args)) /\
               Spec.normal_form (Cli.symbol args) sym /\
               well_formed_symbol sym = true /\
               dict_get kw "side" VNone = VStr sd /\
               (sd = "BUY" \/ sd = "SELL") /\
               dict_get kw "quantity" VNone = VFloat q /\
               float_of_string (Cli.quantity args) = Some q /\
               leb q f_zero = false /\
               (dict_get kw "type" VNone = VStr "MARKET" \/
                dict_get kw "type" VNone = VStr "LIMIT" /\
                exists x,
                  dict_get kw "price" VNone = VFloat x /\
                  leb x f_zero = false /\
                  float_of_string
                    (str_value (value_of_price (Cli.price args))) =
                    Some x)).
  { intros o out Hv ->. rewrite Hv in Hres. cbn [fst] in Hres.
    destruct o as [[[[sym sd] ot] q] p].
    destruct Hres as (Hsym & Hw & Hsd & Hq & Hq0 & Hot).
    assert (Hn : Spec.normal_form (Cli.symbol args) sym)
      by (rewrite Hsym; apply normal_form_strip_upper).
    exists sym, sd, q.
    assert (Hup : upper sd = sd) by (destruct Hsd as [-> | ->]; reflexivity).
    destruct Hot as [[-> ->]|(-> & _ & x & -> & Hx & Hfx)];
      cbn [order_kwargs String.eqb Ascii.eqb Bool.eqb market_kwargs
           limit_kwargs dict_get value_of_price];
      rewrite Hup; repeat split; auto.
    right. split; [reflexivity|]. exists x. now repeat split. }
  destruct Hflow as
      [ e out Hv
      | o out Hv Hmiss
      | o out key secret e Hv Hcred Hi
      | o out key secret line Hv Hcred Hi Hno
      | o out key secret line e Hv Hcred Hi Hyes Hconn
      | o out key secret line e Hv Hcred Hi Hyes Hconn Hord
      | o out key secret line record Hv Hcred Hi Hyes Hconn Hord ];
    cbn [map fst In] in Hin;
    repeat match goal with
           | H : _ \/ _ |- _ => destruct H as [H|H]
           | H : False |- _ => destruct H
           end;
    try discriminate;
    (apply (Hgoal o out Hv); congruence).
Qed.

End Flow.

(** ** What the user is told *)

Section Reports.

Import Outcome.

Variable args : Cli.Args.
Variable env : Env.

Ltac step :=
  cbv beta iota zeta delta
      [Cli.main Cli.print_banner Cli.print_order_summary
       Cli.print_order_result Cli.info Cli.error Cli.truthy_text
       Client.init Client.new_Client Client.info Client.error
       Client.place_market_order Client.place_limit_order
       Client.client_futures_create_order
       Client.exn_message Client.exn_code
       bind ret raise emit print try_except handle answer input os_getenv
       is_ValueError is_Exception is_KeyboardInterrupt
       is_BinanceAPIException negb orb fst snd].

Ltac count_requests Hout :=
  repeat rewrite requests_app;
  rewrite (prints_no_request _ Hout);
  cbn [requests filter is_request List.length Nat.add].

Ltac upto_prompt Hv Hcred Hout :=
  let Hk := fresh "Hk" in
  let Hs := fresh "Hs" in
  let Nk := fresh "Nk" in
  let Ns := fresh "Ns" in
  destruct Hcred as (Hk & Hs & Nk & Ns);
  pose proof (proj1 (validate_inputs_cases args env)) as Hout;
  rewrite Hv in Hout; cbn [snd] in Hout;
  step; rewrite validate_inputs_frame, Hv; cbn [fst snd];
  step; rewrite Hk, Hs;
  match goal with
  | Nk : ?key <> EmptyString, Ns : ?secret <> EmptyString |- _ =>
      destruct key; [now destruct Nk|];
      destruct secret; [now destruct Ns|]
  end;
  step.

Lemma snoc2 (l : trace) (a b : event) :
  ((l ++ [a]) ++ [b] = l ++ [a; b])%list.
Proof. now rewrite <- app_assoc. Qed.

Lemma snoc3 (l : trace) (a b c : event) :
  (((l ++ [a]) ++ [b]) ++ [c] = l ++ [a; b; c])%list.
Proof. now rewrite <- !app_assoc. Qed.

(** A validation error is shown as the validator worded it: the run
    logs it, prints it and the tip, and ends with status 1. *)
Theorem validation_failure_report (msg : string) (out : trace) :
  Cli.validate_inputs args env [] = (Raise (ValueError msg), out) ->
  exists before,
    Cli.main args env [] =
    (Ok 1,
     (before ++
        [Log Cli.logger ERROR ("Input validation failed: " ++ msg);
         Print (nl ++ " Error: " ++ msg);
         Print (nl ++ " Tip: Use --help to see examples")])%list).
Proof.
  intros Hv. step. rewrite validate_inputs_frame, Hv. cbn [fst snd]. step.
  rewrite snoc3. eexists. reflexivity.
Qed.

(** When the prompt cannot be read (the input stream is closed, say),
    the run is not interrupted but failed: it prints and logs an
    unexpected error with the text of the exception and ends with
    status 1, and no call reaches the exchange library. *)
Theorem unreadable_prompt_is_a_failure
        (o : Cli.order) (out : trace) (key secret : string) (e : exn) :
  Cli.validate_inputs args env [] = (Ok o, out) ->
  credentials env key secret ->
  stdin_line env = Raise e -> is_Exception e = true ->
  exists before,
    Cli.main args env [] =
    (Ok 1,
     (before ++
        [Print (nl ++ " Unexpected error: " ++ str_exn e);
         Log Cli.logger ERROR ("Unexpected error in main: " ++ str_exn e)])%list)
    /\ filter is_network before = [].
Proof.
  intros Hv Hcred Hin He. destruct o as [[[[s sd] ot] q] p].
  upto_prompt Hv Hcred Hout.
  destruct (Cli.truthy_price p); step; rewrite Hin; step;
    (destruct e; try discriminate He); step;
    rewrite snoc2;
    (eexists; split; [reflexivity|]);
    rewrite !filter_app;
    (replace (filter is_network out) with (@nil event);
     [reflexivity|]);
    clear - Hout; induction out as [|ev out' IH]; try reflexivity;
    cbn [forallb] in Hout; apply andb_true_iff in Hout as [H1 H2];
    destruct ev; try discriminate H1; exact (IH H2).
Qed.

(** A rejection by the exchange reaches the user with the exchange's
    message and code: the run prints and logs that placing the order
    failed, quoting both, and ends with status 1. *)
Theorem api_rejection_shown_to_user
        (o : Cli.order) (out : trace) (key secret line : string)
        (code : Z) (message : string) :
  Cli.validate_inputs args env [] = (Ok o, out) ->
  credentials env key secret ->
  stdin_line env = Ok line -> lower line = "yes" ->
  connect env key secret true = None ->
  futures_create_order env 0 (order_kwargs o) =
    Raise (BinanceAPIException code message) ->
  let text := "Binance API Error: " ++ message ++
              " (Error code: " ++ str_int code ++ ")" in
  exists before,
    Cli.main args env [] =
    (Ok 1,
     (before ++
        [Print (nl ++ " Failed to place order: " ++ text);
         Log Cli.logger ERROR ("Order placement failed: " ++ text)])%list).
Proof.
  intros Hv Hcred Hin Hyes Hconn Hord. cbv zeta.
  destruct o as [[[[s sd] ot] q] p].
  apply String.eqb_eq in Hyes.
  assert (Hconn' := Hconn).
  upto_prompt Hv Hcred Hout.
  destruct (Cli.truthy_price p); step; rewrite Hin; step;
    rewrite Hyes; step; rewrite Hconn'; step;
    unfold order_kwargs, market_kwargs, limit_kwargs in Hord;
    (destruct (ot =? "MARKET")%string; step; count_requests Hout;
     rewrite Hord; step;
     rewrite snoc2;
     eexists; reflexivity).
Qed.

End Reports.

Lemma limit_requires_price_witness :
Cli.validate_inputs (Sample.args "limit" "0.1" None)
                    (Sample.env (Ok "yes")) [] =
(Raise (ValueError " Price is required for LIMIT orders!"), []).
Proof.
exact (limit_requires_price (Sample.args "limit" "0.1" None)
         (Sample.env (Ok "yes")) [] "ETHUSDT" "SELL"
         (round_decimal false 1 (-1)) []
         eq_refl eq_refl eq_refl eq_refl eq_refl).
Defined.

Lemma market_ignores_price_witness :
Cli.main (Outcome.with_price
            (Sample.args "market" "0.001" (Some Sample.f_2500)) None)
         (Sample.env (Ok "yes")) [] =
Cli.main (Sample.args "market" "0.001" (Some Sample.f_2500))
         (Sample.env (Ok "yes")) [].
Proof.
exact (proj2 (market_ignores_price
                (Sample.args "market" "0.001" (Some Sample.f_2500))
                (Sample.env (Ok "yes")) [] None eq_refl)).
Defined.

Lemma missing_credentials_stop_early_witness :
exists tr,
  Cli.main (Sample.args "MARKET" "0.001" None) Sample.unconfigured_env [] =
    (Ok 1, tr) /\
  filter Outcome.is_outside tr = [].
Proof.
exact (missing_credentials_stop_early
         (Sample.args "MARKET" "0.001" None) Sample.unconfigured_env
         (or_introl eq_refl)).
Defined.

Lemma submitted_order_is_validated_witness :
exists sym sd q,
  dict_get (Outcome.limit_kwargs "ETHUSDT" "SELL"
              (round_decimal false 1 (-1)) (Some Sample.f_2500))
           "symbol" VNone = VStr sym /\
  sym = strip (upper "ETHUSDT") /\
  Spec.normal_form "ETHUSDT" sym /\
  Outcome.well_formed_symbol sym = true /\
  VStr (upper "SELL") = VStr sd /\ (sd = "BUY" \/ sd = "SELL") /\
  VFloat (round_decimal false 1 (-1)) = VFloat q /\
  float_of_string "0.1" = Some q /\
  leb q f_zero = false /\
  (VStr "LIMIT" = VStr "MARKET" \/
   VStr "LIMIT" = VStr "LIMIT" /\
   exists x,
     VFloat Sample.f_2500 = VFloat x /\ leb x f_zero = false /\
     float_of_string (float_repr Sample.f_2500) = Some x).
Proof.
assert (Hin : In (CreateOrder
                    (Outcome.limit_kwargs "ETHUSDT" "SELL"
                       (round_decimal false 1 (-1)) (Some Sample.f_2500)))
                 (snd (Cli.main
                         (Sample.args "LIMIT" "0.1" (Some Sample.f_2500))
                         (Sample.env (Ok "yes")) []))).
{ vm_compute. repeat (first [left; reflexivity | right]). }
exact (submitted_order_is_validated
         (Sample.args "LIMIT" "0.1" (Some Sample.f_2500))
         (Sample.env (Ok "yes")) _ _ _ (surjective_pairing _) Hin).
Defined.

Lemma validation_failure_report_witness :
exists before,
  Cli.main (Sample.args "HOLD" "0.1" None) (Sample.env (Ok "yes")) [] =
  (Ok 1,
   (before ++
      [Log Cli.logger ERROR
           ("Input validation failed: " ++
            "Invalid order type: HOLD. Must be 'MARKET' or 'LIMIT'");
       Print (nl ++ " Error: " ++
              "Invalid order type: HOLD. Must be 'MARKET' or 'LIMIT'");
       Print (nl ++ " Tip: Use --help to see examples")])%list).
Proof.
exact (validation_failure_report (Sample.args "HOLD" "0.1" None)
         (Sample.env (Ok "yes"))
         "Invalid order type: HOLD. Must be 'MARKET' or 'LIMIT'" []
         eq_refl).
Defined.

Lemma unreadable_prompt_is_a_failure_witness :
exists before,
  Cli.main (Sample.args "MARKET" "0.001" None) Sample.closed_stdin_env [] =
  (Ok 1,
   (before ++
      [Print (nl ++ " Unexpected error: " ++ "EOF when reading a line");
       Log Cli.logger ERROR
           ("Unexpected error in main: " ++ "EOF when reading a line")])%list)
  /\ filter is_network before = [].
Proof.
assert (Hc : Outcome.credentials Sample.closed_stdin_env
               "testnet-credential" "testnet-credential")
  by (repeat split; discriminate).
exact (unreadable_prompt_is_a_failure
         (Sample.args "MARKET" "0.001" None) Sample.closed_stdin_env
         ("ETHUSDT", "SELL", "MARKET", f_0_001, None)
         [Print " All inputs validated successfully!"]
         "testnet-credential" "testnet-credential"
         (Exception "EOF when reading a line")
         eq_refl Hc eq_refl eq_refl).
Defined.

Lemma api_rejection_shown_to_user_witness :
exists before,
  Cli.main (Sample.args "MARKET" "0.001" None) Sample.rejecting_env [] =
  (Ok 1,
   (before ++
      [Print (nl ++ " Failed to place order: " ++
              "Binance API Error: " ++ "Margin is insufficient." ++
              " (Error code: " ++ str_int (-2019) ++ ")");
       Log Cli.logger ERROR
           ("Order placement failed: " ++
            "Binance API Error: " ++ "Margin is insufficient." ++
            " (Error code: " ++ str_int (-2019) ++ ")")])%list).
Proof.
assert (Hc : Outcome.credentials Sample.rejecting_env
               "testnet-credential" "testnet-credential")
  by (repeat split; discriminate).
exact (api_rejection_shown_to_user
         (Sample.args "MARKET" "0.001" None) Sample.rejecting_env
         ("ETHUSDT", "SELL", "MARKET", f_0_001, None)
         [Print " All inputs validated successfully!"]
         "testnet-credential" "testnet-credential" "yes"
         (-2019) "Margin is insufficient."
         eq_refl Hc eq_refl eq_refl eq_refl eq_refl).
Defined.

(** ** Logging configuration *)

Section Logging.

Import LoggingConfig.

Variable now : moment.

Lemma handle_after_setup
      (lg : Logger) (t : moment) (name : string) (l : level)
      (msg : string) :
  handle (fst (setup_logging now lg)) t name l msg =
  (handle (setLevel lg DEBUG) t name l msg ++
     [(log_file now, format_record t name l msg);
      (Screen, format_record t name l msg)])%list.
Proof.
  unfold setup_logging, handle, addHandler, setLevel.
  cbn [fst logger_level handlers logger_name].
  destruct l; cbn [level_no]; change (DEBUG <=? 20) with true;
    change (DEBUG <=? 40) with true; cbv iota;
    rewrite <- app_assoc, flat_map_app; reflexivity.
Qed.

(** [setup_logging] adds to what the logger had: afterwards every
    record of the program, INFO or ERROR, of [trading_bot] or of a logger
    below it, is written by the handlers that were there before and then
    once to the log file of the day and once to the screen, in the format
    time - name - level - message. So after a second call every record
    is written twice. *)
Theorem setup_logging_adds_two_lines
        (lg : Logger) (t : moment) (name : string) (l : level)
        (msg : string) :
  let text := format_record t name l msg in
  handle (fst (setup_logging now lg)) t name l msg =
  (handle (setLevel lg DEBUG) t name l msg ++
     [(log_file now, text); (Screen, text)])%list /\
  forall later,
    handle (fst (setup_logging later
                   (fst (setup_logging now (new_logger "trading_bot")))))
           t name l msg =
    [(log_file now, text); (Screen, text);
     (log_file later, text); (Screen, text)].
Proof.
  cbv zeta. split.
  - unfold setup_logging, handle, addHandler, setLevel.
    cbn [fst logger_level handlers logger_name].
    rewrite <- app_assoc, flat_map_app.
    destruct l; reflexivity.
  - intros later. destruct l; reflexivity.
Qed.

(** After the one call that the program makes, on the fresh logger,
    the call itself has written its start line to the file and to the
    screen, and the log records of any trace are written, each once to
    the file of the day and once to the screen, in their order. *)
Theorem setup_logging_writes_file_and_screen
        (clock : nat -> moment) (tr : trace) :
  let configured := setup_logging now (new_logger "trading_bot") in
  let start :=
    format_record now "trading_bot" INFO
      ("Logging system started. Writing logs to: " ++
       "trading_bot_" ++ strftime_Ymd now ++ ".log") in
  snd configured = [(log_file now, start); (Screen, start)] /\
  forall n,
    written (fst configured) clock n tr =
    flat_map (fun text => [(log_file now, text); (Screen, text)])
             (texts clock n tr).
Proof.
  cbv zeta. split; [reflexivity|].
  induction tr as [|ev tr' IH]; intros n; [reflexivity|].
  destruct ev; cbn [written texts flat_map]; rewrite ?IH; try reflexivity.
  rewrite handle_after_setup. destruct lvl; reflexivity.
Qed.

End Logging.
